(** * Strategy compiler: logic validator, indicator registry, custom indicators

    A shallow embedding of the core of the strategy compiler:

    - [LogicValidator]  (validators/logic_validator.py): the five node
      validators, the type dispatch and the recursive traversal;
    - [IndicatorGenerator]  (generators/indicator_generator.py): the
      indicator registry, its canonical keys, initialization lines and
      access expressions;
    - [MaxDrawdownIndicator], [DrawdownIndicator]
      (indicators/*.py): the rolling-window indicators.

    Python values are modelled by the type [value] of JSON-shaped data
    (the nodes come out of [json.load]): dictionaries are association
    lists in insertion order with string keys, integers are unbounded,
    floats are IEEE binary64 numbers ([spec_float] at precision 53).
    Text is modelled as byte strings; [upper], [lower] and [strip] are the
    ASCII restrictions of the corresponding [str] methods.  The two
    conversions between floats and text belong to the Python runtime and
    are taken as an interface ([FloatText]).

    A Python exception is an explicit outcome ([Raise]); printing and
    [sys.exit] are explicit in the outcome of the traversal ([run]).  The
    interpreter's recursion limit is not modelled: the traversal is total
    on trees of any depth. *)

From Stdlib Require Import ZArith Ascii String List Lia DecimalString.
From Stdlib Require Import Floats.SpecFloat.
From Stdlib Require DecimalPos DecimalZ.
From stdpp Require Import base list strings gmap sorting.

Set Warnings "-register-all".
Local Open Scope Z_scope.

(** ** Exceptions and results *)

Inductive exn : Type :=
| AttributeError
| TypeError
| ValueError
| UnboundLocalError
| OverflowError.

Inductive result (A : Type) : Type :=
| Ret (a : A)
| Raise (e : exn).
Arguments Ret {A} a.
Arguments Raise {A} e.

#[global] Instance result_ret : MRet result := λ A a, Ret a.
#[global] Instance result_bind : MBind result := λ A B f m,
  match m with
  | Ret a => f a
  | Raise e => Raise e
  end.

Definition returns {A} (m : result A) : Prop := ∃ a, m = Ret a.

(** ** Python values *)

Definition float : Type := spec_float.

Inductive value : Type :=
| VNone
| VBool (b : bool)
| VInt (z : Z)
| VFloat (f : float)
| VStr (s : string)
| VList (l : list value)
| VDict (d : list (string * value)).

Definition dict : Type := list (string * value).

(** The runtime's conversions between floats and text: [repr] of a float
    (used by [str] and by f-strings) and the parser behind [float(s)]. *)
Class FloatText : Type := {
  float_repr : float → string;
  float_of_str : string → option float;
}.

Module Py.

(** *** Floats *)

Definition prec : Z := 53.
Definition emax : Z := 1024.

Definition fzero : float := S754_zero false.
Definition fone : float := binary_normalize prec emax 1 0 false.
Definition flt (x y : float) : bool := SFltb x y.
Definition feq (x y : float) : bool := SFeqb x y.
Definition fsub (x y : float) : float := SFsub prec emax x y.
Definition fdiv (x y : float) : float := SFdiv prec emax x y.

(** [float(z)] for an int: rounds to nearest even, [OverflowError] when
    the integer is too large. *)
Definition float_of_int (z : Z) : result float :=
  match binary_normalize prec emax z 0 false with
  | S754_infinity _ => Raise OverflowError
  | f => Ret f
  end.

(** *** Text *)

(** [upper] and [lower] change the ASCII letters.  The statements below
    use them through facts that also hold of [str.upper] and [str.lower]
    on any text ([upper] twice is [upper], only the empty string has an
    empty [upper], [lower] commutes with [strip]); nothing else of the
    two functions is used. *)
Definition upper_char (c : ascii) : ascii :=
  let n := nat_of_ascii c in
  if (97 <=? n)%nat && (n <=? 122)%nat then ascii_of_nat (n - 32) else c.

Definition lower_char (c : ascii) : ascii :=
  let n := nat_of_ascii c in
  if (65 <=? n)%nat && (n <=? 90)%nat then ascii_of_nat (n + 32) else c.

Fixpoint upper (s : string) : string :=
  match s with
  | EmptyString => EmptyString
  | String c s' => String (upper_char c) (upper s')
  end.

Fixpoint lower (s : string) : string :=
  match s with
  | EmptyString => EmptyString
  | String c s' => String (lower_char c) (lower s')
  end.

(** Whitespace of [str.strip()] below code 128. *)
Definition is_space (c : ascii) : bool :=
  let n := nat_of_ascii c in
  ((9 <=? n)%nat && (n <=? 13)%nat) || ((28 <=? n)%nat && (n <=? 32)%nat).

Fixpoint lstrip (s : string) : string :=
  match s with
  | EmptyString => EmptyString
  | String c s' => if is_space c then lstrip s' else s
  end.

Fixpoint rstrip (s : string) : string :=
  match s with
  | EmptyString => EmptyString
  | String c s' =>
      match rstrip s' with
      | EmptyString => if is_space c then EmptyString else String c EmptyString
      | r => String c r
      end
  end.

Definition strip (s : string) : string := rstrip (lstrip s).

Definition nonempty (s : string) : bool :=
  match s with EmptyString => false | _ => true end.

(** [sub in s] on two strings. *)
Definition contains (sub s : string) : bool :=
  match String.index 0 sub s with Some _ => true | None => false end.

(** The characters of a string, each as a one-character string. *)
Fixpoint chars (s : string) : list string :=
  match s with
  | EmptyString => []
  | String c s' => String c EmptyString :: chars s'
  end.

Fixpoint replace_char (a b : ascii) (s : string) : string :=
  match s with
  | EmptyString => EmptyString
  | String c s' => String (if Ascii.eqb c a then b else c) (replace_char a b s')
  end.

Definition join (sep : string) (l : list string) : string := String.concat sep l.

(** [sorted] on a list of strings. *)
Definition sorted (l : list string) : list string := merge_sort String.le l.

Definition int_str (z : Z) : string := NilZero.string_of_int (Z.to_int z).

Definition hex_digit (n : nat) : ascii :=
  if (n <? 10)%nat then ascii_of_nat (48 + n) else ascii_of_nat (87 + n).

Definition has_char (a : ascii) (s : string) : bool :=
  existsb (Ascii.eqb a) (list_ascii_of_string s).

Definition repr_char (quote c : ascii) : string :=
  let n := nat_of_ascii c in
  if Ascii.eqb c quote || Ascii.eqb c "\"%char then String "\"%char (String c EmptyString)
  else if (n =? 9)%nat then "\t"
  else if (n =? 10)%nat then "\n"
  else if (n =? 13)%nat then "\r"
  else if (n <? 32)%nat || (n =? 127)%nat then
    String "\"%char (String "x"%char
      (String (hex_digit (n / 16)) (String (hex_digit (n mod 16)) EmptyString)))
  else String c EmptyString.

Fixpoint repr_body (quote : ascii) (s : string) : string :=
  match s with
  | EmptyString => EmptyString
  | String c s' => repr_char quote c +:+ repr_body quote s'
  end.

(** [repr] of a string: single quotes unless the text holds a single
    quote and no double quote. *)
Definition repr_str (s : string) : string :=
  let quote : ascii :=
    if has_char "'"%char s && negb (has_char (ascii_of_nat 34) s)
    then ascii_of_nat 34 else "'"%char in
  String quote (repr_body quote s +:+ String quote EmptyString).

Section text_of_values.
Context `{FloatText}.

Fixpoint repr (v : value) : string :=
  match v with
  | VNone => "None"
  | VBool true => "True"
  | VBool false => "False"
  | VInt z => int_str z
  | VFloat f => float_repr f
  | VStr s => repr_str s
  | VList l => "[" +:+ join ", " (map repr l) +:+ "]"
  | VDict d =>
      "{" +:+ join ", " (map (λ '(k, x), repr_str k +:+ ": " +:+ repr x) d) +:+ "}"
  end.

(** [str(v)], also what an f-string field [{v}] prints. *)
Definition str (v : value) : string :=
  match v with
  | VStr s => s
  | _ => repr v
  end.

(** [float(v)]. *)
Definition to_float (v : value) : result float :=
  match v with
  | VInt z => float_of_int z
  | VBool b => Ret (if b then fone else fzero)
  | VFloat f => Ret f
  | VStr s =>
      match float_of_str s with
      | Some f => Ret f
      | None => Raise ValueError
      end
  | VNone | VList _ | VDict _ => Raise TypeError
  end.
End text_of_values.

(** *** Dictionaries *)

Fixpoint lookup (k : string) (d : dict) : option value :=
  match d with
  | [] => None
  | (k', v) :: d' => if String.eqb k' k then Some v else lookup k d'
  end.

(** [k in d] *)
Definition has_key (k : string) (d : dict) : bool :=
  match lookup k d with Some _ => true | None => false end.

(** [d.get(k)] and [d.get(k, dflt)] *)
Definition get (d : dict) (k : string) : value := default VNone (lookup k d).
Definition get_or (d : dict) (k : string) (dflt : value) : value :=
  default dflt (lookup k d).

Definition keys (d : dict) : list string := d.*1.

(** *** Type tests, truth, equality with a string constant *)

Definition is_dict (v : value) : bool := match v with VDict _ => true | _ => false end.
Definition is_list (v : value) : bool := match v with VList _ => true | _ => false end.
Definition is_str (v : value) : bool := match v with VStr _ => true | _ => false end.
Definition is_bool (v : value) : bool := match v with VBool _ => true | _ => false end.
Definition is_none (v : value) : bool := match v with VNone => true | _ => false end.

(** [isinstance(v, (int, float))] *)
Definition is_int_or_float (v : value) : bool :=
  match v with VInt _ | VBool _ | VFloat _ => true | _ => false end.

(** The integer behind an instance of [int]; a bool is one. *)
Definition int_val (v : value) : option Z :=
  match v with
  | VInt z => Some z
  | VBool b => Some (if b then 1 else 0)
  | _ => None
  end.

Definition truthy (v : value) : bool :=
  match v with
  | VNone => false
  | VBool b => b
  | VInt z => negb (z =? 0)
  | VFloat f => negb (feq f fzero)
  | VStr s => nonempty s
  | VList l => match l with [] => false | _ => true end
  | VDict d => match d with [] => false | _ => true end
  end.

(** [v == "s"] *)
Definition eq_str (v : value) (s : string) : bool :=
  match v with VStr t => String.eqb t s | _ => false end.

Definition mem (s : string) (l : list string) : bool := bool_decide (s ∈ l).

(** [v in {"a", "b", ...}]: membership in a set of strings hashes [v];
    lists and dicts are unhashable. *)
Definition in_str_set (v : value) (names : list string) : result bool :=
  match v with
  | VList _ | VDict _ => Raise TypeError
  | VStr s => Ret (mem s names)
  | _ => Ret false
  end.

(** [v in ["a", "b", ...]]: membership in a list only compares. *)
Definition in_str_list (v : value) (names : list string) : bool :=
  match v with VStr s => mem s names | _ => false end.

(** [all(isinstance(s, str) for s in l)] *)
Definition all_str (l : list value) : bool := forallb is_str l.

End Py.

(** ** validators/logic_validator.py *)

Module LogicValidator.
Import Py.

Definition _CONDITION_OPS : list string :=
  ["gt"; "gte"; "lt"; "lte"; "eq"; "neq"; "crosses_above"; "crosses_below"].

Definition allowed_metrics : list string :=
  ["current-price"; "sma"; "ema"; "rsi"; "cumulative-return";
   "moving-avg-price"; "moving-avg-return"; "std-dev-price";
   "std-dev-return"; "max-drawdown"; "volatility"; "returns"; "drawdown";
   "vix"; "month"; "day-of-week"; "day-of-month"; "day-of-year";
   "moving-average-price"; "exponential-moving-average-price";
   "standard-deviation-price"].

Definition DEFAULT_ALLOWED_METRICS : list string := allowed_metrics.

Definition _SCHEMA_NODE_TYPES : list string :=
  ["group"; "condition"; "filter"; "order"; "exit"; "expression"; "weight"].

Definition METRICS_REQUIRE_PERIOD : list string :=
  ["sma"; "ema"; "rsi"; "moving-avg-price"; "moving-avg-return";
   "std-dev-price"; "std-dev-return"; "volatility"; "returns"; "drawdown"].

(** The result of a node validator: [(is_valid, errors)]. *)
Definition verdict : Type := bool * list string.

Definition finish (errors : list string) : result verdict :=
  Ret (bool_decide (errors = []), errors).

(** [[msg] if b else []]: one conditional [errors.append(msg)]. *)
Definition err_if (b : bool) (msg : string) : list string :=
  if b then [msg] else [].

Section validators.
Context `{FloatText}.

(** *** validate_order_node *)

(** What iterating [universe] and calling [.upper()] on each item
    yields: the items of a list, the characters of a string, the keys
    of a dict; other values are not iterable, and an item that is not
    a string has no [upper]. *)
Definition upper_each (universe : value) : result (list string) :=
  match universe with
  | VList l =>
      mapM (λ s, match s with
                 | VStr t => Ret (upper t)
                 | _ => Raise AttributeError
                 end) l
  | VStr s => Ret (upper <$> chars s)
  | VDict d => Ret (upper <$> keys d)
  | VNone | VBool _ | VInt _ | VFloat _ => Raise TypeError
  end.

Definition order_prefix (node_id : value) : string :=
  "For order '" +:+ str node_id +:+ "', ".

(** The loop over [weights.items()].  [w] is the local variable of the
    same name: unbound ([None]) until a first [float(v)] succeeds, and
    left as it was when [float(v)] raises. *)
Fixpoint weights_loop (node_id : value) (symbols : gset string)
    (items : dict) (w : option float) : result (list string) :=
  match items with
  | [] => Ret []
  | (k, v) :: rest =>
      let sym := upper k in
      let e_unexpected :=
        err_if (bool_decide (sym ∉ symbols))
          (order_prefix node_id +:+
           "Unexpected weight for symbol not referenced by node: " +:+ sym) in
      let not_a_number :=
        order_prefix node_id +:+ "Weight for " +:+ sym +:+ " must be a number" in
      if is_list v || is_dict v || is_bool v then
        es ← weights_loop node_id symbols rest w;
        Ret (e_unexpected ++ [not_a_number] ++ es)
      else
        let '(e_number, w') :=
          match to_float v with
          | Ret f => ([], Some f)
          | Raise _ => ([not_a_number], w)
          end in
        match w' with
        | None => Raise UnboundLocalError
        | Some f =>
            es ← weights_loop node_id symbols rest w';
            Ret (e_unexpected ++ e_number ++
                 err_if (flt f fzero)
                   (order_prefix node_id +:+ "Weight for " +:+ sym +:+ " must be >= 0")
                 ++ es)
        end
  end.

(** The symbols an order node refers to, as the code collects them. *)
Definition order_symbols (wd : dict) (symbol_filter : value)
    (universe_symbols : list string) : gset string :=
  (if truthy (VDict wd) then list_to_set (upper <$> keys wd) else ∅)
  ∪ (if truthy symbol_filter then {[ upper (str symbol_filter) ]} else ∅)
  ∪ list_to_set universe_symbols.

Definition weight_keys (wd : dict) : gset string :=
  list_to_set (upper <$> keys wd).

Definition missing_weights (symbols : gset string) (wd : dict) : list string :=
  sorted (elements (filter (λ sym, sym ∉ weight_keys wd) symbols)).

Definition missing_weights_error (node_id : value) (missing : list string) : string :=
  order_prefix node_id +:+ "Missing weight(s) for: " +:+ join ", " missing.

Definition validate_order_node (node : value) (allowed_tickers : list string)
    : result verdict :=
  match node with
  | VDict nd =>
      let node_id := get nd "id" in
      if negb (eq_str (get nd "type") "order") then
        Ret (false, ["For order '{node_id}', node.type must be 'order'"])
      else
      let id_string := get nd "id" in
      let e_id :=
        err_if (truthy id_string && negb (is_str id_string))
          "order.id must be a string when provided" in
      let e_side_str :=
        err_if (negb (is_str (get nd "side")))
          "For order '{node_id}', order.side must be a string" in
      let side := match get nd "side" with VStr s => s | _ => "" end in
      let e_side :=
        err_if (negb (mem side ["long"; "short"]))
          (order_prefix node_id +:+ "order.side must be 'long' or 'short'") in
      size_type_ok ←
        in_str_set (get_or nd "size_type" (VStr "percent_equity"))
          ["percent_equity"; "fixed_qty"; "fixed_value"; "risk_based"];
      let e_size_type :=
        err_if (negb size_type_ok)
          (order_prefix node_id +:+
           "order.size_type must be one of: percent_equity, fixed_qty, fixed_value, risk_based") in
      let e_alloc_str :=
        err_if (negb (is_str (get_or nd "allocation" (VStr "equal"))))
          "For order '{node_id}', order.allocation must be a string" in
      let allocation :=
        match get_or nd "allocation" (VStr "equal") with VStr s => s | _ => "" end in
      let e_alloc :=
        err_if (negb (mem allocation ["equal"; "weighted"; "custom"]))
          (order_prefix node_id +:+
           "order.allocation must be one of: equal, weighted, custom") in
      e_size ←
        (if has_key "size" nd && negb (is_int_or_float (get nd "size")) then
           Ret ["For order '{node_id}', order.size must be a number when provided"]
         else if has_key "size" nd then
           size ← to_float (get nd "size");
           Ret (err_if (flt size fzero)
                  "For order '{node_id}', order.size must be >= 0")
         else Ret []);
      let weights := if truthy (get nd "weights") then get nd "weights" else VDict [] in
      let e_weights :=
        err_if (negb (is_dict weights))
          "For order '{node_id}', order.weights must be an object/dict when provided" in
      (* [weights.keys()] on a truthy value that is not a dict *)
      wd ← match weights with VDict wd => Ret wd | _ => Raise AttributeError end;
      let symbol_filter := get nd "symbol_filter" in
      let universe := if truthy (get nd "universe") then get nd "universe" else VList [] in
      let e_universe :=
        err_if (truthy universe &&
                (negb (is_list universe) ||
                 negb (match universe with VList l => all_str l | _ => true end)))
          "For order '{node_id}', order.universe must be an array of strings when provided" in
      universe_symbols ← (if truthy universe then upper_each universe else Ret []);
      let symbols := order_symbols wd symbol_filter universe_symbols in
      let e_no_symbols :=
        err_if (bool_decide (symbols = ∅))
          "For order '{node_id}', No symbols found: provide at least one via weights, symbol_filter, or universe" in
      let allowed : gset string := list_to_set (upper <$> allowed_tickers) in
      let invalid := sorted (elements (filter (λ sym, sym ∉ allowed) symbols)) in
      let e_invalid :=
        err_if (bool_decide (invalid ≠ []))
          (order_prefix node_id +:+ "Symbols not allowed: " +:+ join ", " invalid) in
      let missing := missing_weights symbols wd in
      let e_missing :=
        err_if (bool_decide (missing ≠ [])) (missing_weights_error node_id missing) in
      e_loop ← weights_loop node_id symbols wd None;
      finish (e_id ++ e_side_str ++ e_side ++ e_size_type ++ e_alloc_str ++ e_alloc
              ++ e_size ++ e_weights ++ e_universe ++ e_no_symbols ++ e_invalid
              ++ e_missing ++ e_loop)
  | _ => Ret (false, ["order node must be a dict"])
  end.

(** *** validate_group_node *)

(** [len(children)] and the items [enumerate(children)] runs over. *)
Definition py_len (v : value) : result nat :=
  match v with
  | VList l => Ret (length l)
  | VStr s => Ret (String.length s)
  | VDict d => Ret (length d)
  | VNone | VBool _ | VInt _ | VFloat _ => Raise TypeError
  end.

Definition py_iter (v : value) : result (list value) :=
  match v with
  | VList l => Ret l
  | VStr s => Ret (VStr <$> chars s)
  | VDict d => Ret (VStr <$> keys d)
  | VNone | VBool _ | VInt _ | VFloat _ => Raise TypeError
  end.

Definition sorted_repr (names : list string) : string :=
  repr (VList (VStr <$> sorted names)).

Definition group_child_prefix (node_id : value) (idx : nat) : string :=
  order_prefix node_id +:+ "group.child[" +:+ int_str (Z.of_nat idx) +:+ "]".

Fixpoint group_children_loop (node_id : value) (idx : nat) (children : list value)
    : result (list string) :=
  match children with
  | [] => Ret []
  | child :: rest =>
      match child with
      | VDict cd =>
          let ctype := get cd "type" in
          let e_str :=
            err_if (negb (is_str ctype))
              (group_child_prefix node_id idx +:+ ".type must be a string") in
          allowed ← in_str_set ctype _SCHEMA_NODE_TYPES;
          let e_allowed :=
            err_if (negb allowed)
              (group_child_prefix node_id idx +:+ ".type '" +:+ str ctype +:+
               "' is not allowed here (allowed: " +:+
               sorted_repr _SCHEMA_NODE_TYPES +:+ ")") in
          es ← group_children_loop node_id (S idx) rest;
          Ret (e_str ++ e_allowed ++ es)
      | _ =>
          (* the error is appended, then [child.get] fails *)
          Raise AttributeError
      end
  end.

Definition validate_group_node (node : value)
    (require_children require_description : bool) : result verdict :=
  match node with
  | VDict nd =>
      let e_type :=
        err_if (negb (eq_str (get nd "type") "group"))
          "For order '{node_id}', node.type must be 'group'" in
      let node_id := get nd "id" in
      let e_id :=
        err_if (negb (is_none node_id) && negb (is_str node_id))
          "For order '{node_id}', group.id must be a string when provided" in
      let desc := get nd "description" in
      let e_desc :=
        if require_description then
          err_if (match desc with VStr d => negb (nonempty (strip d)) | _ => true end)
            "For order '{node_id}', group.description is required and must be a non-empty string"
        else
          err_if (negb (is_none desc) && negb (is_str desc))
            "For order '{node_id}', group.description must be a string when provided" in
      let children :=
        match get_or nd "children" (VList []) with
        | VNone => VList []
        | c => c
        end in
      let e_array :=
        err_if (require_children && negb (is_list children))
          "For order '{node_id}', group.children must be an array when provided" in
      e_empty ←
        (if require_children then
           n ← py_len children;
           Ret (err_if (bool_decide (n = 0%nat))
                  "For order '{node_id}', group must contain at least one child")
         else Ret []);
      let e_array' :=
        err_if (negb (is_list children))
          "For order '{node_id}', group.children must be an array if present" in
      items ← py_iter children;
      e_children ← group_children_loop node_id 0 items;
      finish (e_type ++ e_id ++ e_desc ++ e_array ++ e_empty ++ e_array' ++ e_children)
  | _ => Ret (false, ["group node must be a dict"])
  end.

(** *** validate_weight_node *)

Definition ALLOCATION_METHODS : list string :=
  ["explicit_weights"; "inverse_volatility"].

Definition weight_prefix (node_id : value) : string :=
  "For weight " +:+ str node_id +:+ ", ".

Definition validate_weight_node (node : value) (allowed_symbols : list string)
    : result verdict :=
  match node with
  | VDict nd =>
      let type_of_node := get nd "type" in
      let node_id := get nd "id" in
      let e_type :=
        err_if (negb (eq_str type_of_node "weight"))
          (weight_prefix node_id +:+ "Weight node must be a type 'weight'") in
      let allocation_method := get nd "allocation_method" in
      let e_method :=
        if is_none allocation_method then
          [weight_prefix node_id +:+ "Weight node must have an allocation_method"]
        else
          err_if (negb (in_str_list allocation_method ALLOCATION_METHODS))
            (weight_prefix node_id +:+
             "Weight node allocation_method must be one of: " +:+
             join ", " ALLOCATION_METHODS) in
      finish (e_type ++ e_method)
  | _ =>
      (* [node.get("type")] runs before the [isinstance] test *)
      Raise AttributeError
  end.

(** *** validate_condition_node *)

(** The keyword arguments of [validate_condition_node]. *)
Record condition_options : Type := {
  opt_allowed_metrics : option (list string);
  opt_allowed_symbols : option (list string);
  require_symbol_for_metrics : bool;
  validate_else : bool;
  else_required : bool;
  else_label : string;
  else_must_be_last : bool;
  else_require_children : bool;
}.

Definition default_options : condition_options := {|
  opt_allowed_metrics := None;
  opt_allowed_symbols := None;
  require_symbol_for_metrics := true;
  validate_else := true;
  else_required := false;
  else_label := "Else branch";
  else_must_be_last := true;
  else_require_children := true;
|}.

(** A parsed operand: the dict with its ["kind"]. *)
Inductive operand : Type :=
| Metric (name : string) (args : dict) (symbol : option string)
| Literal (x : float)
| Invalid.

Definition is_metric (o : operand) : bool :=
  match o with Metric _ _ _ => true | _ => false end.
Definition is_literal (o : operand) : bool :=
  match o with Literal _ => true | _ => false end.

Definition cond_prefix (node_id : value) : string :=
  "For condition '" +:+ str node_id +:+ "', ".

(** [set(f(x) for x in xs) if xs else None] *)
Definition normalized_set (f : string → string) (xs : option (list string))
    : option (list string) :=
  match xs with
  | Some (x :: l) => Some (f <$> (x :: l))
  | _ => None
  end.

(** [not isinstance(period, int) or period <= 0] *)
Definition bad_period (period : value) : bool :=
  match int_val period with
  | Some z => z <=? 0
  | None => true
  end.

Definition _is_number (x : value) : bool :=
  is_int_or_float x && negb (is_bool x).

Definition _validate_metric (o : condition_options) (node_id : value)
    (m : value) (side : string) : option operand * list string :=
  match m with
  | VDict md =>
      match get md "name" with
      | VStr name =>
          if negb (nonempty (strip name)) then
            (None, [cond_prefix node_id +:+ side +:+
                    ": metric.name must be a non-empty string"])
          else
          let lname := lower (strip name) in
          let e_allowed :=
            match normalized_set lower (opt_allowed_metrics o) with
            | Some names =>
                err_if (negb (mem lname names))
                  (cond_prefix node_id +:+ side +:+ ": metric.name '" +:+ name +:+
                   "' is not in allowed_metrics")
            | None => []
            end in
          let args0 :=
            match get_or md "args" (VDict []) with
            | VNone => VDict []
            | a => a
            end in
          let e_args :=
            err_if (negb (is_dict args0))
              (cond_prefix node_id +:+ side +:+
               ": metric.args must be a dict when provided") in
          let args := match args0 with VDict a => a | _ => [] end in
          let sym := get md "symbol" in
          let sym_ok := match sym with VStr s => nonempty (strip s) | _ => false end in
          let e_symbol :=
            err_if (require_symbol_for_metrics o && negb sym_ok)
              (cond_prefix node_id +:+ side +:+
               ": metric.symbol is required and must be a non-empty string") in
          let sym_norm :=
            match sym with
            | VStr s => if sym_ok then Some (upper (strip s)) else None
            | _ => None
            end in
          let e_symbol_allowed :=
            match normalized_set upper (opt_allowed_symbols o), sym_norm with
            | Some tickers, Some s =>
                err_if (negb (mem s tickers))
                  (cond_prefix node_id +:+ side +:+ ": symbol '" +:+ s +:+
                   "' is not in allowed_symbols")
            | _, _ => []
            end in
          let e_period :=
            err_if (mem lname ["moving-average-price"; "rsi"] &&
                    bad_period (get args "period"))
              (cond_prefix node_id +:+ side +:+ ": metric '" +:+ name +:+
               "' requires args.period as positive int") in
          (Some (Metric name args sym_norm),
           e_allowed ++ e_args ++ e_symbol ++ e_symbol_allowed ++ e_period)
      | _ =>
          (None, [cond_prefix node_id +:+ side +:+
                  ": metric.name must be a non-empty string"])
      end
  | _ =>
      (None, [cond_prefix node_id +:+ side +:+ ": metric operand must be an object"])
  end.

Definition operand_type_error (node_id : value) (side : string) : string :=
  cond_prefix node_id +:+ side +:+
  ": operand must be a metric object or a numeric literal".

Definition _parse_operand (o : condition_options) (node_id : value)
    (x : value) (side : string) : result (operand * list string) :=
  if match x with VDict xd => has_key "name" xd | _ => false end then
    let '(parsed, es) := _validate_metric o node_id x side in
    Ret (default Invalid parsed, es)
  else if _is_number x then
    f ← to_float x;
    Ret (Literal f, [])
  else Ret (Invalid, [operand_type_error node_id side]).

Definition _is_else_group (label_norm : string) (c : value) : bool :=
  match c with
  | VDict cd =>
      eq_str (get cd "type") "group" &&
      match get cd "description" with
      | VStr d => String.eqb (lower (strip d)) label_norm
      | _ => false
      end
  | _ => false
  end.

(** [[i for i, c in enumerate(children) if _is_else_group(c)]], the
    enumeration starting at [i]. *)
Fixpoint else_idxs_from (label_norm : string) (i : nat) (children : list value)
    : list nat :=
  match children with
  | [] => []
  | c :: rest =>
      (if _is_else_group label_norm c then [i] else [])
      ++ else_idxs_from label_norm (S i) rest
  end.

Definition else_idxs (label_norm : string) (children : list value) : list nat :=
  else_idxs_from label_norm 0 children.

Definition multiple_else_error (node_id : value) : string :=
  "For condition '" +:+ str node_id +:+
  "',condition has multiple Else branch groups; only one is allowed".

Definition else_not_last_error (node_id : value) : string :=
  "For condition '" +:+ str node_id +:+
  "',Else branch must be the last direct child of the condition".

(** The block under [if validate_else:].  [node_id] is the id after the
    "optional id" step: [None] when the id was not a string. *)
Definition else_errors (o : condition_options) (node_id : value) (nd : dict)
    : list string :=
  let children0 :=
    match get_or nd "children" (VList []) with
    | VNone => VList []
    | c => c
    end in
  let e_array :=
    err_if (negb (is_list children0))
      (cond_prefix node_id +:+ "condition.children must be an array when provided") in
  let children := match children0 with VList l => l | _ => [] end in
  let label_norm := lower (strip (else_label o)) in
  let idxs := else_idxs label_norm children in
  let e_required :=
    err_if (else_required o && bool_decide (idxs = []))
      (cond_prefix node_id +:+
       "condition requires an Else branch group but none was found") in
  let e_multiple :=
    err_if (bool_decide (1 < length idxs)%nat) (multiple_else_error node_id) in
  let e_branch :=
    match idxs with
    | [] => []
    | idx :: _ =>
        let else_node := default VNone (children !! idx) in
        let e_last :=
          err_if (else_must_be_last o &&
                  bool_decide (Z.of_nat idx ≠ Z.of_nat (length children) - 1))
            (else_not_last_error node_id) in
        let eb0 :=
          match else_node with
          | VDict ed =>
              match get_or ed "children" (VList []) with
              | VNone => VList []
              | c => c
              end
          | _ => VList []
          end in
        let e_eb_array :=
          err_if (negb (is_list eb0))
            ("For condition '" +:+ str node_id +:+
             "',Else branch 'children' must be an array") in
        let eb_children := match eb0 with VList l => l | _ => [] end in
        let e_eb_empty :=
          err_if (else_require_children o && bool_decide (length eb_children = 0%nat))
            ("For condition '" +:+ str node_id +:+
             "',Else branch must contain at least one child") in
        let e_then :=
          err_if (bool_decide (Z.of_nat (length children) - 1 < 1))
            "Condition must have at least one non-Else child as the THEN branch" in
        e_last ++ e_eb_array ++ e_eb_empty ++ e_then
    end in
  e_array ++ e_required ++ e_multiple ++ e_branch.

Definition crosses_error (node_id : value) (op : string) : string :=
  "For condition '" +:+ str node_id +:+ "'," +:+ op +:+
  " requires both lhs and rhs to be metrics (no literals)".

Definition both_literal_error (node_id : value) (op : string) : string :=
  cond_prefix node_id +:+ op +:+ " requires at least one operand to be a metric".

Definition validate_condition_node (o : condition_options) (node : value)
    : result verdict :=
  match node with
  | VDict nd =>
      let node_id := get nd "id" in
      let e_type :=
        err_if (negb (eq_str (get nd "type") "condition"))
          "For condition '{node_id}', node.type must be 'condition'" in
      let has_lhs := has_key "lhs" nd in
      let has_op := has_key "operator" nd in
      let paired := (negb has_lhs && negb has_op) || (has_lhs && has_op) in
      let e_pair :=
        err_if (negb paired)
          (cond_prefix node_id +:+
           "All two of condition.lhs, and condition.operator are required") in
      let flag_check_for_operator := negb (paired && negb has_lhs && negb has_op) in
      let e_op_str :=
        err_if (flag_check_for_operator && negb (is_str (get nd "operator")))
          "For condition '{node_id}', condition.operator must be a string" in
      let op := match get nd "operator" with VStr s => s | _ => "" end in
      let e_op :=
        err_if (flag_check_for_operator && negb (mem op _CONDITION_OPS))
          ("condition.operator must be one of " +:+ sorted_repr _CONDITION_OPS) in
      '(lhs_norm, e_lhs) ←
        (if has_lhs then _parse_operand o node_id (get nd "lhs") "lhs"
         else Ret (Invalid, []));
      '(rhs_norm, e_rhs) ←
        (if has_key "rhs" nd then _parse_operand o node_id (get nd "rhs") "rhs"
         else Ret (Invalid, []));
      let e_crosses :=
        err_if (flag_check_for_operator &&
                mem op ["crosses_above"; "crosses_below"] &&
                (negb (is_metric lhs_norm) || negb (is_metric rhs_norm)))
          (crosses_error node_id op) in
      let e_literals :=
        err_if (flag_check_for_operator &&
                mem op ["gt"; "gte"; "lt"; "lte"; "eq"; "neq"] &&
                (is_literal lhs_norm && is_literal rhs_norm))
          (both_literal_error node_id op) in
      let e_id :=
        err_if (negb (is_none node_id) && negb (is_str node_id))
          (cond_prefix node_id +:+ "condition.id must be a string when provided") in
      let node_id' := if is_str node_id then node_id else VNone in
      let desc := get nd "description" in
      let e_desc :=
        err_if (negb (is_none desc) && negb (is_str desc))
          "For condition '{node_id}', condition.description must be a string when provided" in
      let e_else := if validate_else o then else_errors o node_id' nd else [] in
      finish (e_type ++ e_pair ++ e_op_str ++ e_op ++ e_lhs ++ e_rhs ++ e_crosses
              ++ e_literals ++ e_id ++ e_desc ++ e_else)
  | _ => Ret (false, ["condition node must be a dict"])
  end.

(** *** validate_filter_node *)

Definition filter_prefix (node_id : value) : string :=
  "For filter '" +:+ str node_id +:+ "', ".

(** The normalisation loop: upper-cased, stripped, first occurrence
    kept, empty names dropped. *)
Fixpoint universe_loop (seen : gset string) (raw : list string) : list string :=
  match raw with
  | [] => []
  | s :: rest =>
      let sym := upper (strip s) in
      if nonempty sym && bool_decide (sym ∉ seen)
      then sym :: universe_loop ({[ sym ]} ∪ seen) rest
      else universe_loop seen rest
  end.

Definition str_items (l : list value) : list string :=
  omap (λ v, match v with VStr s => Some s | _ => None end) l.

Definition validate_filter_node (node : value)
    (allowed_metrics : option (list string))
    (allowed_symbols : option (list string))
    (require_universe_nonempty : bool) : result verdict :=
  match node with
  | VDict nd =>
      let node_id := get nd "id" in
      let e_type :=
        err_if (negb (eq_str (get nd "type") "filter"))
          (filter_prefix node_id +:+ "node.type must be 'filter'") in
      let e_id :=
        err_if (negb (is_none node_id) && negb (is_str node_id))
          (filter_prefix node_id +:+ "filter.id must be a string when provided") in
      let node_id := if is_str node_id then node_id else VNone in
      let desc := get nd "description" in
      let e_desc :=
        err_if (negb (is_none desc) && negb (is_str desc))
          (filter_prefix node_id +:+ "filter.description must be a string when provided") in
      let raw0 :=
        match get_or nd "universe" (VList []) with
        | VNone => VList []
        | u => u
        end in
      let universe_ok := match raw0 with VList l => all_str l | _ => false end in
      let e_universe :=
        err_if (negb universe_ok)
          (filter_prefix node_id +:+ "filter.universe must be an array of strings") in
      let raw_universe :=
        match raw0 with
        | VList l => if universe_ok then str_items l else []
        | _ => []
        end in
      let universe := universe_loop ∅ raw_universe in
      let e_empty :=
        err_if (require_universe_nonempty && bool_decide (length universe = 0%nat))
          (filter_prefix node_id +:+ "filter.universe must contain at least one symbol") in
      let e_not_allowed :=
        match allowed_symbols with
        | Some tickers =>
            let allowed_set : gset string := list_to_set ((upper ∘ strip) <$> tickers) in
            let invalid := List.filter (λ s, bool_decide (s ∉ allowed_set)) universe in
            err_if (bool_decide (invalid ≠ []))
              (filter_prefix node_id +:+ "filter.universe contains symbols not allowed: "
               +:+ join ", " invalid)
        | None => []
        end in
      select_ok ← in_str_set (get nd "select") ["top"; "bottom"; "middle"];
      let e_select :=
        err_if (negb select_ok)
          (filter_prefix node_id +:+
           "filter.select must be one of: 'top', 'bottom', 'middle'") in
      let selection0 := get_or nd "selection" (VDict []) in
      let e_selection :=
        err_if (negb (is_dict selection0))
          (filter_prefix node_id +:+
           "filter.selection must be an object with at least 'n'") in
      let selection := match selection0 with VDict sd => sd | _ => [] end in
      let n := get selection "n" in
      let e_n :=
        err_if (match int_val n with Some z => z <=? 0 | None => true end)
          (filter_prefix node_id +:+ "filter.selection.n must be a positive integer") in
      let e_n_size :=
        err_if (match int_val n with
                | Some z => (Z.of_nat (length universe) <? z)
                            && (0 <? Z.of_nat (length universe))
                | None => false
                end)
          (filter_prefix node_id +:+ "filter.selection.n (" +:+ str n +:+
           ") cannot exceed universe size (" +:+
           int_str (Z.of_nat (length universe)) +:+ ")") in
      e_metric ←
        match get nd "metric" with
        | VDict md =>
            let name0 := get md "name" in
            let name_ok := match name0 with VStr s => nonempty (strip s) | _ => false end in
            let metric_name :=
              match name0 with
              | VStr s => if name_ok then VStr (lower (strip s)) else name0
              | _ => name0
              end in
            let e_name :=
              if name_ok then
                let allowed_set := default DEFAULT_ALLOWED_METRICS allowed_metrics in
                err_if (negb (in_str_list metric_name allowed_set))
                  (filter_prefix node_id +:+ "filter.metric.name '" +:+
                   str metric_name +:+ "' is not allowed")
              else
                [filter_prefix node_id +:+
                 "filter.metric.name must be a non-empty string"] in
            let e_symbol :=
              err_if (match lookup "symbol" md with
                      | Some (VStr s) => nonempty (strip s)
                      | _ => false
                      end)
                (filter_prefix node_id +:+
                 "filter.metric.symbol should not be provided for a filter; metric applies to each universe symbol") in
            let args0 :=
              match get_or md "args" (VDict []) with
              | VNone => VDict []
              | a => a
              end in
            let e_args :=
              err_if (negb (is_dict args0))
                (filter_prefix node_id +:+
                 "filter.metric.args must be an object when provided") in
            let metric_args := match args0 with VDict a => a | _ => [] end in
            needs_period ← in_str_set metric_name METRICS_REQUIRE_PERIOD;
            let e_period :=
              err_if (needs_period && bad_period (get metric_args "period"))
                (filter_prefix node_id +:+ "filter.metric '" +:+ str metric_name +:+
                 "' requires 'args.period' as a positive integer") in
            Ret (e_name ++ e_symbol ++ e_args ++ e_period)
        | _ => Ret [filter_prefix node_id +:+ "filter.metric must be an object"]
        end;
      finish (e_type ++ e_id ++ e_desc ++ e_universe ++ e_empty ++ e_not_allowed
              ++ e_select ++ e_selection ++ e_n ++ e_n_size ++ e_metric)
  | _ =>
      (* [return False. errors]: the attribute [errors] of [False] *)
      Raise AttributeError
  end.

(** *** The traversal: printing, [sys.exit], exceptions *)

(** Why a run stopped: [sys.exit()] or an uncaught exception. *)
Inductive stop : Type :=
| Exit
| Uncaught (e : exn).

(** What a run printed, and whether it stopped ([None]: it returned). *)
Record run : Type := Run {
  printed : list string;
  stopped : option stop;
}.

Definition done : run := Run [] None.

Definition seq (a b : run) : run :=
  match stopped a with
  | Some _ => a
  | None => Run (printed a ++ printed b) (stopped b)
  end.

Definition handle_validation_errors (is_valid : bool) (errors : list string) : run :=
  if is_valid then done
  else Run ((λ error, "Error: " +:+ error) <$> errors) (Some Exit).

(** A validator call followed by [handle_validation_errors]. *)
Definition handle (r : result verdict) : run :=
  match r with
  | Ret (is_valid, errors) => handle_validation_errors is_valid errors
  | Raise e => Run [] (Some (Uncaught e))
  end.

Definition check_node_type_and_validate (data : value)
    (allowed_symbols : list string) : run :=
  match data with
  | VDict d =>
      let type_of_node := get d "type" in
      if eq_str type_of_node "condition" then
        handle (validate_condition_node default_options data)
      else if eq_str type_of_node "group" then
        handle (validate_group_node data true false)
      else if eq_str type_of_node "order" then
        handle (validate_order_node data allowed_symbols)
      else if eq_str type_of_node "filter" then
        handle (validate_filter_node data None (Some allowed_symbols) true)
      else if eq_str type_of_node "weight" then
        handle (validate_weight_node data allowed_symbols)
      else
        handle_validation_errors false ["Unknown node type: " +:+ str type_of_node]
  | _ => Run [] (Some (Uncaught AttributeError))
  end.

(** [if 'children' in data: present(data['children']) else: absent], as
    a loop over the entries of the dict. *)
Definition with_children {A} (absent : A) (present : value → A) : dict → A :=
  fix find (entries : dict) : A :=
    match entries with
    | [] => absent
    | (k, chidren_data) :: rest =>
        if String.eqb k "children" then present chidren_data else find rest
    end.

(** [for item in chidren_data: step(item)], until a step stops the run. *)
Definition for_each (step : value → run) : list value → run :=
  fix each (items : list value) : run :=
    match items with
    | [] => done
    | item :: more => seq (step item) (each more)
    end.

Fixpoint trace_json_data_recursive (data : value) (allowed_symbols : list string)
    {struct data} : run :=
  match data with
  | VDict d =>
      with_children
        (check_node_type_and_validate data allowed_symbols)
        (λ chidren_data,
           match chidren_data with
           | VList items =>
               for_each
                 (λ item,
                    if is_dict item then
                      seq (check_node_type_and_validate item allowed_symbols)
                          (trace_json_data_recursive item allowed_symbols)
                    else done)
                 items
           | VDict _ =>
               seq (check_node_type_and_validate chidren_data allowed_symbols)
                   (trace_json_data_recursive chidren_data allowed_symbols)
           | _ => done
           end)
        d
  | VList l =>
      (* ['children' in data] compares; [data['children']] needs an integer *)
      if existsb (λ item, eq_str item "children") l
      then Run [] (Some (Uncaught TypeError))
      else check_node_type_and_validate data allowed_symbols
  | VStr s =>
      if contains "children" s
      then Run [] (Some (Uncaught TypeError))
      else check_node_type_and_validate data allowed_symbols
  | VNone | VBool _ | VInt _ | VFloat _ => Run [] (Some (Uncaught TypeError))
  end.

Definition validate_logic (logic : value) (allowed_symbols : list string) : run :=
  trace_json_data_recursive logic allowed_symbols.

End validators.
End LogicValidator.

(** ** generators/indicator_generator.py *)

Module IndicatorGenerator.
Import Py.

Definition IMPLEMENTED_INDICATORS : list string :=
  ["rsi"; "current-price"; "cumulative-return"; "moving-average-price";
   "exponential-moving-average-price"; "moving-average-return";
   "standard-deviation-price"; "standard-deviation-return"; "max-drawdown";
   "volatility"; "returns"; "drawdown"; "month"; "day-of-week";
   "day-of-month"; "day-of-year"].

Definition CUSTOM_INDICATORS : list string :=
  ["max-drawdown"; "drawdown"; "moving-average-return"].

(** A stored configuration: [{"name": .., "symbol": .., "args": ..}]. *)
Record config : Type := Config {
  cfg_name : string;
  cfg_symbol : string;
  cfg_args : value;
}.

(** The registry.  [indicators_used] is a Python dict: insertion order
    is kept and is the order of emission. *)
Record t : Type := Registry {
  indicators_used : list (string * config);
  custom_methods_needed : gset string;
}.

Definition init : t := Registry [] ∅.

Definition reset_variables (self : t) : t := Registry [] ∅.

(** [d[k] = v] on an insertion-ordered dict. *)
Fixpoint dict_set {V} (k : string) (v : V) (d : list (string * V)) : list (string * V) :=
  match d with
  | [] => [(k, v)]
  | (k', v') :: d' =>
      if String.eqb k' k then (k, v) :: d' else (k', v') :: dict_set k v d'
  end.

(** [k in args], and [args[k]] for a string [k]. *)
Definition contains_key (args : value) (k : string) : result bool :=
  match args with
  | VDict d => Ret (has_key k d)
  | VList l => Ret (existsb (λ item, eq_str item k) l)
  | VStr s => Ret (contains k s)
  | VNone | VBool _ | VInt _ | VFloat _ => Raise TypeError
  end.

Definition subscript (args : value) (k : string) : result value :=
  match args with
  | VDict d => Ret (get d k)
  | _ => Raise TypeError
  end.

(** [a and b], [b] evaluated only when [a] holds. *)
Definition and_then (a : bool) (b : result bool) : result bool :=
  if a then b else Ret false.

(** [args.get(k, dflt)] *)
Definition args_get (args : value) (k : string) (dflt : value) : result value :=
  match args with
  | VDict d => Ret (get_or d k dflt)
  | _ => Raise AttributeError
  end.

(** [s.upper()], [s.lower()] on a value that may not be a string. *)
Definition upper_of (symbol : value) : result string :=
  match symbol with VStr s => Ret (upper s) | _ => Raise AttributeError end.
Definition lower_of (symbol : value) : result string :=
  match symbol with VStr s => Ret (lower s) | _ => Raise AttributeError end.

Definition clean (s : string) : string := replace_char "-" "_" (lower s).

Definition nl : string := String (ascii_of_nat 10) EmptyString.

Section registry.
Context `{FloatText}.

Definition _create_indicator_key (name : string) (symbol args : value)
    : result string :=
  head_parts ←
    (if truthy symbol then u ← upper_of symbol; Ret [name; u] else Ret [name]);
  has_period ← contains_key args "period";
  period_parts ←
    (if (has_period : bool) then p ← subscript args "period"; Ret [str p] else Ret []);
  has_smoothing ← contains_key args "smoothing";
  smoothing_parts ←
    (if (has_smoothing : bool) then s ← subscript args "smoothing"; Ret ["s" +:+ str s]
     else Ret []);
  has_fast ← contains_key args "fast";
  has_slow ← and_then has_fast (contains_key args "slow");
  fast_slow_parts ←
    (if (has_slow : bool) then
       fast ← subscript args "fast";
       slow ← subscript args "slow";
       Ret [str fast; str slow]
     else Ret []);
  Ret (join "_" (head_parts ++ period_parts ++ smoothing_parts ++ fast_slow_parts)).

(** The name under which a configuration is processed. *)
Definition config_name (cd : dict) : string :=
  lower (str (get_or cd "name" (VStr "unknown"))).

(** [_process_indicator]: the registry after the call and how the call
    ended.  Every operation that can raise comes before the first
    mutation, so a raising call leaves the registry as it was. *)
Definition _process_indicator (indicator_config : value) (self : t)
    : t * result unit :=
  match indicator_config with
  | VDict cd =>
      let name := config_name cd in
      let symbol := get cd "symbol" in
      let args := get_or cd "args" (VDict []) in
      if negb (mem name IMPLEMENTED_INDICATORS) then (self, Ret tt)
      else
        match _create_indicator_key name symbol args with
        | Raise e => (self, Raise e)
        | Ret indicator_key =>
            let stored :=
              if is_none symbol then Ret (indicators_used self)
              else
                u ← upper_of symbol;
                Ret (dict_set indicator_key (Config name u args) (indicators_used self)) in
            match stored with
            | Raise e => (self, Raise e)
            | Ret used =>
                (Registry used
                   (if mem name CUSTOM_INDICATORS
                    then {[ name ]} ∪ custom_methods_needed self
                    else custom_methods_needed self),
                 Ret tt)
            end
        end
  | _ => (self, Raise AttributeError)
  end.

Definition _generate_indicator_initialization (indicator_key : string) (c : config)
    : result (option string) :=
  let name := cfg_name c in
  let symbol := cfg_symbol c in
  let args := cfg_args c in
  let clean_symbol := clean symbol in
  let clean_name := clean name in
  let with_period (dflt : Z) (line : string → string) : result (option string) :=
    period ← args_get args "period" (VInt dflt);
    Ret (Some (line (str period))) in
  if mem name ["current-price"; "current_price"] then
    Ret (Some ("self." +:+ clean_symbol +:+ "_" +:+ clean_name +:+
               " = self.identity('" +:+ symbol +:+ "')"))
  else if mem name ["month"; "day-of-week"; "day-of-month"; "day-of-year"] then
    Ret None
  else if String.eqb name "max-drawdown" then
    with_period 252 (λ p, "self." +:+ clean_symbol +:+ "_max_drawdown_" +:+ p +:+
                          " = MaxDrawdownIndicator(" +:+ p +:+ ")")
  else if String.eqb name "drawdown" then
    with_period 252 (λ p, "self." +:+ clean_symbol +:+ "_drawdown_" +:+ p +:+
                          " = DrawdownIndicator(" +:+ p +:+ ")")
  else if String.eqb name "moving-average-return" then
    with_period 20 (λ p, "self." +:+ clean_symbol +:+ "_moving_avg_return_" +:+ p +:+
                         " = MovingAvgReturnIndicator(" +:+ p +:+ ")")
  else if String.eqb name "moving-average-price" then
    with_period 20 (λ p, "self." +:+ clean_symbol +:+ "_sma_" +:+ p +:+
                         " = self.sma('" +:+ symbol +:+ "', " +:+ p +:+ ")")
  else if String.eqb name "exponential-moving-average-price" then
    with_period 20 (λ p, "self." +:+ clean_symbol +:+ "_ema_" +:+ p +:+
                         " = self.ema('" +:+ symbol +:+ "', " +:+ p +:+ ")")
  else if String.eqb name "rsi" then
    with_period 14 (λ p, "self." +:+ clean_symbol +:+ "_rsi_" +:+ p +:+
                         " = self.rsi('" +:+ symbol +:+ "', " +:+ p +:+ ")")
  else if String.eqb name "standard-deviation-price" then
    with_period 30 (λ p, "self." +:+ clean_symbol +:+ "_std_" +:+ p +:+
                         " = self.std('" +:+ symbol +:+ "', " +:+ p +:+ ")")
  else if String.eqb name "volatility" then
    with_period 30 (λ p, "self." +:+ clean_symbol +:+ "_std_" +:+ p +:+
                         " = self.std('" +:+ symbol +:+ "', " +:+ p +:+ ")")
  else if mem name ["cumulative-return"; "returns"] then
    with_period 1 (λ p, "self." +:+ clean_symbol +:+ "_roc_" +:+ p +:+
                        " = self.roc('" +:+ symbol +:+ "', " +:+ p +:+ ")")
  else if String.eqb name "standard-deviation-return" then
    with_period 30 (λ p, "self." +:+ clean_symbol +:+ "_std_dev_return_" +:+ p +:+
                         " = IndicatorExtensions.of(StandardDeviation(" +:+ p +:+
                         "), self.roc('" +:+ symbol +:+ "', 1))")
  else Ret None.

(** The lines the loop of [generate_initialization_code] appends. *)
Fixpoint initialization_lines (used : list (string * config)) : result (list string) :=
  match used with
  | [] => Ret []
  | (indicator_key, c) :: rest =>
      init_line ← _generate_indicator_initialization indicator_key c;
      lines ← initialization_lines rest;
      Ret (match init_line with
           | Some line => if nonempty line then ("        " +:+ line) :: lines else lines
           | None => lines
           end)
  end.


Definition value_of (var : string) : string := "(" +:+ var +:+ ".current.value)".

(** The part of [get_indicator_value_code] after the registration. *)
Definition access_expression (cd : dict) : result string :=
  let indicator_name := get_or cd "name" (VStr "") in
  let symbol := get_or cd "symbol" (VStr "") in
  let args := get_or cd "args" (VDict []) in
  let custom (suffix : string) (dflt : Z) : result string :=
    l ← lower_of symbol;
    period ← args_get args "period" (VInt dflt);
    Ret (value_of ("self." +:+ replace_char "-" "_" l +:+ suffix +:+ str period)) in
  if eq_str indicator_name "month" then Ret "self.time.month"
  else if eq_str indicator_name "day-of-week" then Ret "self.time.weekday()"
  else if eq_str indicator_name "day-of-month" then Ret "self.time.day"
  else if eq_str indicator_name "day-of-year" then Ret "self.time.timetuple().tm_yday"
  else if eq_str indicator_name "current-price" then
    u ← upper_of symbol;
    Ret ("self.securities['" +:+ u +:+ "'].price")
  else if eq_str indicator_name "max-drawdown" then custom "_max_drawdown_" 252
  else if eq_str indicator_name "drawdown" then custom "_drawdown_" 252
  else if eq_str indicator_name "moving-average-return" then custom "_moving_avg_return_" 20
  else
    l ← lower_of symbol;
    let clean_symbol := replace_char "-" "_" l in
    n ← lower_of indicator_name;
    let clean_name := replace_char "-" "_" n in
    has_period ← contains_key args "period";
    if (has_period : bool) then
      period ← subscript args "period";
      let var (infix : string) :=
        value_of ("self." +:+ clean_symbol +:+ infix +:+ str period) in
      if eq_str indicator_name "moving-average-price" then Ret (var "_sma_")
      else if eq_str indicator_name "exponential-moving-average-price" then Ret (var "_ema_")
      else if eq_str indicator_name "rsi" then Ret (var "_rsi_")
      else if eq_str indicator_name "standard-deviation-price" then Ret (var "_std_")
      else if eq_str indicator_name "volatility" then Ret (var "_std_")
      else if in_str_list indicator_name ["cumulative-return"; "returns"] then
        Ret (var "_roc_")
      else if eq_str indicator_name "standard-deviation-return" then
        Ret (var "_std_dev_return_")
      else Ret (var ("_" +:+ clean_name +:+ "_"))
    else Ret (value_of ("self." +:+ clean_symbol +:+ "_" +:+ clean_name)).

Definition get_indicator_value_code (indicator_config : value) (self : t)
    : t * result string :=
  match _process_indicator indicator_config self with
  | (self', Raise e) => (self', Raise e)
  | (self', Ret _) =>
      (self',
       match indicator_config with
       | VDict cd => access_expression cd
       | _ => Raise AttributeError
       end)
  end.

(** The lines the loop of [generate_update_code] appends.  [period] is
    read for every custom entry, before the test on the cleaned name. *)
Fixpoint update_lines (used : list (string * config)) : result (list string) :=
  match used with
  | [] => Ret []
  | (indicator_key, c) :: rest =>
      entry ←
        (if mem (cfg_name c) CUSTOM_INDICATORS then
           let symbol := clean (cfg_symbol c) in
           let name := clean (cfg_name c) in
           period ← args_get (cfg_args c) "period" (VStr "");
           if mem name ["max_drawdown"; "drawdown"; "moving_avg_return"] then
             let period_suffix := if truthy period then "_" +:+ str period else "" in
             Ret ["                if symbol.value == '" +:+ cfg_symbol c +:+ "':";
                  "                    self." +:+ symbol +:+ "_" +:+ name +:+
                  period_suffix +:+ ".update(price)"]
           else Ret []
         else Ret []);
      lines ← update_lines rest;
      Ret (entry ++ lines)
  end.

Definition update_header : list string :=
  ["        # Update custom indicators with current prices";
   "        for kvp in self.securities:";
   "            symbol = kvp.key";
   "            security = kvp.value";
   "            if security.has_data:";
   "                price = security.price"].

(** [generate_update_code]: [None] when no custom indicator is needed. *)
Definition generate_update_code (self : t) : result (option string) :=
  if bool_decide (custom_methods_needed self = ∅) then Ret None
  else
    lines ← update_lines (indicators_used self);
    Ret (Some (join nl (update_header ++ lines) +:+ nl +:+ nl)).

(** [any(sub in method for method in self.custom_methods_needed)] *)
Definition any_method_contains (sub : string) (self : t) : bool :=
  existsb (contains sub) (elements (custom_methods_needed self)).

(** [_get_required_imports]; the field [embed_custom_indicators], set
    once by the constructor, is the first argument. *)
Definition _get_required_imports (embed_custom_indicators : bool) (self : t)
    : list string :=
  let imports := ["from AlgorithmImports import *"] in
  if negb (bool_decide (custom_methods_needed self = ∅)) && negb embed_custom_indicators
  then
    let imports := imports ++ ["from indicators import ("] in
    let custom_imports :=
      (if any_method_contains "max_drawdown" self then ["    MaxDrawdownIndicator,"] else [])
      ++ (if any_method_contains "drawdown" self then ["    DrawdownIndicator,"] else [])
      ++ (if any_method_contains "moving_avg_return" self
          then ["    MovingAvgReturnIndicator,"] else []) in
    match custom_imports with
    | [] => imports
    | _ => imports ++ custom_imports ++ [")"]
    end
  else imports.

End registry.
End IndicatorGenerator.

(** ** indicators/max_drawdown_indicator.py, indicators/drawdown_indicator.py *)

(** [max(a, b)] on floats: [b] only when [b > a]. *)
Definition py_max (a b : float) : float := if Py.flt a b then b else a.

(** The rolling window both indicators keep: [update] is the same code in
    the two classes. *)
Module Window.
Record t : Type := Make {
  period : Z;
  price_history : list float;
  is_ready : bool;
}.

Definition init (period : Z) : t := Make period [] false.

Definition update (self : t) (price : float) : t :=
  let appended := price_history self ++ [price] in
  let history :=
    if period self <? Z.of_nat (length appended) then tail appended else appended in
  Make (period self) history
       (if (2 <=? length history)%nat then true else is_ready self).

Definition feed (self : t) (prices : list float) : t := foldl update self prices.
End Window.

Module MaxDrawdownIndicator.
Import Py.

(** The loop of [value]: the running [peak] and [max_drawdown]. *)
Fixpoint scan (peak max_drawdown : float) (prices : list float) : float :=
  match prices with
  | [] => max_drawdown
  | price :: rest =>
      if flt peak price then scan price max_drawdown rest
      else
        let drawdown := if flt fzero peak then fdiv (fsub peak price) peak else fzero in
        scan peak (py_max max_drawdown drawdown) rest
  end.

Definition value (self : Window.t) : float :=
  if negb (Window.is_ready self) || (length (Window.price_history self) <? 2)%nat
  then fzero
  else
    match Window.price_history self with
    | [] => fzero
    | peak :: rest => scan peak fzero rest
    end.
End MaxDrawdownIndicator.

Module DrawdownIndicator.
Import Py.

(** [max(l)] on a non-empty list, the first item as the start. *)
Definition max_of (first : float) (rest : list float) : float :=
  foldl py_max first rest.

Definition value (self : Window.t) : float :=
  if negb (Window.is_ready self) || (length (Window.price_history self) <? 2)%nat
  then fzero
  else
    match Window.price_history self with
    | [] => fzero
    | first :: rest =>
        let peak := max_of first rest in
        let current_price := List.last rest first in
        if flt fzero peak then fdiv (fsub peak current_price) peak else fzero
    end.
End DrawdownIndicator.

(** ** indicators/moving_avg_return_indicator.py *)

Module MovingAvgReturnIndicator.
Import Py.

Record t : Type := Make {
  period : Z;
  price_history : list float;
  return_history : list float;
  is_ready : bool;
}.

Definition init (period : Z) : t := Make period [] [] false.

(** [update]: the division runs only under [prev_price > 0], so it does
    not raise. *)
Definition update (self : t) (price : float) : t :=
  let prices := price_history self ++ [price] in
  let returns :=
    if (2 <=? length prices)%nat then
      (* [price_history[-2]] after the append: the last price before it *)
      let prev_price := List.last (price_history self) price in
      if flt fzero prev_price then
        let appended := return_history self ++ [fdiv (fsub price prev_price) prev_price] in
        if period self <? Z.of_nat (length appended) then tail appended else appended
      else return_history self
    else return_history self in
  let prices := if (500 <? length prices)%nat then tail prices else prices in
  Make (period self) prices returns
       (if Z.min (period self) 1 <=? Z.of_nat (length returns) then true
        else is_ready self).

Definition feed (self : t) (prices : list float) : t := foldl update self prices.

(** [value], with the mean of a non-empty list of returns
    ([sum(l) / len(l)], whose summation is the runtime's) as [mean]. *)
Definition value (mean : list float → float) (self : t) : float :=
  if negb (is_ready self) || (length (return_history self) =? 0)%nat then fzero
  else mean (return_history self).
End MovingAvgReturnIndicator.

(** ** Notions used by the statements about the indicators *)

(** The float of an integer price, [0.25], and "not positive" as the
    code tests it ([peak > 0] is false). *)
Definition price (z : Z) : float := binary_normalize Py.prec Py.emax z 0 false.
Definition quarter : float := binary_normalize Py.prec Py.emax 1 (-2) false.
Definition not_positive (x : float) : Prop := Py.flt Py.fzero x = false.

(** The successive peaks the loop of [MaxDrawdownIndicator.value] divides
    by: the running peak at each price that does not exceed it. *)
Fixpoint running_peaks (peak : float) (prices : list float) : list float :=
  match prices with
  | [] => []
  | p :: rest =>
      if Py.flt peak p then running_peaks p rest
      else peak :: running_peaks peak rest
  end.

Definition window_peaks (self : Window.t) : list float :=
  match Window.price_history self with
  | [] => []
  | first :: rest => running_peaks first rest
  end.

(** The peak [DrawdownIndicator.value] divides by: [max(price_history)]. *)
Definition window_max (self : Window.t) : option float :=
  match Window.price_history self with
  | [] => None
  | first :: rest => Some (DrawdownIndicator.max_of first rest)
  end.

(** ** Notions used by the statements about the registry *)



(** A Python dict holds a key once. *)
Definition unique_keys (self : IndicatorGenerator.t) : Prop :=
  NoDup (IndicatorGenerator.indicators_used self).*1.

(** Conversions between floats and text for the closed examples below.
    None of the examples prints or parses a float, so the choice does not
    show in them. *)
Definition example_float_text : FloatText := {|
  float_repr := λ _, "nan";
  float_of_str := λ _, None;
|}.


(** ** Notions used by the statements about condition nodes *)

(** An operand that parses to a metric: a dict whose ["name"] is a string
    with something other than blanks in it. *)
Definition metric_operand (x : option value) : bool :=
  match x with
  | Some (VDict d) =>
      match Py.lookup "name" d with
      | Some (VStr n) => Py.nonempty (Py.strip n)
      | _ => false
      end
  | _ => false
  end.

(** An operand that parses to a literal: a number that is not a bool. *)
Definition literal_operand (x : option value) : bool :=
  match x with
  | Some v => LogicValidator._is_number v
  | None => false
  end.

(** The integer operands of the node fit a float: [float(x)] returns. *)
Definition operands_in_range (nd : dict) : Prop :=
  ∀ (side : string) (z : Z),
    side ∈ ["lhs"; "rhs"] → Py.lookup side nd = Some (VInt z) →
    returns (Py.float_of_int z).

(** The id the later messages of [validate_condition_node] print: [None]
    in place of an id that is not a string. *)
Definition printed_id (nd : dict) : value :=
  if Py.is_str (Py.get nd "id") then Py.get nd "id" else VNone.


(** A direct child the validator takes for the Else branch ... *)
Definition else_group (o : LogicValidator.condition_options) (c : value) : Prop :=
  LogicValidator._is_else_group (Py.lower (Py.strip (LogicValidator.else_label o))) c = true.


(** ** Nodes of the repository's tests, for the closed examples *)

Definition price_of_spy : value :=
  VDict [("name", VStr "current-price"); ("symbol", VStr "SPY")].

Definition comparison (op : string) (lhs rhs : value) (children : list value) : dict :=
  [("type", VStr "condition"); ("operator", VStr op); ("lhs", lhs); ("rhs", rhs);
   ("children", VList children)].

Definition group_of (description : string) : value :=
  VDict [("type", VStr "group"); ("description", VStr description);
         ("children", VList [VDict [("type", VStr "order")]])].

(** The keyword arguments of the Else-branch tests: [else_label="else"]. *)
Definition else_options : LogicValidator.condition_options :=
  {| LogicValidator.opt_allowed_metrics := Some LogicValidator.allowed_metrics;
     LogicValidator.opt_allowed_symbols := Some ["TQQQ"; "SQQQ"; "BSV"; "SPY"];
     LogicValidator.require_symbol_for_metrics := true;
     LogicValidator.validate_else := true;
     LogicValidator.else_required := false;
     LogicValidator.else_label := "else";
     LogicValidator.else_must_be_last := true;
     LogicValidator.else_require_children := true |}.

(** ** Notions used by the statement about order nodes *)

(** [node.get("weights") or {}] and [node.get("universe") or []]. *)
Definition order_weights (nd : dict) : value :=
  if Py.truthy (Py.get nd "weights") then Py.get nd "weights" else VDict [].
Definition order_universe (nd : dict) : value :=
  if Py.truthy (Py.get nd "universe") then Py.get nd "universe" else VList [].

(** A weight the code rejects before converting it (a list, a dict or a
    bool), or one that [float()] accepts. *)
Definition weight_value_typed `{FloatText} (v : value) : Prop :=
  Py.is_list v || Py.is_dict v || Py.is_bool v = true ∨ returns (Py.to_float v).

(** An order node whose fields have the types of the schema: [size_type]
    is hashable, an integer [size] fits a float, [weights] is the dict
    [wd] (or absent, [wd] empty) with typed values, [universe] is the list
    of strings [universe] (or absent, the list empty). *)
Record order_fields_typed `{FloatText} (nd wd : dict) (universe : list string)
    : Prop := {
  typed_size_type :
    Py.is_list (Py.get_or nd "size_type" (VStr "percent_equity"))
    || Py.is_dict (Py.get_or nd "size_type" (VStr "percent_equity")) = false;
  typed_size : ∀ z, Py.get nd "size" = VInt z → returns (Py.float_of_int z);
  typed_weights : order_weights nd = VDict wd;
  typed_universe : order_universe nd = VList (VStr <$> universe);
  typed_weight_values : Forall (λ kv, weight_value_typed kv.2) wd;
}.

(** The symbols the node refers to: the upper-cased keys of [weights],
    [symbol_filter] when given, and the upper-cased [universe]. *)
Definition referenced `{FloatText} (nd wd : dict) (universe : list string)
    (sym : string) : Prop :=
  sym ∈ Py.upper <$> Py.keys wd
  ∨ (Py.truthy (Py.get nd "symbol_filter") = true
     ∧ sym = Py.upper (Py.str (Py.get nd "symbol_filter")))
  ∨ sym ∈ Py.upper <$> universe.

Definition has_weight (wd : dict) (sym : string) : Prop :=
  sym ∈ Py.upper <$> Py.keys wd.

(** [sub] occurs in [s]. *)
Definition occurs_in (sub s : string) : Prop :=
  ∃ before after, s = before +:+ sub +:+ after.

(** ** Notions used by the statements about the traversal *)

(** The nodes [trace_json_data_recursive] hands to
    [check_node_type_and_validate] on a dict, in order, as long as no
    check stops the run. *)
Fixpoint dispatched (data : value) : list value :=
  match data with
  | VDict d =>
      LogicValidator.with_children [data]
        (λ chidren_data,
           match chidren_data with
           | VList items =>
               flat_map
                 (λ item, if Py.is_dict item then item :: dispatched item else [])
                 items
           | VDict _ => chidren_data :: dispatched chidren_data
           | _ => []
           end)
        d
  | _ => []
  end.

(** The checks of a list of nodes one after the other, until one stops. *)
Definition check_all `{FloatText} (allowed_symbols : list string) (nodes : list value)
    : LogicValidator.run :=
  LogicValidator.for_each
    (λ node, LogicValidator.check_node_type_and_validate node allowed_symbols) nodes.

(** A node whose check lets the run go on: it printed nothing. *)
Definition passes `{FloatText} (allowed_symbols : list string) (node : value) : Prop :=
  LogicValidator.check_node_type_and_validate node allowed_symbols = LogicValidator.done.

(** A weight node that passes its check. *)
Definition valid_weight_node : value :=
  VDict [("type", VStr "weight"); ("allocation_method", VStr "explicit_weights")].

(** ** Notions used by the further statements about the indicators *)

(** Each price is above the one before it, as the code compares them
    ([price > peak]). *)
Fixpoint rising (previous : float) (prices : list float) : Prop :=
  match prices with
  | [] => True
  | p :: rest => Py.flt previous p = true ∧ rising p rest
  end.

Definition ascending (prices : list float) : Prop :=
  match prices with
  | [] => True
  | first :: rest => rising first rest
  end.

(** What holds of the indicator after any sequence of updates. *)
Record mar_invariant (period : Z) (prices : list float)
    (w : MovingAvgReturnIndicator.t) : Prop := {
  mar_period : MovingAvgReturnIndicator.period w = period;
  mar_prices :
    MovingAvgReturnIndicator.price_history w = drop (length prices - 500) prices;
  mar_returns_window :
    Z.of_nat (length (MovingAvgReturnIndicator.return_history w)) ≤ Z.max 0 period;
  mar_returns_count :
    (length (MovingAvgReturnIndicator.return_history w) ≤ length prices - 1)%nat;
  mar_ready :
    MovingAvgReturnIndicator.is_ready w = true
    ↔ prices ≠ [] ∧ (period ≤ 0 ∨ MovingAvgReturnIndicator.return_history w ≠ []);
}.

(** ** Notions used by the further statements about the registry *)

(** The indicators whose variable carries a period: the text between the
    symbol and the period in the name of the variable, and the period
    used when [args] gives none. *)
Definition PERIOD_INDICATORS : list (string * (string * Z)) :=
  [("max-drawdown", ("_max_drawdown_", 252));
   ("drawdown", ("_drawdown_", 252));
   ("moving-average-return", ("_moving_avg_return_", 20));
   ("moving-average-price", ("_sma_", 20));
   ("exponential-moving-average-price", ("_ema_", 20));
   ("rsi", ("_rsi_", 14));
   ("standard-deviation-price", ("_std_", 30));
   ("volatility", ("_std_", 30));
   ("cumulative-return", ("_roc_", 1));
   ("returns", ("_roc_", 1));
   ("standard-deviation-return", ("_std_dev_return_", 30))].

(** What every registry built by [_process_indicator] satisfies: keys
    held once, implemented names, upper-case symbols, and only custom
    indicators among the custom methods. *)
Record well_kept (self : IndicatorGenerator.t) : Prop := {
  kept_keys : unique_keys self;
  kept_names :
    Forall (λ kv, Py.mem (IndicatorGenerator.cfg_name kv.2)
                    IndicatorGenerator.IMPLEMENTED_INDICATORS = true)
      (IndicatorGenerator.indicators_used self);
  kept_symbols :
    Forall (λ kv, Py.upper (IndicatorGenerator.cfg_symbol kv.2)
                  = IndicatorGenerator.cfg_symbol kv.2)
      (IndicatorGenerator.indicators_used self);
  kept_custom :
    ∀ method, method ∈ IndicatorGenerator.custom_methods_needed self →
              method ∈ IndicatorGenerator.CUSTOM_INDICATORS;
}.

(** The entries whose arguments are a dict, as [args.get] needs. *)
Definition dict_args (used : list (string * IndicatorGenerator.config)) : Prop :=
  Forall (λ kv, Py.is_dict (IndicatorGenerator.cfg_args kv.2) = true) used.

(** The indicators read from [self.time], which need no variable. *)
Definition time_based (name : string) : bool :=
  Py.mem name ["month"; "day-of-week"; "day-of-month"; "day-of-year"].

(** ** Notions used by the further statements about the traversal *)

(** A dict that [parent] holds under ["children"], alone or in a list. *)
Inductive child_of (parent : dict) : value → Prop :=
| child_in_list (items : list value) (c : dict) :
    Py.lookup "children" parent = Some (VList items) →
    VDict c ∈ items →
    child_of parent (VDict c)
| child_alone (c : dict) :
    Py.lookup "children" parent = Some (VDict c) →
    child_of parent (VDict c).

(** The nodes below [root]: its children, their children, and so on. *)
Inductive descendant (root : dict) : value → Prop :=
| descendant_child (node : value) :
    child_of root node → descendant root node
| descendant_deeper (m : dict) (node : value) :
    descendant root (VDict m) → child_of m node → descendant root node.

(** The node types [check_node_type_and_validate] has a validator for. *)
Definition DISPATCHED_TYPES : list string :=
  ["condition"; "group"; "order"; "filter"; "weight"].

(** ** Notions used by the further statements about the node validators *)

(** A child a group may hold: a dict whose type is a string of the
    schema. *)
Definition schema_child (c : value) : Prop :=
  ∃ (cd : dict) (t : string),
    c = VDict cd ∧ Py.get cd "type" = VStr t ∧ t ∈ LogicValidator._SCHEMA_NODE_TYPES.

(** An optional string field: absent, [None], or a string. *)
Definition optional_str (v : value) : Prop := Py.is_none v || Py.is_str v = true.

(** A filter node whose universe is the list of strings [raw], and whose
    [select] and metric name can be looked up in a set (they are neither
    a list nor a dict). *)
Record filter_fields_typed (nd : dict) (raw : list string) : Prop := {
  typed_filter_universe : Py.lookup "universe" nd = Some (VList (VStr <$> raw));
  typed_select : Py.is_list (Py.get nd "select") || Py.is_dict (Py.get nd "select") = false;
  typed_metric_name :
    ∀ md, Py.get nd "metric" = VDict md →
          Py.is_list (Py.get md "name") || Py.is_dict (Py.get md "name") = false;
}.

(** The id the messages of [validate_filter_node] print after its id
    check. *)
Definition filter_id (nd : dict) : value :=
  if Py.is_str (Py.get nd "id") then Py.get nd "id" else VNone.

(** The arguments of a metric as [_validate_metric] reads them: the dict
    under ["args"], or no argument. *)
Definition metric_args (md : dict) : dict :=
  match Py.get_or md "args" (VDict []) with
  | VDict a => a
  | _ => []
  end.

(** * Properties *)

(** ** The custom indicators *)

Lemma scan_not_positive (peak : float) (prices : list float) :
  Forall not_positive (running_peaks peak prices) →
  MaxDrawdownIndicator.scan peak Py.fzero prices = Py.fzero.
Proof.
  revert peak. induction prices as [|p rest IH]; intros peak Hpeaks; simpl in *.
  - reflexivity.
  - destruct (Py.flt peak p) eqn:Hup.
    + apply IH, Hpeaks.
    + inversion Hpeaks as [|? ? Hpeak Hrest]; subst.
      unfold not_positive in Hpeak. rewrite Hpeak.
      change (py_max Py.fzero Py.fzero) with Py.fzero.
      apply IH, Hrest.
Qed.

Lemma feed_short_history (period : Z) (prices : list float) :
  (length prices < 2)%nat →
  (length (Window.price_history (Window.feed (Window.init period) prices)) < 2)%nat.
Proof.
  destruct prices as [|p [|q rest]]; simpl; intros Hlen; try lia.
  unfold Window.update; simpl. destruct (period <? _); simpl; lia.
Qed.

Lemma value_short_history (self : Window.t) :
  (length (Window.price_history self) < 2)%nat →
  MaxDrawdownIndicator.value self = Py.fzero ∧ DrawdownIndicator.value self = Py.fzero.
Proof.
  intros Hlen. apply Nat.ltb_lt in Hlen.
  unfold MaxDrawdownIndicator.value, DrawdownIndicator.value.
  rewrite Hlen, orb_true_r. done.
Qed.

Lemma feed_100_120_90 (period : Z) :
  2 ≤ period →
  ∃ older,
    Window.feed (Window.init period) [price 100; price 120; price 90]
    = Window.Make period (older ++ [price 120; price 90]) true
    ∧ (older = [] ∨ older = [price 100]).
Proof.
  intros Hp. unfold Window.feed, Window.init, Window.update; simpl.
  change (Z.of_nat 1) with 1.
  assert ((period <? 1) = false) as -> by lia. simpl.
  change (Z.of_nat 2) with 2.
  assert ((period <? 2) = false) as -> by lia. simpl.
  change (Z.of_nat 3) with 3.
  destruct (period <? 3) eqn:H3; simpl.
  - exists []. auto.
  - exists [price 100]. auto.
Qed.

(** C7. After the updates 100, 120, 90 (any window of period at least 2,
    the default 252 included) the max-drawdown value is (120-90)/120,
    which is the float 0.25, and so is the drawdown value; both values are
    0.0 when fewer than two prices were observed, and when the peak the
    value divides by is not positive: every running peak for max-drawdown,
    the maximum of the window for drawdown. *)
Theorem custom_indicator_numeric_contract :
  (∀ period : Z, 2 ≤ period →
     let w := Window.feed (Window.init period) [price 100; price 120; price 90] in
     MaxDrawdownIndicator.value w
       = Py.fdiv (Py.fsub (price 120) (price 90)) (price 120)
     ∧ MaxDrawdownIndicator.value w = quarter
     ∧ DrawdownIndicator.value w = quarter)
  ∧ (∀ (period : Z) (prices : list float), (length prices < 2)%nat →
       let w := Window.feed (Window.init period) prices in
       MaxDrawdownIndicator.value w = Py.fzero ∧ DrawdownIndicator.value w = Py.fzero)
  ∧ (∀ self : Window.t, Forall not_positive (window_peaks self) →
       MaxDrawdownIndicator.value self = Py.fzero)
  ∧ (∀ (self : Window.t) (peak : float),
       window_max self = Some peak → not_positive peak →
       DrawdownIndicator.value self = Py.fzero).
Proof.
  split; [|split; [|split]].
  - intros period Hp w.
    destruct (feed_100_120_90 period Hp) as (older & Hw & [-> | ->]);
      subst w; rewrite Hw; vm_compute; done.
  - intros period prices Hlen w.
    apply value_short_history, feed_short_history, Hlen.
  - intros self Hpeaks. unfold MaxDrawdownIndicator.value.
    destruct (negb (Window.is_ready self) || _); [reflexivity|].
    unfold window_peaks in Hpeaks.
    destruct (Window.price_history self) as [|first rest]; [reflexivity|].
    apply scan_not_positive, Hpeaks.
  - intros self peak Hmax Hpeak. unfold DrawdownIndicator.value.
    destruct (negb (Window.is_ready self) || _); [reflexivity|].
    unfold window_max in Hmax.
    destruct (Window.price_history self) as [|first rest]; [reflexivity|].
    injection Hmax as <-. unfold not_positive in Hpeak. rewrite Hpeak. reflexivity.
Qed.

Lemma custom_indicator_numeric_contract_witness :
  MaxDrawdownIndicator.value
    (Window.feed (Window.init 252) [price 100; price 120; price 90]) = quarter
  ∧ DrawdownIndicator.value
      (Window.feed (Window.init 252) [price 100; price 120; price 90]) = quarter
  ∧ MaxDrawdownIndicator.value (Window.feed (Window.init 252) [price 100]) = Py.fzero
  ∧ MaxDrawdownIndicator.value
      (Window.feed (Window.init 252) [price (-5); price (-7)]) = Py.fzero
  ∧ DrawdownIndicator.value
      (Window.feed (Window.init 252) [price (-5); price (-7)]) = Py.fzero.
Proof.
  destruct custom_indicator_numeric_contract as (Hseq & Hshort & Hmax & Hcur).
  split; [|split; [|split; [|split]]].
  - apply (Hseq 252). lia.
  - apply (Hseq 252). lia.
  - apply (Hshort 252 [price 100]). simpl. lia.
  - apply Hmax. vm_compute. repeat constructor.
  - apply (Hcur _ (price (-5))); reflexivity.
Defined.

(** ** The indicator registry *)

Section registry_properties.
Context `{FloatText}.
Import IndicatorGenerator.

Lemma dict_set_idem {V} (k : string) (v : V) (d : list (string * V)) :
  dict_set k v (dict_set k v d) = dict_set k v d.
Proof.
  induction d as [|[k' v'] d IH]; simpl.
  - rewrite String.eqb_refl. reflexivity.
  - destruct (String.eqb k' k) eqn:E; simpl.
    + rewrite String.eqb_refl. reflexivity.
    + rewrite E, IH. reflexivity.
Qed.


Lemma dict_set_keys {V} (k : string) (v : V) (d : list (string * V)) :
  (dict_set k v d).*1 = if bool_decide (k ∈ d.*1) then d.*1 else d.*1 ++ [k].
Proof.
  induction d as [|[k' v'] d IH]; [reflexivity|].
  cbn [dict_set]. rewrite (fmap_cons fst (k', v') d). cbn [fst].
  destruct (String.eqb_spec k' k) as [->|Hne].
  - rewrite fmap_cons. cbn [fst].
    rewrite bool_decide_eq_true_2 by left. reflexivity.
  - rewrite fmap_cons, IH. cbn [fst].
    destruct (bool_decide (k ∈ d.*1)) eqn:Hin.
    + apply bool_decide_eq_true in Hin.
      rewrite bool_decide_eq_true_2 by (by right). reflexivity.
    + apply bool_decide_eq_false in Hin.
      rewrite bool_decide_eq_false_2; [reflexivity|].
      intros [?|?]%elem_of_cons; congruence.
Qed.


Lemma dict_set_unique {V} (k : string) (v : V) (d : list (string * V)) :
  NoDup d.*1 → NoDup (dict_set k v d).*1.
Proof.
  intros Hd. rewrite dict_set_keys. case_bool_decide as Hin; [assumption|].
  apply NoDup_app. split; [assumption|]. split.
  - intros x Hx ->%list_elem_of_singleton. contradiction.
  - apply NoDup_singleton.
Qed.



(** The key reads [args] only at [period], [smoothing], [fast] and
    [slow]: any other argument does not change it. *)
Lemma key_ignores_other_args (name : string) (symbol : value) (a a' : dict) :
  (∀ k, k ∈ ["period"; "smoothing"; "fast"; "slow"] → Py.lookup k a = Py.lookup k a') →
  _create_indicator_key name symbol (VDict a)
  = _create_indicator_key name symbol (VDict a').
Proof.
  intros Hsame. unfold _create_indicator_key, contains_key, subscript.
  unfold Py.has_key, Py.get.
  rewrite !(Hsame "period"), !(Hsame "smoothing"), !(Hsame "fast"), !(Hsame "slow");
    [reflexivity|..];
    repeat first [apply list_elem_of_here | apply list_elem_of_further].
Qed.


(** The registry a call leaves, in all cases: an entry set under one key
    or none, and the name added to the custom methods or not. *)
Lemma process_shape (cfg : value) (self : t) :
  ∃ (entry : option (string * config)) (custom : option string),
    ∀ g : t,
      (_process_indicator cfg g).2 = (_process_indicator cfg self).2
      ∧ (_process_indicator cfg g).1
        = Registry
            (match entry with
             | Some (k, c) => dict_set k c (indicators_used g)
             | None => indicators_used g
             end)
            (match custom with
             | Some name => {[ name ]} ∪ custom_methods_needed g
             | None => custom_methods_needed g
             end).
Proof.
  destruct cfg as [| | | | | |cd]; try (exists None, None; intros []; done).
  unfold _process_indicator.
  destruct (Py.mem (config_name cd) IMPLEMENTED_INDICATORS);
    [|exists None, None; intros []; done]. simpl.
  destruct (_create_indicator_key _ _ _) as [k|e];
    [|exists None, None; intros []; done].
  destruct (Py.get cd "symbol") as [| | | |s| |] eqn:Hsym; simpl;
    try (exists None, None; intros []; done).
  - destruct (Py.mem (config_name cd) CUSTOM_INDICATORS).
    + exists None, (Some (config_name cd)). intros []; done.
    + exists None, None. intros []; done.
  - destruct (Py.mem (config_name cd) CUSTOM_INDICATORS).
    + eexists (Some (k, _)), (Some (config_name cd)). intros []; done.
    + eexists (Some (k, _)), None. intros []; done.
Qed.

Lemma process_idempotent (cfg : value) (self : t) :
  _process_indicator cfg (_process_indicator cfg self).1
  = _process_indicator cfg self.
Proof.
  destruct (process_shape cfg self) as (entry & custom & Hshape).
  destruct (Hshape self) as [_ Hself].
  destruct (Hshape (_process_indicator cfg self).1) as [Hout Hnext].
  apply injective_projections; [|exact Hout].
  rewrite Hnext, Hself. simpl. f_equal.
  - destruct entry as [[k c]|]; [apply dict_set_idem | reflexivity].
  - destruct custom as [name|]; [|reflexivity].
    by rewrite (assoc_L (∪)), (idemp_L (∪)).
Qed.

Lemma get_code_registry (cfg : value) (self : t) :
  (get_indicator_value_code cfg self).1 = (_process_indicator cfg self).1.
Proof.
  unfold get_indicator_value_code.
  destruct (_process_indicator cfg self) as [g [[]|e]]; reflexivity.
Qed.



End registry_properties.



(** ** The registry frame for metrics that do not register *)

Section registry_frame.
Context `{FloatText}.
Import IndicatorGenerator.








End registry_frame.



(** ** The node validators on malformed input *)

Section validators_raise.
Context `{FloatText}.
Import LogicValidator.

(** Where the guard comes first, a node that is not a dict is reported. *)
Lemma non_dict_node_verdicts (node : value) (allowed_symbols : list string)
    (o : condition_options) (require_children require_description : bool) :
  Py.is_dict node = false →
  validate_order_node node allowed_symbols = Ret (false, ["order node must be a dict"])
  ∧ validate_group_node node require_children require_description
    = Ret (false, ["group node must be a dict"])
  ∧ validate_condition_node o node = Ret (false, ["condition node must be a dict"])
  ∧ validate_filter_node node None (Some allowed_symbols) true = Raise AttributeError
  ∧ validate_weight_node node allowed_symbols = Raise AttributeError.
Proof. destruct node; try discriminate; intros _; repeat split; reflexivity. Qed.

(** C2, at the failing inputs.  [validate_filter_node] and
    [validate_weight_node] raise [AttributeError] on a node that is not a
    dict; [validate_order_node] raises [UnboundLocalError] on a weight
    that is [None], [AttributeError] on weights that are a list, and
    [TypeError] on a [size_type] that is a list; [validate_group_node]
    raises [AttributeError] on a child that is not a dict; and
    [validate_condition_node] raises [OverflowError] on an integer
    operand beyond the float range. *)
Theorem validators_raise_on_malformed_input :
  validate_filter_node VNone None (Some ["SPY"]) true = Raise AttributeError
  ∧ validate_weight_node VNone ["SPY"] = Raise AttributeError
  ∧ validate_weight_node (VList []) ["SPY"] = Raise AttributeError
  ∧ validate_order_node
      (VDict [("type", VStr "order"); ("side", VStr "long");
              ("weights", VDict [("SPY", VNone)])]) ["SPY"]
    = Raise UnboundLocalError
  ∧ validate_order_node
      (VDict [("type", VStr "order"); ("side", VStr "long");
              ("weights", VList [VStr "SPY"])]) ["SPY"]
    = Raise AttributeError
  ∧ validate_order_node
      (VDict [("type", VStr "order"); ("side", VStr "long");
              ("size_type", VList []); ("weights", VDict [("SPY", VInt 1)])]) ["SPY"]
    = Raise TypeError
  ∧ validate_group_node
      (VDict [("type", VStr "group"); ("children", VList [VInt 5])]) true false
    = Raise AttributeError
  ∧ validate_condition_node default_options
      (VDict [("type", VStr "condition"); ("operator", VStr "gt");
              ("lhs", VDict [("name", VStr "current-price"); ("symbol", VStr "SPY")]);
              ("rhs", VInt (10 ^ 400))])
    = Raise OverflowError.
Proof. repeat split; vm_compute; reflexivity. Qed.

End validators_raise.

(** ** Verdicts and error lists *)

Lemma finish_invalid (e : string) (errors : list string) :
  e ∈ errors → LogicValidator.finish errors = Ret (false, errors).
Proof.
  intros He. unfold LogicValidator.finish. rewrite bool_decide_eq_false_2; [reflexivity|].
  intros ->. by apply not_elem_of_nil in He.
Qed.

Lemma invalid_with (e : string) (errors : list string) :
  e ∈ errors → ∃ errors', LogicValidator.finish errors = Ret (false, errors') ∧ e ∈ errors'.
Proof. intros He. exists errors. split; [by apply (finish_invalid e) | exact He]. Qed.

Lemma err_if_true (b : bool) (msg : string) : b = true → msg ∈ LogicValidator.err_if b msg.
Proof. intros ->. apply list_elem_of_here. Qed.

(** Closes [e ∈ e1 ++ e2 ++ ...] when [e] is in one of the parts: a
    singleton [[e]], or an [err_if b e] with [b = true] at hand. *)
Ltac in_errors :=
  first [ assumption
        | apply list_elem_of_here
        | apply err_if_true; assumption
        | apply elem_of_app; right; in_errors
        | apply elem_of_app; left; in_errors ].

(** ** Condition nodes *)

Section condition_properties.
Context `{FloatText}.
Import LogicValidator.

(** The outcome of parsing one operand that is present. *)
Lemma parse_operand_spec (o : condition_options) (node_id x : value) (side : string) :
  (∀ z, x = VInt z → returns (Py.float_of_int z)) →
  ∃ (parsed : operand) (es : list string),
    _parse_operand o node_id x side = Ret (parsed, es)
    ∧ is_metric parsed = metric_operand (Some x)
    ∧ is_literal parsed = _is_number x
    ∧ (Py.is_bool x || Py.is_str x = true → es = [operand_type_error node_id side]).
Proof.
  intros Hrange. destruct x as [|b|z|f|s|l|d]; simpl;
    try (eexists _, _; repeat split; done).
  - destruct (Hrange z eq_refl) as [f Hf].
    unfold _parse_operand; simpl. rewrite Hf; simpl.
    eexists _, _; repeat split; done.
  - unfold _parse_operand, Py.has_key, _validate_metric, Py.get.
    destruct (Py.lookup "name" d) as [[| | | |n| |]|]; simpl;
      try (eexists _, _; repeat split; done).
    destruct (Py.nonempty (Py.strip n)); simpl; eexists _, _; repeat split; done.
Qed.

(** The outcome of the operand step for one side, present or not. *)
Lemma operand_step (o : condition_options) (nd : dict) (side : string) :
  (∀ z, Py.lookup side nd = Some (VInt z) → returns (Py.float_of_int z)) →
  ∃ (parsed : operand) (es : list string),
    (if Py.has_key side nd
     then _parse_operand o (Py.get nd "id") (Py.get nd side) side
     else Ret (Invalid, [])) = Ret (parsed, es)
    ∧ is_metric parsed = metric_operand (Py.lookup side nd)
    ∧ is_literal parsed = literal_operand (Py.lookup side nd)
    ∧ (∀ x, Py.lookup side nd = Some x → Py.is_bool x || Py.is_str x = true →
         es = [operand_type_error (Py.get nd "id") side]).
Proof.
  intros Hrange. unfold Py.has_key, Py.get at 2.
  destruct (Py.lookup side nd) as [x|] eqn:Hx; simpl.
  - destruct (parse_operand_spec o (Py.get nd "id") x side) as (p & es & Hp & Hm & Hl & Ht).
    { intros z ->. by apply Hrange. }
    exists p, es. repeat split; try done. intros x' [= <-]. exact Ht.
  - exists Invalid, []. repeat split; done.
Qed.

Lemma side_in_range (nd : dict) (side : string) :
  operands_in_range nd → side ∈ ["lhs"; "rhs"] →
  ∀ z, Py.lookup side nd = Some (VInt z) → returns (Py.float_of_int z).
Proof. intros Hrange Hside z Hz. exact (Hrange side z Hside Hz). Qed.

Lemma lhs_side : "lhs" ∈ ["lhs"; "rhs"].
Proof. apply list_elem_of_here. Qed.

Lemma rhs_side : "rhs" ∈ ["lhs"; "rhs"].
Proof. apply list_elem_of_further, list_elem_of_here. Qed.

(** Unfolds the validator on a dict whose operands are in range, naming
    the two parsed operands and what is known of them. *)
Ltac open_condition o nd Hrange :=
  unfold validate_condition_node; cbv zeta;
  let lhs_norm := fresh "lhs_norm" in
  let rhs_norm := fresh "rhs_norm" in
  let e_lhs := fresh "e_lhs" in
  let e_rhs := fresh "e_rhs" in
  destruct (operand_step o nd "lhs" (side_in_range nd "lhs" Hrange lhs_side))
    as (lhs_norm & e_lhs & -> & Hlhs_metric & Hlhs_literal & Hlhs_type);
  destruct (operand_step o nd "rhs" (side_in_range nd "rhs" Hrange rhs_side))
    as (rhs_norm & e_rhs & -> & Hrhs_metric & Hrhs_literal & Hrhs_type);
  cbn [mbind result_bind].


Lemma present_operator (nd : dict) (op : string) :
  Py.lookup "operator" nd = Some (VStr op) →
  Py.has_key "operator" nd = true ∧ Py.get nd "operator" = VStr op.
Proof. intros Hop. unfold Py.has_key, Py.get. rewrite Hop. done. Qed.

(** C5. With the operator [crosses_above] or [crosses_below], an operand
    that is not a metric (a literal, or anything else, on either side)
    makes the condition invalid with the "requires both lhs and rhs to be
    metrics" error; with one of [gt], [gte], [lt], [lte], [eq], [neq],
    two literal operands make it invalid with the "requires at least one
    operand to be a metric" error. *)
Theorem operator_operand_rules (o : condition_options) (nd : dict) (op : string) :
  operands_in_range nd →
  Py.lookup "operator" nd = Some (VStr op) →
  (op ∈ ["crosses_above"; "crosses_below"] →
   metric_operand (Py.lookup "lhs" nd) = false
   ∨ metric_operand (Py.lookup "rhs" nd) = false →
   ∃ errors,
     validate_condition_node o (VDict nd) = Ret (false, errors)
     ∧ crosses_error (Py.get nd "id") op ∈ errors)
  ∧ (op ∈ ["gt"; "gte"; "lt"; "lte"; "eq"; "neq"] →
     literal_operand (Py.lookup "lhs" nd) = true →
     literal_operand (Py.lookup "rhs" nd) = true →
     ∃ errors,
       validate_condition_node o (VDict nd) = Ret (false, errors)
       ∧ both_literal_error (Py.get nd "id") op ∈ errors).
Proof.
  intros Hrange Hop. destruct (present_operator nd op Hop) as [Hhas Hget].
  split.
  - intros Hin Hnot.
    open_condition o nd Hrange. apply invalid_with.
    rewrite Hhas, Hget, Hlhs_metric, Hrhs_metric.
    unfold Py.mem at 2. rewrite (bool_decide_eq_true_2 _ Hin).
    assert (Hcond : negb (metric_operand (Py.lookup "lhs" nd))
                    || negb (metric_operand (Py.lookup "rhs" nd)) = true).
    { destruct Hnot as [-> | ->]; [reflexivity | apply orb_true_r]. }
    rewrite Hcond. rewrite !andb_false_r. cbn [negb andb].
    in_errors.
  - intros Hin Hlhs Hrhs.
    open_condition o nd Hrange. apply invalid_with.
    rewrite Hhas, Hget, Hlhs_literal, Hrhs_literal, Hlhs, Hrhs.
    unfold Py.mem at 3. rewrite (bool_decide_eq_true_2 _ Hin).
    rewrite !andb_false_r. cbn [negb andb].
    in_errors.
Qed.

(** *** The Else branch *)






Lemma else_idxs_from_app (L : string) (i : nat) (xs ys : list value) :
  else_idxs_from L i (xs ++ ys)
  = else_idxs_from L i xs ++ else_idxs_from L (i + length xs) ys.
Proof.
  revert i. induction xs as [|x xs IH]; intros i; simpl.
  - by rewrite Nat.add_0_r.
  - rewrite IH, <- app_assoc. do 3 f_equal. lia.
Qed.




Lemma children_of (nd : dict) (children : list value) :
  Py.lookup "children" nd = Some (VList children) →
  Py.get_or nd "children" (VList []) = VList children.
Proof. intros Hc. unfold Py.get_or. by rewrite Hc. Qed.

Lemma printed_id_eq (nd : dict) :
  (if Py.is_str (Py.get nd "id") then Py.get nd "id" else VNone) = printed_id nd.
Proof. reflexivity. Qed.





End condition_properties.

(** Checks [operands_in_range] on a concrete node. *)
Ltac check_operands_in_range :=
  let side := fresh "side" in
  let z := fresh "z" in
  let Hside := fresh "Hside" in
  let Hz := fresh "Hz" in
  intros side z Hside Hz;
  repeat (apply elem_of_cons in Hside as [->|Hside]);
  try (by apply elem_of_nil in Hside);
  vm_compute in Hz; try discriminate Hz;
  injection Hz as <-; eexists; vm_compute; reflexivity.



Lemma operator_operand_rules_witness :
  (∃ errors,
     @LogicValidator.validate_condition_node example_float_text
       LogicValidator.default_options
       (VDict (comparison "crosses_above" price_of_spy (VFloat (price 100)) []))
     = Ret (false, errors)
     ∧ "For condition 'None',crosses_above requires both lhs and rhs to be metrics (no literals)"
       ∈ errors)
  ∧ (∃ errors,
       @LogicValidator.validate_condition_node example_float_text
         LogicValidator.default_options
         (VDict (comparison "gt" (VFloat (price 50)) (VInt 100) []))
       = Ret (false, errors)
       ∧ "For condition 'None', gt requires at least one operand to be a metric"
         ∈ errors).
Proof.
  split.
  - apply (@operator_operand_rules example_float_text LogicValidator.default_options
             (comparison "crosses_above" price_of_spy (VFloat (price 100)) [])
             "crosses_above").
    + check_operands_in_range.
    + reflexivity.
    + apply list_elem_of_here.
    + right. reflexivity.
  - apply (@operator_operand_rules example_float_text LogicValidator.default_options
             (comparison "gt" (VFloat (price 50)) (VInt 100) []) "gt").
    + check_operands_in_range.
    + reflexivity.
    + apply list_elem_of_here.
    + reflexivity.
    + reflexivity.
Defined.


(** ** Order nodes *)

Section order_properties.
Context `{FloatText}.
Import LogicValidator.

Lemma append_assoc (a b c : string) : (a +:+ b) +:+ c = a +:+ b +:+ c.
Proof.
  induction a as [|x a IH]; [reflexivity|].
  change ((String x a +:+ b) +:+ c) with (String x ((a +:+ b) +:+ c)).
  change (String x a +:+ b +:+ c) with (String x (a +:+ b +:+ c)).
  by rewrite IH.
Qed.

Lemma append_empty_r (a : string) : a +:+ "" = a.
Proof.
  induction a as [|x a IH]; [reflexivity|].
  change (String x a +:+ "") with (String x (a +:+ "")). by rewrite IH.
Qed.

Lemma occurs_in_append (sub s before after : string) :
  occurs_in sub s → occurs_in sub (before +:+ s +:+ after).
Proof.
  intros (a & b & ->). exists (before +:+ a), (b +:+ after).
  by rewrite !append_assoc.
Qed.

Lemma join_occurs (sep x : string) (l : list string) :
  x ∈ l → occurs_in x (Py.join sep l).
Proof.
  unfold Py.join. induction l as [|y l IH]; intros Hx.
  - by apply elem_of_nil in Hx.
  - apply elem_of_cons in Hx as [->|Hx].
    + destruct l as [|z l]; simpl.
      * exists "", "". by rewrite append_empty_r.
      * exists "", (sep +:+ String.concat sep (z :: l)). reflexivity.
    + destruct l as [|z l]; [by apply elem_of_nil in Hx|].
      change (String.concat sep (y :: z :: l))
        with (y +:+ sep +:+ String.concat sep (z :: l)).
      destruct (IH Hx) as (a & b & ->).
      exists (y +:+ sep +:+ a), b. by rewrite !append_assoc.
Qed.

Lemma in_str_set_hashable (v : value) (names : list string) :
  Py.is_list v || Py.is_dict v = false → returns (Py.in_str_set v names).
Proof. destruct v; simpl; intros Hv; try discriminate; eexists; reflexivity. Qed.

Lemma upper_each_strings (l : list string) :
  upper_each (VList (VStr <$> l)) = Ret (Py.upper <$> l).
Proof.
  unfold upper_each. induction l as [|s l IH]; [reflexivity|].
  rewrite !fmap_cons. cbn [mapM]. change (mapM ?f ?l) with (mapM f l) in IH.
  cbn [mbind result_bind]. rewrite IH. reflexivity.
Qed.

Lemma weights_loop_returns (node_id : value) (symbols : gset string) (wd : dict)
    (w : option float) :
  Forall (λ kv, weight_value_typed kv.2) wd →
  returns (weights_loop node_id symbols wd w).
Proof.
  intros Hwd. revert w. induction Hwd as [|[k v] wd Hv Hwd IH]; intros w.
  - eexists; reflexivity.
  - cbn [weights_loop].
    destruct (Py.is_list v || Py.is_dict v || Py.is_bool v) eqn:Hkind.
    + destruct (IH w) as [es ->]. eexists; reflexivity.
    + destruct Hv as [Hv|[f Hf]]; [simpl in Hv; congruence|].
      simpl in Hf. rewrite Hf.
      destruct (IH (Some f)) as [es ->]. eexists; reflexivity.
Qed.

Lemma referenced_symbols (nd wd : dict) (universe : list string) (sym : string) :
  referenced nd wd universe sym →
  sym ∈ order_symbols wd (Py.get nd "symbol_filter") (Py.upper <$> universe).
Proof.
  unfold referenced, order_symbols.
  intros [Hw|[[Hsf ->]|Hu]].
  - apply elem_of_union_l, elem_of_union_l.
    destruct wd as [|kv wd]; [by apply elem_of_nil in Hw|].
    by apply elem_of_list_to_set.
  - apply elem_of_union_l, elem_of_union_r. rewrite Hsf. by apply elem_of_singleton.
  - apply elem_of_union_r. by apply elem_of_list_to_set.
Qed.

Lemma missing_weights_spec (symbols : gset string) (wd : dict) (sym : string) :
  sym ∈ missing_weights symbols wd ↔ sym ∈ symbols ∧ ¬ has_weight wd sym.
Proof.
  unfold missing_weights, Py.sorted, has_weight, weight_keys.
  rewrite merge_sort_Permutation, elem_of_elements, elem_of_filter, elem_of_list_to_set.
  tauto.
Qed.

Lemma size_step_returns (nd : dict) :
  (∀ z, Py.get nd "size" = VInt z → returns (Py.float_of_int z)) →
  returns
    (if Py.has_key "size" nd && negb (Py.is_int_or_float (Py.get nd "size")) then
       Ret ["For order '{node_id}', order.size must be a number when provided"]
     else if Py.has_key "size" nd then
       size ← Py.to_float (Py.get nd "size");
       Ret (err_if (Py.flt size Py.fzero)
              "For order '{node_id}', order.size must be >= 0")
     else Ret []).
Proof.
  intros Hsize. destruct (Py.has_key "size" nd); simpl; [|eexists; reflexivity].
  destruct (Py.get nd "size") as [|b|z|f|s|l|d] eqn:Hget; simpl;
    try (eexists; reflexivity).
  destruct (Hsize z eq_refl) as [f ->]. eexists; reflexivity.
Qed.

(** C4. An order node that refers to a symbol (through the keys of
    [weights], [symbol_filter] or [universe], upper-cased) without a weight
    for it is invalid, whatever its [allocation], and the "Missing
    weight(s) for:" error lists the symbol. *)
Theorem order_weight_completeness (nd wd : dict) (universe allowed_tickers : list string)
    (sym : string) :
  Py.get nd "type" = VStr "order" →
  order_fields_typed nd wd universe →
  referenced nd wd universe sym →
  ¬ has_weight wd sym →
  ∃ (errors missing : list string),
    validate_order_node (VDict nd) allowed_tickers = Ret (false, errors)
    ∧ missing_weights_error (Py.get nd "id") missing ∈ errors
    ∧ sym ∈ missing
    ∧ occurs_in sym (missing_weights_error (Py.get nd "id") missing).
Proof.
  intros Htype [Hsize_type Hsize Hweights Huniverse Hvalues] Href Hnone.
  unfold validate_order_node; cbv zeta.
  rewrite Htype. cbn [Py.eq_str String.eqb Ascii.eqb Bool.eqb negb].
  destruct (in_str_set_hashable _
              ["percent_equity"; "fixed_qty"; "fixed_value"; "risk_based"] Hsize_type)
    as [size_type_ok ->].
  destruct (size_step_returns nd Hsize) as [e_size ->].
  change (if Py.truthy (Py.get nd "weights") then Py.get nd "weights" else VDict [])
    with (order_weights nd).
  change (if Py.truthy (Py.get nd "universe") then Py.get nd "universe" else VList [])
    with (order_universe nd).
  rewrite Hweights, Huniverse.
  assert (Hupper :
    (if Py.truthy (VList (VStr <$> universe))
     then upper_each (VList (VStr <$> universe)) else Ret [])
    = Ret (Py.upper <$> universe)).
  { destruct universe; [reflexivity|]. apply upper_each_strings. }
  rewrite Hupper. cbn [mbind result_bind].
  destruct (weights_loop_returns (Py.get nd "id")
              (order_symbols wd (Py.get nd "symbol_filter") (Py.upper <$> universe))
              wd None Hvalues) as [e_loop ->].
  cbn [mbind result_bind].
  pose proof (referenced_symbols nd wd universe sym Href) as Hsym.
  assert (Hmissing :
    sym ∈ missing_weights
            (order_symbols wd (Py.get nd "symbol_filter") (Py.upper <$> universe)) wd).
  { by apply missing_weights_spec. }
  set (missing := missing_weights _ wd) in *.
  assert (Hcond : bool_decide (missing ≠ []) = true).
  { apply bool_decide_eq_true_2. intros Hnil. rewrite Hnil in Hmissing.
    by apply elem_of_nil in Hmissing. }
  eexists _, missing. split; [|split; [|split]].
  - apply (finish_invalid (missing_weights_error (Py.get nd "id") missing)).
    in_errors.
  - in_errors.
  - exact Hmissing.
  - unfold missing_weights_error.
    rewrite <- (append_empty_r (Py.join ", " missing)), <- append_assoc.
    apply occurs_in_append, join_occurs, Hmissing.
Qed.

End order_properties.

(** ** The traversal *)

Lemma value_nested_ind (P : value → Prop) :
  P VNone → (∀ b, P (VBool b)) → (∀ z, P (VInt z)) → (∀ f, P (VFloat f)) →
  (∀ s, P (VStr s)) →
  (∀ l, Forall P l → P (VList l)) →
  (∀ d, Forall (λ kv, P kv.2) d → P (VDict d)) →
  ∀ v, P v.
Proof.
  intros HNone HBool HInt HFloat HStr HList HDict.
  fix IH 1.
  intros [|b|z|f|s|l|d];
    [exact HNone | apply HBool | apply HInt | apply HFloat | apply HStr | | ].
  - apply HList. induction l as [|x l IHl]; constructor; [apply IH | exact IHl].
  - apply HDict. induction d as [|[k x] d IHd]; constructor; [apply IH | exact IHd].
Qed.

Section traversal_properties.
Context `{FloatText}.
Import LogicValidator.

Lemma seq_done_l (r : run) : seq done r = r.
Proof. by destruct r. Qed.

Lemma seq_done_r (r : run) : seq r done = r.
Proof.
  destruct r as [out [st|]]; [reflexivity|].
  unfold seq; simpl. by rewrite app_nil_r.
Qed.

Lemma seq_assoc (a b c : run) : seq (seq a b) c = seq a (seq b c).
Proof.
  destruct a as [oa [sa|]]; [reflexivity|].
  destruct b as [ob [sb|]]; [reflexivity|].
  unfold seq; simpl. by rewrite app_assoc.
Qed.

Lemma seq_stopped (a b : run) : stopped a ≠ None → seq a b = a.
Proof. unfold seq. destruct (stopped a); [reflexivity | congruence]. Qed.

Lemma for_each_app (step : value → run) (xs ys : list value) :
  for_each step (xs ++ ys) = seq (for_each step xs) (for_each step ys).
Proof.
  induction xs as [|x xs IH]; simpl; [by rewrite seq_done_l|].
  by rewrite IH, seq_assoc.
Qed.

Lemma for_each_flat_map (allowed_symbols : list string) (step : value → run)
    (nodes_of : value → list value) (items : list value) :
  Forall (λ item, step item = check_all allowed_symbols (nodes_of item)) items →
  for_each step items = check_all allowed_symbols (flat_map nodes_of items).
Proof.
  induction 1 as [|item items Hitem _ IH]; [reflexivity|]. simpl.
  unfold check_all in *. by rewrite for_each_app, Hitem, IH.
Qed.

Lemma with_children_lookup {A} (absent : A) (present : value → A) (d : dict) :
  with_children absent present d
  = match Py.lookup "children" d with
    | Some chidren_data => present chidren_data
    | None => absent
    end.
Proof.
  induction d as [|[k x] d IH]; [reflexivity|]. simpl.
  destruct (String.eqb k "children"); [reflexivity | exact IH].
Qed.

(** The traversal of a dict, with the lookup of ["children"] spelled out. *)
Lemma trace_unfold (d : dict) (allowed_symbols : list string) :
  trace_json_data_recursive (VDict d) allowed_symbols
  = match Py.lookup "children" d with
    | None => check_node_type_and_validate (VDict d) allowed_symbols
    | Some (VList items) =>
        for_each
          (λ item,
             if Py.is_dict item then
               seq (check_node_type_and_validate item allowed_symbols)
                   (trace_json_data_recursive item allowed_symbols)
             else done)
          items
    | Some (VDict c) =>
        seq (check_node_type_and_validate (VDict c) allowed_symbols)
            (trace_json_data_recursive (VDict c) allowed_symbols)
    | Some _ => done
    end.
Proof.
  cbn [trace_json_data_recursive]. rewrite with_children_lookup.
  destruct (Py.lookup "children" d) as [[| | | | | |]|]; reflexivity.
Qed.

Lemma dispatched_unfold (d : dict) :
  dispatched (VDict d)
  = match Py.lookup "children" d with
    | None => [VDict d]
    | Some (VList items) =>
        flat_map (λ item, if Py.is_dict item then item :: dispatched item else []) items
    | Some (VDict c) => VDict c :: dispatched (VDict c)
    | Some _ => []
    end.
Proof.
  cbn [dispatched]. rewrite with_children_lookup.
  destruct (Py.lookup "children" d) as [[| | | | | |]|]; reflexivity.
Qed.

(** The traversal of a dict runs the checks of [dispatched], in order. *)
Lemma trace_dispatched (allowed_symbols : list string) (d : dict) :
  trace_json_data_recursive (VDict d) allowed_symbols
  = check_all allowed_symbols (dispatched (VDict d)).
Proof.
  pose (P := λ v : value,
    match v with
    | VDict d => trace_json_data_recursive v allowed_symbols
                 = check_all allowed_symbols (dispatched v)
    | VList items =>
        Forall (λ item,
                  (if Py.is_dict item then
                     seq (check_node_type_and_validate item allowed_symbols)
                         (trace_json_data_recursive item allowed_symbols)
                   else done)
                  = check_all allowed_symbols
                      (if Py.is_dict item then item :: dispatched item else [])) items
    | _ => True
    end).
  enough (HP : ∀ v, P v) by exact (HP (VDict d)).
  apply value_nested_ind; try exact (λ _, I); try exact I.
  - intros l Hl. simpl. eapply Forall_impl; [exact Hl|].
    intros [| | | | | |c] Hitem; try reflexivity.
    change (trace_json_data_recursive (VDict c) allowed_symbols
            = check_all allowed_symbols (dispatched (VDict c))) in Hitem.
    cbn [Py.is_dict]. rewrite Hitem. reflexivity.
  - intros d' Hd'. unfold P. rewrite trace_unfold, dispatched_unfold.
    destruct (Py.lookup "children" d') as [c|] eqn:Hc.
    + assert (Hchild : P c).
      { clear -Hc Hd'. induction Hd' as [|[k x] d' Hx _ IH]; [discriminate|].
        simpl in Hc. destruct (String.eqb k "children"); [by injection Hc as <- | auto]. }
      destruct c as [| | | | |items|c]; try reflexivity.
      * by apply for_each_flat_map.
      * change (trace_json_data_recursive (VDict c) allowed_symbols
                = check_all allowed_symbols (dispatched (VDict c))) in Hchild.
        rewrite Hchild. reflexivity.
    + unfold check_all. simpl. by rewrite seq_done_r.
Qed.

Lemma handle_cases (r : result verdict) :
  handle r = done ∨ stopped (handle r) ≠ None.
Proof. destruct r as [[[] errors]|e]; simpl; auto. Qed.

Lemma check_cases (allowed_symbols : list string) (node : value) :
  passes allowed_symbols node
  ∨ stopped (check_node_type_and_validate node allowed_symbols) ≠ None.
Proof.
  unfold passes, check_node_type_and_validate.
  destruct node as [| | | | | |d]; try (right; discriminate).
  repeat match goal with
         | |- context [if ?b then _ else _] => destruct b; [apply handle_cases|]
         end.
  right. discriminate.
Qed.

Lemma check_all_cases (allowed_symbols : list string) (nodes : list value) :
  (Forall (passes allowed_symbols) nodes ∧ check_all allowed_symbols nodes = done)
  ∨ ∃ before node after,
      nodes = before ++ node :: after
      ∧ Forall (passes allowed_symbols) before
      ∧ stopped (check_node_type_and_validate node allowed_symbols) ≠ None
      ∧ check_all allowed_symbols nodes
        = check_node_type_and_validate node allowed_symbols.
Proof.
  induction nodes as [|n nodes IH]; [left; split; [constructor | reflexivity]|].
  unfold check_all in *. cbn [for_each].
  destruct (check_cases allowed_symbols n) as [Hpass|Hstop].
  - rewrite Hpass, seq_done_l.
    destruct IH as [[Hall Hdone]|(before & node & after & -> & Hbefore & Hstop & Hrun)].
    + left. split; [by constructor | exact Hdone].
    + right. exists (n :: before), node, after.
      split; [reflexivity|]. split; [by constructor|]. split; [exact Hstop|].
      change ((n :: before) ++ node :: after) with (n :: before ++ node :: after).
      cbn [for_each]. rewrite Hpass, seq_done_l. exact Hrun.
  - right. exists [], n, nodes.
    split; [reflexivity|]. split; [constructor|]. split; [exact Hstop|].
    cbn [for_each]. by apply seq_stopped.
Qed.

(** C3, amended. The errors of one node are printed in full, one line
    each; but the traversal stops at the first dispatched node whose
    check does not pass (the validator found it invalid, or raised): the
    outcome of [validate_logic] is the outcome of that one check, and the
    nodes after it are not validated.  When every dispatched node passes,
    nothing is printed. *)
Theorem validation_stops_at_first_invalid_node (d : dict) (allowed_symbols : list string) :
  (∀ errors,
     handle_validation_errors false errors
     = Run ((λ error, "Error: " +:+ error) <$> errors) (Some Exit))
  ∧ ((Forall (passes allowed_symbols) (dispatched (VDict d))
      ∧ validate_logic (VDict d) allowed_symbols = done)
     ∨ ∃ before node after,
         dispatched (VDict d) = before ++ node :: after
         ∧ Forall (passes allowed_symbols) before
         ∧ stopped (check_node_type_and_validate node allowed_symbols) ≠ None
         ∧ validate_logic (VDict d) allowed_symbols
           = check_node_type_and_validate node allowed_symbols).
Proof.
  split; [reflexivity|].
  unfold validate_logic. rewrite trace_dispatched. apply check_all_cases.
Qed.

(** On a root with a list of children, the traversal looks at nothing but
    the children. *)
Lemma root_fields_ignored (d : dict) (items : list value) (allowed_symbols : list string) :
  Py.lookup "children" d = Some (VList items) →
  validate_logic (VDict d) allowed_symbols
  = validate_logic (VDict [("children", VList items)]) allowed_symbols.
Proof.
  intros Hchildren. unfold validate_logic. rewrite !trace_unfold, Hchildren. reflexivity.
Qed.

(** C9, at the failing input.  A root of unknown type with a ["children"]
    field is not dispatched: [validate_logic] checks its child twice and
    returns without printing, although the check of that root reports
    "Unknown node type". *)
Theorem root_with_children_is_not_validated :
  let root := VDict [("type", VStr "bogus"); ("children", VList [valid_weight_node])] in
  validate_logic root ["SPY"] = done
  ∧ dispatched root = [valid_weight_node; valid_weight_node]
  ∧ check_node_type_and_validate root ["SPY"]
    = Run ["Error: Unknown node type: bogus"] (Some Exit).
Proof. repeat split; vm_compute; reflexivity. Qed.

End traversal_properties.

(** C3 as stated fails: the second child is invalid, and the run stops on
    the first with nothing of the second printed. *)
Lemma later_sibling_errors_are_not_collected :
  let first := VDict [("type", VStr "weight")] in
  let second := VDict [("type", VStr "bogus")] in
  let tree := VDict [("type", VStr "group"); ("children", VList [first; second])] in
  @LogicValidator.check_node_type_and_validate example_float_text second ["SPY"]
  = LogicValidator.Run ["Error: Unknown node type: bogus"] (Some LogicValidator.Exit)
  ∧ @LogicValidator.validate_logic example_float_text tree ["SPY"]
    = LogicValidator.Run
        ["Error: For weight None, Weight node must have an allocation_method"]
        (Some LogicValidator.Exit)
  ∧ "Error: Unknown node type: bogus"
    ∉ LogicValidator.printed
        (@LogicValidator.validate_logic example_float_text tree ["SPY"]).
Proof.
  split; [vm_compute; reflexivity|]. split; [vm_compute; reflexivity|].
  vm_compute. intros Hin. apply list_elem_of_singleton in Hin. discriminate Hin.
Qed.

Lemma order_weight_completeness_witness :
  let nd := [("type", VStr "order"); ("side", VStr "long"); ("allocation", VStr "equal");
             ("universe", VList [VStr "SPY"; VStr "TQQQ"]);
             ("weights", VDict [("SPY", VFloat (binary_normalize 53 1024 1 (-1) false))])] in
  ∃ errors missing,
    @LogicValidator.validate_order_node example_float_text (VDict nd) ["SPY"; "TQQQ"]
    = Ret (false, errors)
    ∧ @LogicValidator.missing_weights_error example_float_text VNone missing ∈ errors
    ∧ "TQQQ" ∈ missing
    ∧ occurs_in "TQQQ"
        (@LogicValidator.missing_weights_error example_float_text VNone missing).
Proof.
  intros nd.
  apply (@order_weight_completeness example_float_text nd
           [("SPY", VFloat (binary_normalize 53 1024 1 (-1) false))]
           ["SPY"; "TQQQ"] ["SPY"; "TQQQ"] "TQQQ").
  - reflexivity.
  - split.
    + reflexivity.
    + intros z Hz. discriminate Hz.
    + reflexivity.
    + reflexivity.
    + apply Forall_cons_2; [|apply Forall_nil_2]. right. eexists. reflexivity.
  - right. right. apply list_elem_of_further, list_elem_of_here.
  - unfold has_weight. intros Hin. apply list_elem_of_singleton in Hin. discriminate Hin.
Defined.

(** ** The rolling window and the custom indicators *)

Lemma window_feed_snoc (self : Window.t) (prices : list float) (p : float) :
  Window.feed self (prices ++ [p]) = Window.update (Window.feed self prices) p.
Proof. unfold Window.feed. apply foldl_snoc. Qed.

Lemma tail_drop_snoc {A} (k : nat) (l : list A) (x : A) :
  (k ≤ length l)%nat → tail (drop k l ++ [x]) = drop (S k) (l ++ [x]).
Proof.
  revert k. induction l as [|a l IH]; intros k Hk.
  - simpl in Hk. assert (k = 0%nat) as -> by lia. reflexivity.
  - destruct k as [|k]; [reflexivity|]. simpl in Hk.
    change (drop (S k) (a :: l)) with (drop k l).
    change (drop (S (S k)) ((a :: l) ++ [x])) with (drop (S k) (l ++ [x])).
    apply IH. lia.
Qed.

Lemma window_state (period : Z) (prices : list float) :
  Window.feed (Window.init period) prices
  = Window.Make period (drop (length prices - Z.to_nat period) prices)
      (bool_decide (2 ≤ period ∧ (2 ≤ length prices)%nat)).
Proof.
  induction prices as [|p prices IH] using rev_ind.
  { rewrite drop_nil, bool_decide_eq_false_2; [reflexivity|]. simpl. lia. }
  rewrite window_feed_snoc, IH. unfold Window.update. cbn [Window.period Window.price_history Window.is_ready].
  rewrite !length_app, length_drop. cbn [length].
  destruct (Z.ltb_spec period (Z.of_nat (length prices - (length prices - Z.to_nat period) + 1))) as [Hfull|Hroom].
  - rewrite tail_drop_snoc by lia.
    replace (S (length prices - Z.to_nat period)) with (length prices + 1 - Z.to_nat period)%nat by lia.
    f_equal.
    rewrite length_drop, length_app. cbn [length].
    destruct (Nat.leb_spec 2 (length prices + 1 - (length prices + 1 - Z.to_nat period))).
    + symmetry. apply bool_decide_eq_true. lia.
    + apply bool_decide_ext. lia.
  - replace (length prices + 1 - Z.to_nat period)%nat with 0%nat by lia.
    replace (length prices - Z.to_nat period)%nat with 0%nat by lia.
    rewrite !drop_0. f_equal. rewrite length_app. cbn [length].
    destruct (Nat.leb_spec 2 (length prices + 1)).
    + symmetry. apply bool_decide_eq_true. lia.
    + apply bool_decide_ext. lia.
Qed.

(** X1. After any sequence of updates the window of both indicators holds
    the latest [period] prices, in order (none for a period that is not
    positive); it is ready exactly when the period and the number of
    prices seen are both at least 2; and it is the window the prices it
    still holds would give on their own. *)
Theorem window_keeps_latest_prices (period : Z) (prices : list float) :
  let w := Window.feed (Window.init period) prices in
  Window.price_history w = drop (length prices - Z.to_nat period) prices
  ∧ (Window.is_ready w = true ↔ 2 ≤ period ∧ (2 ≤ length prices)%nat)
  ∧ Window.feed (Window.init period) (Window.price_history w) = w.
Proof.
  intros w. subst w. rewrite !window_state. cbn [Window.price_history Window.is_ready].
  split; [reflexivity|]. split; [apply bool_decide_eq_true|].
  rewrite length_drop.
  replace (length prices - (length prices - Z.to_nat period) - Z.to_nat period)%nat
    with 0%nat by lia.
  rewrite drop_0. f_equal. apply bool_decide_ext. lia.
Qed.

(** X2. With a period of 1 or less the window never becomes ready, and
    max-drawdown and drawdown are 0.0 whatever prices are fed. *)
Theorem short_period_indicators_stay_zero (period : Z) (prices : list float) :
  period ≤ 1 →
  let w := Window.feed (Window.init period) prices in
  Window.is_ready w = false
  ∧ MaxDrawdownIndicator.value w = Py.fzero
  ∧ DrawdownIndicator.value w = Py.fzero.
Proof.
  intros Hperiod w. subst w. rewrite window_state.
  rewrite bool_decide_eq_false_2 by lia.
  split; [reflexivity|]. split; reflexivity.
Qed.

Lemma short_period_indicators_stay_zero_witness :
  MaxDrawdownIndicator.value
    (Window.feed (Window.init 1) [price 100; price 120; price 90]) = Py.fzero
  ∧ DrawdownIndicator.value
      (Window.feed (Window.init 1) [price 100; price 120; price 90]) = Py.fzero.
Proof.
  apply (short_period_indicators_stay_zero 1 [price 100; price 120; price 90]). lia.
Defined.

Lemma scan_rising (previous max_drawdown : float) (prices : list float) :
  rising previous prices →
  MaxDrawdownIndicator.scan previous max_drawdown prices = max_drawdown.
Proof.
  revert previous. induction prices as [|p rest IH]; intros previous Hrising; [reflexivity|].
  destruct Hrising as [Hup Hrest]. cbn [MaxDrawdownIndicator.scan].
  rewrite Hup. apply IH, Hrest.
Qed.

Lemma rising_tail (previous p : float) (rest : list float) :
  rising previous (p :: rest) → rising p rest.
Proof. intros [_ Hrest]. exact Hrest. Qed.

Lemma ascending_drop (k : nat) (prices : list float) :
  ascending prices → ascending (drop k prices).
Proof.
  revert prices. induction k as [|k IH]; intros prices Hasc; [by rewrite drop_0|].
  destruct prices as [|first rest]; [exact I|].
  change (drop (S k) (first :: rest)) with (drop k rest). apply IH.
  destruct rest as [|p rest]; [exact I|]. exact (rising_tail _ _ _ Hasc).
Qed.

(** X3. On prices that each exceed the one before, the max-drawdown
    value is 0.0, for every period. *)
Theorem rising_prices_have_no_max_drawdown (period : Z) (prices : list float) :
  ascending prices →
  MaxDrawdownIndicator.value (Window.feed (Window.init period) prices) = Py.fzero.
Proof.
  intros Hasc. rewrite window_state. unfold MaxDrawdownIndicator.value.
  cbn [Window.price_history Window.is_ready].
  destruct (negb _ || _); [reflexivity|].
  apply (ascending_drop (length prices - Z.to_nat period)) in Hasc.
  destruct (drop _ prices) as [|peak rest]; [reflexivity|].
  apply scan_rising, Hasc.
Qed.

Lemma rising_prices_have_no_max_drawdown_witness :
  MaxDrawdownIndicator.value
    (Window.feed (Window.init 252) [price 90; price 100; price 120]) = Py.fzero.
Proof.
  apply (rising_prices_have_no_max_drawdown 252 [price 90; price 100; price 120]).
  repeat split.
Defined.

Lemma fsub_diag (m : positive) (e : Z) :
  Py.fsub (S754_finite false m e) (S754_finite false m e) = Py.fzero.
Proof.
  unfold Py.fsub, SFsub. cbv zeta. rewrite Z.sub_diag. reflexivity.
Qed.

(** X4. When the latest price is the maximum of the window, and a
    positive finite float, the drawdown value is 0.0. *)
Theorem drawdown_is_zero_at_a_new_high (self : Window.t) (first : float)
    (rest : list float) (m : positive) (e : Z) :
  Window.price_history self = first :: rest →
  List.last rest first = S754_finite false m e →
  DrawdownIndicator.max_of first rest = List.last rest first →
  DrawdownIndicator.value self = Py.fzero.
Proof.
  intros Hhistory Hlast Hmax. unfold DrawdownIndicator.value.
  destruct (negb _ || _); [reflexivity|].
  rewrite Hhistory. cbv zeta. rewrite Hmax, Hlast, fsub_diag. reflexivity.
Qed.

Lemma drawdown_is_zero_at_a_new_high_witness :
  DrawdownIndicator.value
    (Window.feed (Window.init 252) [price 100; price 90; price 120]) = Py.fzero.
Proof.
  eapply (drawdown_is_zero_at_a_new_high _ (price 100) [price 90; price 120]);
    vm_compute; reflexivity.
Defined.

Lemma mar_feed_snoc (self : MovingAvgReturnIndicator.t) (prices : list float) (p : float) :
  MovingAvgReturnIndicator.feed self (prices ++ [p])
  = MovingAvgReturnIndicator.update (MovingAvgReturnIndicator.feed self prices) p.
Proof. unfold MovingAvgReturnIndicator.feed. apply foldl_snoc. Qed.

Lemma length_tail_le {A} (l : list A) : length (tail l) = (length l - 1)%nat.
Proof. destruct l; simpl; lia. Qed.

Lemma mar_invariant_feed (period : Z) (prices : list float) :
  mar_invariant period prices
    (MovingAvgReturnIndicator.feed (MovingAvgReturnIndicator.init period) prices).
Proof.
  induction prices as [|p prices IH] using rev_ind.
  { split; simpl; try done; try lia. split; [discriminate|]. intros [? _]. done. }
  rewrite mar_feed_snoc.
  destruct IH as [Hperiod Hprices Hwindow Hcount Hready].
  destruct (MovingAvgReturnIndicator.feed _ prices) as [period' history returns ready].
  cbn [MovingAvgReturnIndicator.period MovingAvgReturnIndicator.price_history
       MovingAvgReturnIndicator.return_history MovingAvgReturnIndicator.is_ready] in *.
  subst period' history.
  unfold MovingAvgReturnIndicator.update.
  cbn [MovingAvgReturnIndicator.period MovingAvgReturnIndicator.price_history
       MovingAvgReturnIndicator.return_history MovingAvgReturnIndicator.is_ready].
  set (returns' := if (2 <=? _)%nat then _ else _).
  assert (Hreturns :
    (returns' = returns
     ∨ (prices ≠ [] ∧ Z.of_nat (length returns) < period ∧ ∃ r, returns' = returns ++ [r])
     ∨ (prices ≠ [] ∧ period ≤ Z.of_nat (length returns) ∧ ∃ r, returns' = tail (returns ++ [r])))).
  { subst returns'. rewrite length_app, length_drop. cbn [length].
    destruct (Nat.leb_spec 2 (length prices - (length prices - 500) + 1)) as [Hlen|Hlen];
      [|by left].
    destruct (Py.flt _ _); [|by left].
    assert (prices ≠ []) by (intros ->; simpl in Hlen; lia).
    rewrite length_app. cbn [length].
    destruct (Z.ltb_spec period (Z.of_nat (length returns + 1))).
    - right; right. split; [done|]. split; [lia|]. eexists; reflexivity.
    - right; left. split; [done|]. split; [lia|]. eexists; reflexivity. }
  clearbody returns'.
  assert (Hlen' :
    length returns' = length returns
    ∨ (prices ≠ [] ∧ Z.of_nat (length returns) < period
       ∧ length returns' = S (length returns))
    ∨ (prices ≠ [] ∧ period ≤ Z.of_nat (length returns)
       ∧ length returns' = length returns)).
  { destruct Hreturns as [->|[(? & ? & r & ->)|(? & ? & r & ->)]].
    - by left.
    - right; left. rewrite length_app. simpl. split; [done|]. split; [done|lia].
    - right; right. rewrite length_tail_le, length_app. simpl. split; [done|]. split; [done|lia]. }
  assert (Hnonempty : prices ≠ [] → (1 ≤ length prices)%nat).
  { destruct prices; [done|simpl; lia]. }
  split; cbn [MovingAvgReturnIndicator.period MovingAvgReturnIndicator.price_history
              MovingAvgReturnIndicator.return_history MovingAvgReturnIndicator.is_ready].
  - reflexivity.
  - rewrite !length_app, length_drop. cbn [length].
    destruct (Nat.ltb_spec 500 (length prices - (length prices - 500) + 1)).
    + rewrite tail_drop_snoc by lia. f_equal. lia.
    + replace (length prices - 500)%nat with 0%nat by lia.
      replace (length prices + 1 - 500)%nat with 0%nat by lia.
      by rewrite !drop_0.
  - lia.
  - rewrite length_app. cbn [length]. destruct Hlen' as [?|[(?%Hnonempty & ? & ?)|(?%Hnonempty & ? & ?)]]; lia.
  - assert (Hlist : ∀ l : list float, l ≠ [] ↔ (0 < length l)%nat).
    { intros []; simpl; split; try done; lia. }
    rewrite Hlist in Hready. rewrite !Hlist. rewrite length_app. cbn [length].
    destruct (Z.leb_spec (Z.min period 1) (Z.of_nat (length returns'))) as [Hmin|Hmin].
    + split; [|done]. intros _. split; [lia|].
      destruct (Z.le_gt_cases period 0); [by left|right]. lia.
    + rewrite Hready. assert (0 < period ∧ length returns' = 0%nat) as [Hpos Hzero] by lia.
      split; [|lia].
      intros [Hp [?|Hr]]; [lia|]. apply Hlist in Hr.
      destruct Hlen' as [?|[(? & ? & ?)|(? & ? & ?)]]; lia.
Qed.

(** X5. After any sequence of updates of the moving-average-return
    indicator: the price history is the latest 500 prices, the return
    history holds at most [period] returns (none for a period that is not
    positive) and at most one per price after the first, and the
    indicator is ready exactly when a price was seen and either the
    period is not positive or a return is held. *)
Theorem moving_avg_return_histories (period : Z) (prices : list float) :
  let w := MovingAvgReturnIndicator.feed (MovingAvgReturnIndicator.init period) prices in
  MovingAvgReturnIndicator.price_history w = drop (length prices - 500) prices
  ∧ Z.of_nat (length (MovingAvgReturnIndicator.return_history w)) ≤ Z.max 0 period
  ∧ (length (MovingAvgReturnIndicator.return_history w) ≤ length prices - 1)%nat
  ∧ (MovingAvgReturnIndicator.is_ready w = true
     ↔ prices ≠ [] ∧ (period ≤ 0 ∨ MovingAvgReturnIndicator.return_history w ≠ [])).
Proof.
  intros w. destruct (mar_invariant_feed period prices) as [_ Hprices Hwindow Hcount Hready].
  done.
Qed.

(** X6. The moving-average-return value is 0.0 when the period is not
    positive, and when at most one price was seen, whatever the mean of
    the runtime is. *)
Theorem moving_avg_return_without_returns (mean : list float → float) (period : Z)
    (prices : list float) :
  period ≤ 0 ∨ (length prices ≤ 1)%nat →
  MovingAvgReturnIndicator.value mean
    (MovingAvgReturnIndicator.feed (MovingAvgReturnIndicator.init period) prices)
  = Py.fzero.
Proof.
  intros Hnone.
  destruct (mar_invariant_feed period prices) as [_ _ Hwindow Hcount _].
  unfold MovingAvgReturnIndicator.value.
  assert (length (MovingAvgReturnIndicator.return_history
                    (MovingAvgReturnIndicator.feed
                       (MovingAvgReturnIndicator.init period) prices)) = 0%nat) as ->
    by lia.
  by rewrite orb_true_r.
Qed.

Lemma moving_avg_return_without_returns_witness :
  MovingAvgReturnIndicator.value (λ _, price 1)
    (MovingAvgReturnIndicator.feed (MovingAvgReturnIndicator.init 0)
       [price 100; price 120; price 90]) = Py.fzero
  ∧ MovingAvgReturnIndicator.value (λ _, price 1)
      (MovingAvgReturnIndicator.feed (MovingAvgReturnIndicator.init 20) [price 100])
    = Py.fzero.
Proof.
  split.
  - apply (moving_avg_return_without_returns _ 0 [price 100; price 120; price 90]).
    left. lia.
  - apply (moving_avg_return_without_returns _ 20 [price 100]). right. simpl. lia.
Defined.

(** ** The registry: growth, invariants, keys *)

Lemma upper_char_idem (c : ascii) : Py.upper_char (Py.upper_char c) = Py.upper_char c.
Proof. destruct c as [[] [] [] [] [] [] [] []]; reflexivity. Qed.

Lemma upper_idem (s : string) : Py.upper (Py.upper s) = Py.upper s.
Proof. induction s as [|c s IH]; simpl; [reflexivity|]. by rewrite upper_char_idem, IH. Qed.

Lemma nonempty_upper (s : string) : Py.nonempty (Py.upper s) = Py.nonempty s.
Proof. destruct s; reflexivity. Qed.

Lemma append_inv_head (a x y : string) : a +:+ x = a +:+ y → x = y.
Proof. induction a as [|c a IH]; simpl; [done|]. intros [= Heq]. auto. Qed.

Section registry_growth.
Context `{FloatText}.
Import IndicatorGenerator.

Lemma dict_set_Forall {V} (P : string * V → Prop) (k : string) (v : V)
    (d : list (string * V)) :
  Forall P d → P (k, v) → Forall P (dict_set k v d).
Proof.
  intros Hd Hkv. induction Hd as [|[k' v'] d Hhead Hd IH]; simpl.
  - by apply Forall_singleton.
  - destruct (String.eqb k' k); apply Forall_cons; auto.
Qed.

(** The outcomes of [_process_indicator] on any configuration. *)
Lemma process_outcomes (cfg : value) (self : t) :
  (_process_indicator cfg self).1 = self
  ∨ ∃ (cd : dict) (k : string),
      cfg = VDict cd
      ∧ Py.mem (config_name cd) IMPLEMENTED_INDICATORS = true
      ∧ (_process_indicator cfg self).2 = Ret tt
      ∧ custom_methods_needed (_process_indicator cfg self).1
        = (if Py.mem (config_name cd) CUSTOM_INDICATORS
           then {[ config_name cd ]} ∪ custom_methods_needed self
           else custom_methods_needed self)
      ∧ (indicators_used (_process_indicator cfg self).1 = indicators_used self
         ∨ ∃ s, Py.get cd "symbol" = VStr s
                ∧ indicators_used (_process_indicator cfg self).1
                  = dict_set k (Config (config_name cd) (Py.upper s)
                                  (Py.get_or cd "args" (VDict [])))
                      (indicators_used self)).
Proof.
  destruct cfg as [| | | | | |cd]; try (by left).
  unfold _process_indicator.
  destruct (Py.mem (config_name cd) IMPLEMENTED_INDICATORS) eqn:Himpl; [|by left].
  cbn [negb]. destruct (_create_indicator_key _ _ _) as [k|e]; [|by left].
  destruct (Py.get cd "symbol") as [| | | |s| |] eqn:Hsym; cbn; try (by left).
  - right. exists cd, k. repeat split; try done. by left.
  - right. exists cd, k. repeat split; try done. right. by exists s.
Qed.

(** X7. [_process_indicator] only grows the registry: the keys it held
    stay, in their order, with at most one key added at the end; no
    custom method is removed; and a call that raises leaves the registry
    as it was. *)
Theorem registration_only_appends (cfg : value) (self : t) :
  let after := (_process_indicator cfg self).1 in
  (indicators_used self).*1 `prefix_of` (indicators_used after).*1
  ∧ (length (indicators_used after) ≤ S (length (indicators_used self)))%nat
  ∧ custom_methods_needed self ⊆ custom_methods_needed after
  ∧ (∀ e, (_process_indicator cfg self).2 = Raise e → after = self).
Proof.
  intros after. subst after.
  destruct (process_outcomes cfg self) as [->|(cd & k & -> & _ & Hret & Hcustom & Hused)].
  { split; [done|]. split; [lia|]. done. }
  split; [|split; [|split]].
  - destruct Hused as [->|(s & _ & ->)]; [done|].
    rewrite dict_set_keys. case_bool_decide; [done|]. by apply prefix_app_r.
  - destruct Hused as [->|(s & _ & ->)]; [lia|].
    rewrite <- !(length_fmap fst), dict_set_keys.
    case_bool_decide; [lia|]. rewrite length_app. simpl. lia.
  - rewrite Hcustom. destruct (Py.mem _ CUSTOM_INDICATORS); [apply union_subseteq_r|done].
  - intros e He. congruence.
Qed.

(** X8. The empty registry is well kept, and [_process_indicator],
    [get_indicator_value_code] and [reset_variables] keep it so, on every
    configuration: each key is held once, each stored name is an
    implemented indicator, each stored symbol is upper case, and the
    custom methods are custom indicators. *)
Theorem registry_stays_well_kept (cfg : value) (self : t) :
  well_kept init
  ∧ (well_kept self →
     well_kept (_process_indicator cfg self).1
     ∧ well_kept (get_indicator_value_code cfg self).1
     ∧ well_kept (reset_variables self)).
Proof.
  assert (Hinit : well_kept init).
  { split; [apply NoDup_nil_2|apply Forall_nil_2|apply Forall_nil_2|].
    intros method Hin. by apply not_elem_of_empty in Hin. }
  split; [exact Hinit|]. intros Hself.
  assert (Hafter : well_kept (_process_indicator cfg self).1).
  { destruct (process_outcomes cfg self) as [->|(cd & k & -> & Himpl & _ & Hcustom & Hused)];
      [exact Hself|].
    destruct Hself as [Hkeys Hnames Hsymbols Hmethods]. split.
    - unfold unique_keys in *. destruct Hused as [->|(s & _ & ->)]; [done|].
      by apply dict_set_unique.
    - destruct Hused as [->|(s & _ & ->)]; [done|]. by apply dict_set_Forall.
    - destruct Hused as [->|(s & _ & ->)]; [done|].
      apply dict_set_Forall; [done|]. apply upper_idem.
    - intros method. rewrite Hcustom.
      destruct (Py.mem (config_name cd) CUSTOM_INDICATORS) eqn:Hmem; [|apply Hmethods].
      intros [->%elem_of_singleton|Hin]%elem_of_union; [|by apply Hmethods].
      by apply bool_decide_eq_true in Hmem. }
  split; [exact Hafter|]. split; [by rewrite get_code_registry|exact Hinit].
Qed.

Lemma key_symbol_case (name : string) (s s' : string) (args : value) :
  Py.upper s' = Py.upper s →
  _create_indicator_key name (VStr s') args = _create_indicator_key name (VStr s) args.
Proof.
  intros Hupper. unfold _create_indicator_key. cbn [Py.truthy upper_of].
  assert (Py.nonempty s' = Py.nonempty s) as ->
    by (by rewrite <- (nonempty_upper s'), Hupper, nonempty_upper).
  by rewrite Hupper.
Qed.

(** X9. Two configurations with the same lower-cased name and the same
    arguments, whose symbols are equal up to case, are registered alike:
    each call does what the other does, and the second of the two changes
    nothing. *)
Theorem registration_ignores_symbol_case (cd cd' : dict) (s s' : string) (self : t) :
  config_name cd' = config_name cd →
  Py.get_or cd' "args" (VDict []) = Py.get_or cd "args" (VDict []) →
  Py.get cd "symbol" = VStr s →
  Py.get cd' "symbol" = VStr s' →
  Py.upper s' = Py.upper s →
  _process_indicator (VDict cd') self = _process_indicator (VDict cd) self
  ∧ _process_indicator (VDict cd') (_process_indicator (VDict cd) self).1
    = _process_indicator (VDict cd) self.
Proof.
  intros Hname Hargs Hsym Hsym' Hupper.
  assert (Hsame : ∀ g, _process_indicator (VDict cd') g = _process_indicator (VDict cd) g).
  { intros g. unfold _process_indicator. rewrite Hname, Hargs, Hsym, Hsym'.
    rewrite (key_symbol_case _ s s' _ Hupper). cbn [Py.is_none upper_of].
    by rewrite Hupper. }
  split; [apply Hsame|]. rewrite Hsame. apply process_idempotent.
Qed.

End registry_growth.

Lemma registry_stays_well_kept_witness :
  well_kept
    (@IndicatorGenerator._process_indicator example_float_text
       (VDict [("name", VStr "Max-Drawdown"); ("symbol", VStr "spy")])
       IndicatorGenerator.init).1.
Proof.
  destruct (@registry_stays_well_kept example_float_text
              (VDict [("name", VStr "Max-Drawdown"); ("symbol", VStr "spy")])
              IndicatorGenerator.init) as [Hinit Hstep].
  apply Hstep, Hinit.
Defined.

Lemma registration_only_appends_witness :
  IndicatorGenerator.custom_methods_needed IndicatorGenerator.init
  ⊆ IndicatorGenerator.custom_methods_needed
      (@IndicatorGenerator._process_indicator example_float_text
         (VDict [("name", VStr "drawdown"); ("symbol", VStr "spy")])
         IndicatorGenerator.init).1.
Proof.
  apply (@registration_only_appends example_float_text
           (VDict [("name", VStr "drawdown"); ("symbol", VStr "spy")])
           IndicatorGenerator.init).
Defined.

Lemma registration_ignores_symbol_case_witness :
  let lower_case := [("name", VStr "rsi"); ("symbol", VStr "spy");
                     ("args", VDict [("period", VInt 14)])] in
  let upper_case := [("symbol", VStr "SPY"); ("name", VStr "RSI");
                     ("args", VDict [("period", VInt 14)])] in
  @IndicatorGenerator._process_indicator example_float_text (VDict upper_case)
    IndicatorGenerator.init
  = @IndicatorGenerator._process_indicator example_float_text (VDict lower_case)
      IndicatorGenerator.init.
Proof.
  intros lower_case upper_case.
  apply (@registration_ignores_symbol_case example_float_text lower_case upper_case
           "spy" "SPY" IndicatorGenerator.init); reflexivity.
Defined.

(** ** The registry: keys, variables, update code, imports *)

Lemma int_str_inj (p q : Z) : Py.int_str p = Py.int_str q → p = q.
Proof.
  unfold Py.int_str. intros Heq. apply DecimalZ.to_int_inj.
  assert (Hnonnil : ∀ z, Z.to_int z ≠ Decimal.Pos Decimal.Nil
                         ∧ Z.to_int z ≠ Decimal.Neg Decimal.Nil).
  { intros [|z|z]; simpl; split; try discriminate;
      intros [= Hnil]; by apply DecimalPos.Unsigned.to_uint_nonnil in Hnil. }
  apply (f_equal NilZero.int_of_string) in Heq.
  rewrite !NilZero.isi in Heq by apply Hnonnil. congruence.
Qed.

Lemma join_snoc_inj (sep x y : string) (parts : list string) :
  Py.join sep (parts ++ [x]) = Py.join sep (parts ++ [y]) → x = y.
Proof.
  unfold Py.join. induction parts as [|h [|h' t] IH]; simpl in *.
  - done.
  - intros Heq. by do 2 apply append_inv_head in Heq.
  - intros Heq. by do 2 apply append_inv_head in Heq; apply IH.
Qed.

Lemma existsb_none {A} (f : A → bool) (l : list A) :
  Forall (λ x, f x = false) l → existsb f l = false.
Proof. induction 1 as [|x l Hx _ IH]; simpl; [done|]. by rewrite Hx, IH. Qed.

Section registry_code.
Context `{FloatText}.
Import IndicatorGenerator.

(** X10. Two integer periods that differ give two keys that differ, for
    the same name and symbol and no [smoothing] or [fast] argument. *)
Theorem periods_give_distinct_keys (name : string) (symbol : value) (a a' : dict)
    (p q : Z) :
  symbol = VNone ∨ (∃ s, symbol = VStr s) →
  Py.lookup "period" a = Some (VInt p) →
  Py.lookup "period" a' = Some (VInt q) →
  (∀ k, k ∈ ["smoothing"; "fast"] → Py.lookup k a = None ∧ Py.lookup k a' = None) →
  p ≠ q →
  ∃ key key',
    _create_indicator_key name symbol (VDict a) = Ret key
    ∧ _create_indicator_key name symbol (VDict a') = Ret key'
    ∧ key ≠ key'.
Proof.
  intros Hsym Hp Hq Hnone Hne.
  destruct (Hnone "smoothing") as [Hs Hs']; [apply list_elem_of_here|].
  destruct (Hnone "fast") as [Hf Hf']; [apply list_elem_of_further, list_elem_of_here|].
  unfold _create_indicator_key, contains_key, subscript, Py.has_key, Py.get.
  rewrite Hp, Hq, Hs, Hs', Hf, Hf'.
  assert (∃ parts : list string,
            (if Py.truthy symbol then u ← upper_of symbol; Ret [name; u]
             else Ret [name]) = Ret parts) as [parts ->].
  { destruct Hsym as [->|[s ->]]; simpl; [eauto|]. destruct (Py.nonempty s); eauto. }
  cbn. eexists _, _. split; [reflexivity|]. split; [reflexivity|].
  intros Heq%join_snoc_inj%int_str_inj. contradiction.
Qed.

(** Evaluates the closed name tests of a goal. *)
Ltac eval_name_tests :=
  repeat match goal with
         | |- context [Py.mem (String ?c ?r) ?l] =>
             let b := eval vm_compute in (Py.mem (String c r) l) in
             change (Py.mem (String c r) l) with b
         | |- context [String.eqb (String ?c ?r) ?m] =>
             let b := eval vm_compute in (String.eqb (String c r) m) in
             change (String.eqb (String c r) m) with b
         | |- context [Py.eq_str (VStr (String ?c ?r)) ?m] =>
             let b := eval vm_compute in (Py.eq_str (VStr (String c r)) m) in
             change (Py.eq_str (VStr (String c r)) m) with b
         | |- context [Py.in_str_list (VStr (String ?c ?r)) ?m] =>
             let b := eval vm_compute in (Py.in_str_list (VStr (String c r)) m) in
             change (Py.in_str_list (VStr (String c r)) m) with b
         | |- context [clean (String ?c ?r)] =>
             let b := eval vm_compute in (clean (String c r)) in
             change (clean (String c r)) with b
         | |- context [Py.lower (String ?c ?r)] =>
             let b := eval vm_compute in (Py.lower (String c r)) in
             change (Py.lower (String c r)) with b
         end.

Lemma get_or_present (d : dict) (k : string) (dflt : value) :
  Py.has_key k d = true → Py.get_or d k dflt = Py.get d k.
Proof. unfold Py.has_key, Py.get_or, Py.get. by destruct (Py.lookup k d). Qed.

Lemma get_or_lookup (d : dict) (k : string) (dflt v : value) :
  Py.lookup k d = Some v → Py.get_or d k dflt = v.
Proof. unfold Py.get_or. by intros ->. Qed.

Lemma get_or_absent (d : dict) (k : string) (dflt : value) :
  Py.has_key k d = false → Py.get_or d k dflt = dflt.
Proof. unfold Py.has_key, Py.get_or. by destruct (Py.lookup k d). Qed.

(** X11. For an indicator whose variable carries a period, given under
    its lower-case name with the string symbol [s]: the initialization
    line of the stored entry (symbol [s.upper()]) assigns the variable
    [self.<clean(s.upper())><infix><period>], with the default period
    when [args] has none; the access expression reads
    [self.<clean(s)><infix><period>] when [args] has a period or the
    indicator is custom, and [self.<clean(s)>_<name>] otherwise.  So for
    a symbol that cleans alike before and after upper-casing, the access
    expression reads the declared variable in the first case and a
    different variable, which no line declares, in the second. *)
Theorem declared_and_accessed_variables (name infix : string) (dflt : Z)
    (cd a : dict) (s key : string) :
  (name, (infix, dflt)) ∈ PERIOD_INDICATORS →
  Py.lookup "name" cd = Some (VStr name) →
  Py.lookup "symbol" cd = Some (VStr s) →
  Py.get_or cd "args" (VDict []) = VDict a →
  let period := Py.str (Py.get_or a "period" (VInt dflt)) in
  let declared := "self." +:+ clean (Py.upper s) +:+ infix +:+ period in
  let accessed :=
    if Py.has_key "period" a || Py.mem name CUSTOM_INDICATORS
    then "self." +:+ clean s +:+ infix +:+ period
    else "self." +:+ clean s +:+ "_" +:+ clean name in
  config_name cd = name
  ∧ (∃ rhs, _generate_indicator_initialization key (Config name (Py.upper s) (VDict a))
            = Ret (Some (declared +:+ " = " +:+ rhs)))
  ∧ access_expression cd = Ret (value_of accessed)
  ∧ (clean (Py.upper s) = clean s →
     (Py.has_key "period" a || Py.mem name CUSTOM_INDICATORS = true →
      accessed = declared)
     ∧ (Py.has_key "period" a = false → Py.mem name CUSTOM_INDICATORS = false →
        accessed ≠ declared)).
Proof.
  intros Hin Hname Hsym Hargs period declared accessed.
  assert (Hcases :
    config_name cd = name
    ∧ (∃ rhs, _generate_indicator_initialization key (Config name (Py.upper s) (VDict a))
              = Ret (Some (declared +:+ " = " +:+ rhs)))
    ∧ access_expression cd = Ret (value_of accessed)
    ∧ (Py.has_key "period" a = false → Py.mem name CUSTOM_INDICATORS = false →
       infix +:+ Py.str (Py.get_or a "period" (VInt dflt)) ≠ "_" +:+ clean name)).
  { subst period declared accessed.
    unfold config_name, access_expression, _generate_indicator_initialization.
    cbv zeta.
    rewrite !(get_or_lookup _ _ _ _ Hname), ?(get_or_lookup _ _ _ _ Hsym), !Hargs.
    cbn [default cfg_name cfg_symbol cfg_args lower_of args_get contains_key
                        subscript mbind result_bind Py.str].
    fold (clean s).
    repeat (apply elem_of_cons in Hin as [Hin|Hin]; [injection Hin as -> -> ->|]);
      try (by apply elem_of_nil in Hin);
      eval_name_tests; cbn [orb andb negb];
      (split; [reflexivity|]); (split; [eexists; rewrite !append_assoc; reflexivity|]);
      (split; [destruct (Py.has_key "period" a) eqn:Hperiod; cbn [orb];
               rewrite ?(get_or_present _ _ _ Hperiod); reflexivity|]);
      intros Hperiod Hcustom; try discriminate Hcustom;
      rewrite (get_or_absent _ _ _ Hperiod); vm_compute; discriminate. }
  destruct Hcases as (Hn & Hinit & Haccess & Hdiffer).
  split; [exact Hn|]. split; [exact Hinit|]. split; [exact Haccess|].
  intros Hclean. subst accessed declared period. rewrite Hclean. split.
  - by intros ->.
  - intros Hperiod Hcustom. rewrite Hperiod, Hcustom. cbn [orb].
    intros Heq. do 2 apply append_inv_head in Heq. symmetry in Heq.
    by apply Hdiffer in Heq.
Qed.

Lemma custom_names (name : string) :
  Py.mem name CUSTOM_INDICATORS = true →
  name = "max-drawdown" ∨ name = "drawdown" ∨ name = "moving-average-return".
Proof.
  intros Hin%bool_decide_eq_true.
  repeat (apply elem_of_cons in Hin as [->|Hin]); auto. by apply elem_of_nil in Hin.
Qed.

Lemma update_lines_without_drawdowns (used : list (string * config)) :
  dict_args used →
  Forall (λ kv, cfg_name kv.2 ∉ ["max-drawdown"; "drawdown"]) used →
  update_lines used = Ret [].
Proof.
  intros Hargs Hnames. induction used as [|[k c] used IH]; [reflexivity|].
  apply Forall_cons in Hargs as [Hdict Hargs]. apply Forall_cons in Hnames as [Hname Hnames].
  cbn [update_lines]. rewrite (IH Hargs Hnames). cbn [snd] in *.
  destruct (Py.mem (cfg_name c) CUSTOM_INDICATORS) eqn:Hcustom; [|reflexivity].
  destruct (custom_names _ Hcustom) as [Hn|[Hn|Hn]].
  - exfalso. apply Hname. rewrite Hn. apply list_elem_of_here.
  - exfalso. apply Hname. rewrite Hn. apply list_elem_of_further, list_elem_of_here.
  - rewrite Hn. destruct (cfg_args c); try discriminate Hdict. reflexivity.
Qed.

(** X12. When custom methods are needed and no entry is a max-drawdown
    or drawdown indicator, [generate_update_code] gives the six lines of
    the loop header and no update call: a moving-average-return entry,
    whose cleaned name is [moving_average_return], gets none. *)
Theorem moving_average_return_is_never_updated (self : t) :
  custom_methods_needed self ≠ ∅ →
  dict_args (indicators_used self) →
  Forall (λ kv, cfg_name kv.2 ∉ ["max-drawdown"; "drawdown"]) (indicators_used self) →
  generate_update_code self = Ret (Some (Py.join nl update_header +:+ nl +:+ nl)).
Proof.
  intros Hcustom Hargs Hnames. unfold generate_update_code.
  rewrite bool_decide_eq_false_2 by exact Hcustom.
  rewrite (update_lines_without_drawdowns _ Hargs Hnames). cbn [mbind result_bind].
  by rewrite app_nil_r.
Qed.

(** X13. For a max-drawdown or drawdown entry the update line calls
    [update] on [self.<symbol>_<name>_<period>] when [args] has a truthy
    period, which is the variable the initialization assigns, and on
    [self.<symbol>_<name>], a different variable, when the period is
    missing or falsy. *)
Theorem drawdown_update_target (name key sym : string) (a : dict) :
  name ∈ ["max-drawdown"; "drawdown"] →
  let c := Config name sym (VDict a) in
  let base := "self." +:+ clean sym +:+ "_" +:+ clean name in
  let declared := base +:+ "_" +:+ Py.str (Py.get_or a "period" (VInt 252)) in
  let updated :=
    base +:+ (if Py.truthy (Py.get_or a "period" (VStr ""))
              then "_" +:+ Py.str (Py.get_or a "period" (VStr "")) else "") in
  (∃ rhs, _generate_indicator_initialization key c = Ret (Some (declared +:+ " = " +:+ rhs)))
  ∧ update_lines [(key, c)]
    = Ret ["                if symbol.value == '" +:+ sym +:+ "':";
           "                    " +:+ updated +:+ ".update(price)"]
  ∧ (Py.truthy (Py.get a "period") = true → updated = declared)
  ∧ (Py.truthy (Py.get a "period") = false → updated ≠ declared).
Proof.
  intros Hin c base declared updated. subst c base declared updated.
  split; [|split; [|split]].
  - unfold _generate_indicator_initialization.
    cbn [cfg_name cfg_symbol cfg_args args_get mbind result_bind].
    repeat (apply elem_of_cons in Hin as [->|Hin]); try (by apply elem_of_nil in Hin);
      eval_name_tests; eexists; rewrite !append_assoc; reflexivity.
  - cbn [update_lines cfg_name cfg_symbol cfg_args args_get mbind result_bind].
    repeat (apply elem_of_cons in Hin as [->|Hin]); try (by apply elem_of_nil in Hin);
      eval_name_tests; cbn [mbind result_bind app];
      rewrite !append_assoc; reflexivity.
  - unfold Py.get_or, Py.get. destruct (Py.lookup "period" a) as [p|]; cbn [default].
    + by intros ->.
    + discriminate.
  - unfold Py.get_or, Py.get. rewrite !append_assoc.
    destruct (Py.lookup "period" a) as [p|]; cbn [default]; intros Hfalsy Heq.
    + rewrite Hfalsy in Heq. do 4 apply append_inv_head in Heq. discriminate Heq.
    + cbn in Heq. do 4 apply append_inv_head in Heq. discriminate Heq.
Qed.

Lemma elements_in_custom (self : t) (sub : string) :
  (∀ method, method ∈ custom_methods_needed self → method ∈ CUSTOM_INDICATORS) →
  (∀ method, method ∈ CUSTOM_INDICATORS → Py.contains sub method = false) →
  any_method_contains sub self = false.
Proof.
  intros Hcustom Hsub. apply existsb_none, Forall_forall.
  intros method Hin%elem_of_elements. auto.
Qed.

(** X14. With the custom methods among the custom indicators,
    [_get_required_imports] gives the one import line when the classes
    are embedded, never lists [MaxDrawdownIndicator] or
    [MovingAvgReturnIndicator], and leaves the import list open (no
    closing parenthesis) when moving-average-return is the only custom
    method. *)
Theorem required_imports_of_custom_methods (embed : bool) (self : t) :
  (∀ method, method ∈ custom_methods_needed self → method ∈ CUSTOM_INDICATORS) →
  _get_required_imports true self = ["from AlgorithmImports import *"]
  ∧ ("    MaxDrawdownIndicator," ∉ _get_required_imports embed self)
  ∧ ("    MovingAvgReturnIndicator," ∉ _get_required_imports embed self)
  ∧ (custom_methods_needed self = {[ "moving-average-return" ]} →
     _get_required_imports false self
     = ["from AlgorithmImports import *"; "from indicators import ("]).
Proof.
  intros Hcustom.
  assert (Hmax : any_method_contains "max_drawdown" self = false).
  { apply elements_in_custom; [exact Hcustom|]. intros method Hin.
    repeat (apply elem_of_cons in Hin as [->|Hin]); try (by apply elem_of_nil in Hin);
      reflexivity. }
  assert (Hmar : any_method_contains "moving_avg_return" self = false).
  { apply elements_in_custom; [exact Hcustom|]. intros method Hin.
    repeat (apply elem_of_cons in Hin as [->|Hin]); try (by apply elem_of_nil in Hin);
      reflexivity. }
  assert (Hnever : ∀ line, line ∈ _get_required_imports embed self →
                     line ∈ ["from AlgorithmImports import *"; "from indicators import (";
                             "    DrawdownIndicator,"; ")"]).
  { intros line. unfold _get_required_imports. rewrite Hmax, Hmar.
    destruct (negb _ && negb embed); cbn [app];
      [destruct (any_method_contains "drawdown" self); cbn [app]|];
      intros Hin; repeat (apply elem_of_cons in Hin as [->|Hin]);
      try (by apply elem_of_nil in Hin);
      repeat first [apply list_elem_of_here | apply list_elem_of_further]. }
  split; [|split; [|split]].
  - unfold _get_required_imports. by rewrite andb_false_r.
  - intros Hin%Hnever.
    repeat (apply elem_of_cons in Hin as [Hin|Hin]; [discriminate Hin|]).
    by apply elem_of_nil in Hin.
  - intros Hin%Hnever.
    repeat (apply elem_of_cons in Hin as [Hin|Hin]; [discriminate Hin|]).
    by apply elem_of_nil in Hin.
  - intros Honly. unfold _get_required_imports. rewrite Hmax, Hmar.
    unfold any_method_contains. rewrite Honly, elements_singleton.
    rewrite bool_decide_eq_false_2; [reflexivity|].
    intros Hempty. assert (Hin : "moving-average-return" ∈ (∅ : gset string)).
    { rewrite <- Hempty. by apply elem_of_singleton. }
    by apply not_elem_of_empty in Hin.
Qed.

Lemma implemented_names (name : string) :
  Py.mem name IMPLEMENTED_INDICATORS = true → name ∈ IMPLEMENTED_INDICATORS.
Proof. apply bool_decide_eq_true. Qed.

(** What [_generate_indicator_initialization] gives for an implemented
    indicator with a dict of arguments. *)
Lemma initialization_of_implemented (key name sym : string) (a : dict) :
  name ∈ IMPLEMENTED_INDICATORS →
  ∃ rest,
    _generate_indicator_initialization key (Config name sym (VDict a))
    = Ret (if time_based name then None else Some ("self." +:+ rest)).
Proof.
  intros Hin. unfold _generate_indicator_initialization, time_based.
  cbn [cfg_name cfg_symbol cfg_args args_get mbind result_bind].
  repeat (apply elem_of_cons in Hin as [->|Hin]); try (by apply elem_of_nil in Hin);
    eval_name_tests; first [by exists "" | eexists; reflexivity].
Qed.

(** X15. With implemented names and dicts of arguments,
    [generate_initialization_code]'s loop returns one line for each entry
    that is not a time-based indicator, and none for the others. *)
Theorem initialization_declares_each_indicator_once (used : list (string * config)) :
  Forall (λ kv, Py.mem (cfg_name kv.2) IMPLEMENTED_INDICATORS = true) used →
  dict_args used →
  ∃ lines,
    initialization_lines used = Ret lines
    ∧ length lines = length (filter (λ kv, time_based (cfg_name kv.2) = false) used).
Proof.
  intros Hnames Hargs. induction used as [|[k [name sym args]] used IH].
  { exists []. done. }
  apply Forall_cons in Hnames as [Hname%implemented_names Hnames].
  apply Forall_cons in Hargs as [Hdict Hargs].
  destruct (IH Hnames Hargs) as (lines & Hlines & Hlen).
  cbn [snd cfg_name cfg_args] in *. destruct args as [| | | | | |a]; try discriminate Hdict.
  destruct (initialization_of_implemented k name sym a Hname) as [rest Hline].
  cbn [initialization_lines]. rewrite Hline, Hlines. cbn [mbind result_bind].
  destruct (time_based name) eqn:Htime.
  - exists lines. split; [reflexivity|].
    rewrite filter_cons_False; [exact Hlen|]. cbn [snd cfg_name]. by rewrite Htime.
  - change (Py.nonempty ("self." +:+ rest)) with true. cbn iota.
    eexists. split; [reflexivity|].
    rewrite filter_cons_True by exact Htime. cbn [length]. by rewrite Hlen.
Qed.

End registry_code.

Lemma periods_give_distinct_keys_witness :
  ∃ key key',
    @IndicatorGenerator._create_indicator_key example_float_text "rsi" (VStr "spy")
      (VDict [("period", VInt 14)]) = Ret key
    ∧ @IndicatorGenerator._create_indicator_key example_float_text "rsi" (VStr "spy")
        (VDict [("period", VInt 21)]) = Ret key'
    ∧ key ≠ key'.
Proof.
  apply (@periods_give_distinct_keys example_float_text "rsi" (VStr "spy")
           [("period", VInt 14)] [("period", VInt 21)] 14 21).
  - right. by exists "spy".
  - reflexivity.
  - reflexivity.
  - intros k Hk. repeat (apply elem_of_cons in Hk as [->|Hk]); [done..|].
    by apply elem_of_nil in Hk.
  - lia.
Defined.

Lemma declared_and_accessed_variables_witness :
  (∃ rhs,
     @IndicatorGenerator._generate_indicator_initialization example_float_text
       "rsi_SPY" (IndicatorGenerator.Config "rsi" "SPY" (VDict []))
     = Ret (Some ("self.spy_rsi_14" +:+ " = " +:+ rhs)))
  ∧ @IndicatorGenerator.access_expression example_float_text
      [("name", VStr "rsi"); ("symbol", VStr "spy")]
    = Ret "(self.spy_rsi.current.value)"
  ∧ "self.spy_rsi" ≠ "self.spy_rsi_14".
Proof.
  destruct (@declared_and_accessed_variables example_float_text "rsi" "_rsi_" 14
              [("name", VStr "rsi"); ("symbol", VStr "spy")] [] "spy" "rsi_SPY")
    as (_ & Hdeclared & Haccessed & Hcompare).
  - repeat first [apply list_elem_of_here | apply list_elem_of_further].
  - reflexivity.
  - reflexivity.
  - reflexivity.
  - split; [exact Hdeclared|]. split; [exact Haccessed|].
    apply (Hcompare eq_refl); reflexivity.
Defined.

Lemma moving_average_return_is_never_updated_witness :
  @IndicatorGenerator.generate_update_code example_float_text
    (IndicatorGenerator.Registry
       [("moving-average-return_SPY_20",
         IndicatorGenerator.Config "moving-average-return" "SPY"
           (VDict [("period", VInt 20)]))]
       {[ "moving-average-return" ]})
  = Ret (Some (Py.join IndicatorGenerator.nl IndicatorGenerator.update_header
               +:+ IndicatorGenerator.nl +:+ IndicatorGenerator.nl)).
Proof.
  apply (@moving_average_return_is_never_updated example_float_text).
  - cbn [IndicatorGenerator.custom_methods_needed]. intros Hempty.
    assert (Hin : "moving-average-return" ∈ (∅ : gset string)).
    { rewrite <- Hempty. by apply elem_of_singleton. }
    by apply not_elem_of_empty in Hin.
  - apply Forall_singleton. reflexivity.
  - apply Forall_singleton. intros Hin.
    repeat (apply elem_of_cons in Hin as [Hin|Hin]; [discriminate Hin|]).
    by apply elem_of_nil in Hin.
Defined.

Lemma drawdown_update_target_witness :
  @IndicatorGenerator.update_lines example_float_text
    [("max-drawdown_SPY",
      IndicatorGenerator.Config "max-drawdown" "SPY" (VDict []))]
  = Ret ["                if symbol.value == 'SPY':";
         "                    self.spy_max_drawdown.update(price)"]
  ∧ ∃ rhs,
      @IndicatorGenerator._generate_indicator_initialization example_float_text
        "max-drawdown_SPY" (IndicatorGenerator.Config "max-drawdown" "SPY" (VDict []))
      = Ret (Some ("self.spy_max_drawdown_252" +:+ " = " +:+ rhs)).
Proof.
  destruct (@drawdown_update_target example_float_text "max-drawdown"
              "max-drawdown_SPY" "SPY" [])
    as (Hdeclared & Hupdated & _).
  - apply list_elem_of_here.
  - split; [exact Hupdated | exact Hdeclared].
Defined.

Lemma required_imports_of_custom_methods_witness :
  IndicatorGenerator._get_required_imports false
    (IndicatorGenerator.Registry [] {[ "moving-average-return" ]})
  = ["from AlgorithmImports import *"; "from indicators import ("].
Proof.
  apply (required_imports_of_custom_methods false).
  - cbn [IndicatorGenerator.custom_methods_needed].
    intros method ->%elem_of_singleton.
    repeat first [apply list_elem_of_here | apply list_elem_of_further].
  - reflexivity.
Defined.

Lemma initialization_declares_each_indicator_once_witness :
  ∃ lines,
    @IndicatorGenerator.initialization_lines example_float_text
      [("month", IndicatorGenerator.Config "month" "SPY" (VDict []));
       ("rsi_SPY_14", IndicatorGenerator.Config "rsi" "SPY" (VDict [("period", VInt 14)]))]
    = Ret lines
    ∧ length lines = 1%nat.
Proof.
  apply (@initialization_declares_each_indicator_once example_float_text
           [("month", IndicatorGenerator.Config "month" "SPY" (VDict []));
            ("rsi_SPY_14",
             IndicatorGenerator.Config "rsi" "SPY" (VDict [("period", VInt 14)]))]).
  - repeat apply Forall_cons_2; try apply Forall_nil_2; reflexivity.
  - repeat apply Forall_cons_2; try apply Forall_nil_2; reflexivity.
Defined.

(** ** The traversal: coverage *)

Section traversal_coverage.
Context `{FloatText}.
Import LogicValidator.

Lemma child_dispatched (parent : dict) (node : value) :
  child_of parent node →
  node ∈ dispatched (VDict parent)
  ∧ ∀ x, x ∈ dispatched node → x ∈ dispatched (VDict parent).
Proof.
  intros [items c Hchildren Hin|c Hchildren]; rewrite (dispatched_unfold parent), Hchildren.
  - split.
    + apply list_elem_of_In, in_flat_map. exists (VDict c).
      split; [by apply list_elem_of_In|]. apply in_eq.
    + intros x Hx. apply list_elem_of_In, in_flat_map. exists (VDict c).
      split; [by apply list_elem_of_In|]. apply in_cons. by apply list_elem_of_In.
  - split; [apply list_elem_of_here|]. intros x Hx. by apply list_elem_of_further.
Qed.

Lemma descendant_dispatched (root : dict) (node : value) :
  descendant root node →
  node ∈ dispatched (VDict root)
  ∧ ∀ x, x ∈ dispatched node → x ∈ dispatched (VDict root).
Proof.
  induction 1 as [node Hchild|m node _ [_ IH] Hchild].
  - by apply child_dispatched.
  - destruct (child_dispatched m node Hchild) as [Hnode Hbelow]. split; auto.
Qed.

Lemma silent_run_passes (allowed_symbols : list string) (nodes : list value) :
  check_all allowed_symbols nodes = done → Forall (passes allowed_symbols) nodes.
Proof.
  intros Hdone.
  destruct (check_all_cases allowed_symbols nodes)
    as [[Hall _]|(before & node & after & _ & _ & Hstop & Hrun)]; [exact Hall|].
  rewrite Hdone in Hrun. rewrite <- Hrun in Hstop. by destruct Hstop.
Qed.

Lemma check_all_app (allowed_symbols : list string) (xs ys : list value) :
  check_all allowed_symbols (xs ++ ys)
  = seq (check_all allowed_symbols xs) (check_all allowed_symbols ys).
Proof. apply for_each_app. Qed.

(** X16. The run of [validate_logic] on a dict root is a sequence of
    node checks, each run only when the checks before it passed, and the
    check of every node below the root is one of them.  So when
    [validate_logic] returns without printing, every node below the root
    passed its check; and a node below the root that does not pass makes
    [validate_logic] stop, at that node or before it. *)
Theorem traversal_checks_every_descendant (root : dict) (node : value)
    (allowed_symbols : list string) :
  descendant root node →
  (∃ before after,
     dispatched (VDict root) = before ++ node :: after
     ∧ validate_logic (VDict root) allowed_symbols
       = seq (check_all allowed_symbols before)
           (seq (check_node_type_and_validate node allowed_symbols)
                (check_all allowed_symbols after)))
  ∧ (validate_logic (VDict root) allowed_symbols = done → passes allowed_symbols node)
  ∧ (¬ passes allowed_symbols node →
     stopped (validate_logic (VDict root) allowed_symbols) ≠ None).
Proof.
  intros [Hnode _]%descendant_dispatched.
  assert (Hpasses : validate_logic (VDict root) allowed_symbols = done →
                    passes allowed_symbols node).
  { unfold validate_logic. rewrite trace_dispatched. intros Hall%silent_run_passes.
    rewrite Forall_forall in Hall. by apply Hall. }
  split; [|split; [exact Hpasses|]].
  - destruct (list_elem_of_split _ _ Hnode) as (before & after & Hsplit).
    exists before, after. split; [exact Hsplit|].
    unfold validate_logic. rewrite trace_dispatched, Hsplit, check_all_app.
    reflexivity.
  - intros Hfails Hreturned. apply Hfails, Hpasses.
    unfold validate_logic in *. rewrite trace_dispatched in *.
    destruct (check_all_cases allowed_symbols (dispatched (VDict root)))
      as [[_ Hdone]|(before & bad & after & _ & _ & Hstop & Hrun)]; [exact Hdone|].
    rewrite Hrun in Hreturned. contradiction.
Qed.

(** X17. A logic that is not a dict is never reported as invalid: the run
    prints nothing and ends in an exception that nothing catches. *)
Theorem non_dict_logic_raises (logic : value) (allowed_symbols : list string) :
  Py.is_dict logic = false →
  ∃ e, validate_logic logic allowed_symbols = Run [] (Some (Uncaught e)).
Proof.
  intros Hlogic. unfold validate_logic.
  destruct logic as [| | | |s|l|d]; try discriminate Hlogic; cbn; eauto.
  - destruct (Py.contains "children" s); eauto.
  - destruct (existsb _ l); eauto.
Qed.

(** X18. A node whose type has no validator is reported as of unknown
    type, and the run stops there; [exit] and [expression], which
    [validate_group_node] accepts as types of a child, are such types, so
    a tree with such a node below its root never validates. *)
Theorem exit_and_expression_nodes_never_validate (root nd : dict) (t : string)
    (allowed_symbols : list string) :
  Py.get nd "type" = VStr t →
  t ∉ DISPATCHED_TYPES →
  check_node_type_and_validate (VDict nd) allowed_symbols
  = Run ["Error: Unknown node type: " +:+ t] (Some Exit)
  ∧ (descendant root (VDict nd) →
     stopped (validate_logic (VDict root) allowed_symbols) ≠ None)
  ∧ (t ∈ ["exit"; "expression"] → Py.mem t _SCHEMA_NODE_TYPES = true).
Proof.
  intros Htype Hunknown.
  assert (Hcheck : check_node_type_and_validate (VDict nd) allowed_symbols
                   = Run ["Error: Unknown node type: " +:+ t] (Some Exit)).
  { unfold check_node_type_and_validate. rewrite Htype. cbn [Py.eq_str].
    repeat match goal with
           | |- context [String.eqb t ?s] =>
               destruct (String.eqb_spec t s) as [->|_];
               [exfalso; apply Hunknown;
                repeat first [apply list_elem_of_here | apply list_elem_of_further]|]
           end.
    reflexivity. }
  split; [exact Hcheck|]. split.
  - intros [Hnode _]%descendant_dispatched. unfold validate_logic. rewrite trace_dispatched.
    destruct (check_all_cases allowed_symbols (dispatched (VDict root)))
      as [[Hall _]|(before & node & after & _ & _ & Hstop & ->)]; [|exact Hstop].
    rewrite Forall_forall in Hall. apply Hall in Hnode. unfold passes in Hnode.
    rewrite Hcheck in Hnode. discriminate Hnode.
  - intros Hin. repeat (apply elem_of_cons in Hin as [->|Hin]); [done..|].
    by apply elem_of_nil in Hin.
Qed.

End traversal_coverage.

Lemma traversal_checks_every_descendant_witness :
  let root := [("type", VStr "group");
               ("children", VList [VDict [("type", VStr "group");
                                          ("children", VList [valid_weight_node])]])] in
  @passes example_float_text ["SPY"] valid_weight_node.
Proof.
  intros root.
  apply (@traversal_checks_every_descendant example_float_text root valid_weight_node
           ["SPY"]).
  - eapply descendant_deeper.
    + apply descendant_child. eapply child_in_list; [reflexivity|].
      apply list_elem_of_here.
    + eapply child_in_list; [reflexivity|]. apply list_elem_of_here.
  - vm_compute. reflexivity.
Defined.

Lemma non_dict_logic_raises_witness :
  ∃ e, @LogicValidator.validate_logic example_float_text
         (VList [VDict [("type", VStr "weight")]]) ["SPY"]
       = LogicValidator.Run [] (Some (LogicValidator.Uncaught e)).
Proof. apply (@non_dict_logic_raises example_float_text). reflexivity. Defined.

Lemma exit_and_expression_nodes_never_validate_witness :
  let leaf := [("type", VStr "exit")] in
  let root := [("type", VStr "group"); ("children", VList [VDict leaf])] in
  @LogicValidator.check_node_type_and_validate example_float_text (VDict leaf) ["SPY"]
  = LogicValidator.Run ["Error: Unknown node type: exit"] (Some LogicValidator.Exit)
  ∧ LogicValidator.stopped
      (@LogicValidator.validate_logic example_float_text (VDict root) ["SPY"]) ≠ None.
Proof.
  intros leaf root.
  destruct (@exit_and_expression_nodes_never_validate example_float_text root leaf
              "exit" ["SPY"]) as (Hcheck & Hrun & _).
  - reflexivity.
  - intros Hin. repeat (apply elem_of_cons in Hin as [Hin|Hin]; [discriminate Hin|]).
    by apply elem_of_nil in Hin.
  - split; [exact Hcheck|]. apply Hrun.
    apply descendant_child. eapply child_in_list; [reflexivity|]. apply list_elem_of_here.
Defined.

(** ** The node validators: verdicts *)

Lemma finish_consistent (es : list string) (ok : bool) (errors : list string) :
  LogicValidator.finish es = Ret (ok, errors) → (ok = true ↔ errors = []).
Proof.
  unfold LogicValidator.finish. intros [= <- <-]. apply bool_decide_eq_true.
Qed.

Lemma finish_valid (es : list string) :
  LogicValidator.finish es = Ret (true, []) ↔ es = [].
Proof.
  unfold LogicValidator.finish. split.
  - by intros [= _ ->].
  - intros ->. reflexivity.
Qed.

Lemma err_if_nil (b : bool) (msg : string) : LogicValidator.err_if b msg = [] ↔ b = false.
Proof. destruct b; simpl; split; done. Qed.

(** Follows an outcome [Ret] through the binds of a validator. *)
Ltac through_binds Hret :=
  repeat match type of Hret with
         | context [mbind _ ?m] =>
             let Hm := fresh "Hstep" in
             destruct m as [?|?] eqn:Hm; cbn [mbind result_bind] in Hret;
             [|discriminate Hret]
         | (let '(_, _) := ?p in _) = _ => destruct p
         end.

Section verdicts.
Context `{FloatText}.
Import LogicValidator.

Lemma single_error_consistent (msg : string) (ok : bool) (errors : list string) :
  Ret (false, [msg]) = (Ret (ok, errors) : result verdict) → (ok = true ↔ errors = []).
Proof. intros [= <- <-]. done. Qed.

(** X19. Every node validator that returns gives a verdict whose flag is
    [True] exactly when its error list is empty; so the run that follows
    prints every error of the list, and stops exactly when there is
    one. *)
Theorem verdicts_are_consistent (node : value) (allowed_symbols : list string)
    (o : condition_options) (require_children require_description : bool)
    (allowed_metrics tickers : option (list string)) (require_universe_nonempty : bool)
    (ok : bool) (errors : list string) :
  validate_order_node node allowed_symbols = Ret (ok, errors)
  ∨ validate_group_node node require_children require_description = Ret (ok, errors)
  ∨ validate_weight_node node allowed_symbols = Ret (ok, errors)
  ∨ validate_condition_node o node = Ret (ok, errors)
  ∨ validate_filter_node node allowed_metrics tickers require_universe_nonempty
    = Ret (ok, errors) →
  (ok = true ↔ errors = [])
  ∧ printed (handle (Ret (ok, errors))) = (λ error, "Error: " +:+ error) <$> errors
  ∧ (stopped (handle (Ret (ok, errors))) = Some Exit ↔ errors ≠ []).
Proof.
  intros Hverdict.
  assert (Hok : ok = true ↔ errors = []).
  { destruct Hverdict as [Hret|[Hret|[Hret|[Hret|Hret]]]].
    - unfold validate_order_node in Hret. destruct node; try by apply single_error_consistent in Hret.
      cbv zeta in Hret. destruct (negb _); [by apply single_error_consistent in Hret|].
      through_binds Hret. by apply finish_consistent in Hret.
    - unfold validate_group_node in Hret. destruct node; try by apply single_error_consistent in Hret.
      cbv zeta in Hret. through_binds Hret. by apply finish_consistent in Hret.
    - unfold validate_weight_node in Hret. destruct node; try discriminate Hret.
      by apply finish_consistent in Hret.
    - unfold validate_condition_node in Hret. destruct node; try by apply single_error_consistent in Hret.
      cbv zeta in Hret. through_binds Hret. by apply finish_consistent in Hret.
    - unfold validate_filter_node in Hret. destruct node; try discriminate Hret.
      cbv zeta in Hret. through_binds Hret. by apply finish_consistent in Hret. }
  split; [exact Hok|]. unfold handle, handle_validation_errors.
  destruct ok.
  - assert (errors = []) as -> by (by apply Hok). split; [reflexivity|]. split; done.
  - split; [reflexivity|]. split; [|done]. intros _ Hnil. apply Hok in Hnil. discriminate Hnil.
Qed.

(** X20. A weight node is valid exactly when its type is [weight] and its
    allocation method is one of the two allocation methods: nothing else
    of the node, and nothing of the allowed symbols, is looked at. *)
Theorem weight_node_validity (nd : dict) (allowed_symbols : list string) :
  validate_weight_node (VDict nd) allowed_symbols = Ret (true, [])
  ↔ Py.get nd "type" = VStr "weight"
    ∧ ∃ method, Py.get nd "allocation_method" = VStr method ∧ method ∈ ALLOCATION_METHODS.
Proof.
  unfold validate_weight_node. cbv zeta. rewrite finish_valid, app_nil, err_if_nil.
  rewrite negb_false_iff. split.
  - intros [Htype Hmethod]. split.
    + destruct (Py.get nd "type"); try discriminate Htype.
      by apply String.eqb_eq in Htype as ->.
    + destruct (Py.get nd "allocation_method") as [| | | |method| |];
        try discriminate Hmethod;
        apply err_if_nil, negb_false_iff in Hmethod; try discriminate Hmethod.
      exists method. split; [reflexivity|]. by apply bool_decide_eq_true in Hmethod.
  - intros [-> (method & -> & Hmethod)]. split; [reflexivity|].
    cbn [Py.is_none]. apply err_if_nil, negb_false_iff. by apply bool_decide_eq_true.
Qed.

Lemma group_children_valid (node_id : value) (idx : nat) (children : list value) :
  group_children_loop node_id idx children = Ret [] ↔ Forall schema_child children.
Proof.
  revert idx. induction children as [|child rest IH]; intros idx.
  { split; [constructor|reflexivity]. }
  rewrite Forall_cons. cbn [group_children_loop]. split.
  - destruct child as [| | | | | |cd]; try discriminate.
    intros Hret. through_binds Hret. injection Hret as Hnil.
    apply app_nil in Hnil as [_ [Hallowed ->]%app_nil].
    apply err_if_nil, negb_false_iff in Hallowed. subst.
    split; [|by eapply IH].
    destruct (Py.get cd "type") as [| | | |t| |] eqn:Htype; try discriminate Hstep.
    exists cd, t. split; [reflexivity|]. split; [exact Htype|].
    injection Hstep as Hmem. by apply bool_decide_eq_true in Hmem.
  - intros [(cd & t & -> & Htype & Hin) Hrest]. rewrite Htype.
    cbn [Py.in_str_set Py.is_str mbind result_bind]. unfold Py.mem.
    rewrite (bool_decide_eq_true_2 _ Hin).
    apply (IH (S idx)) in Hrest. rewrite Hrest. reflexivity.
Qed.

(** X21. As the traversal calls it (children required, description
    optional), [validate_group_node] finds a group valid exactly when its
    type is [group], its id and description are strings when given, and
    its children are a non-empty list of dicts whose types are strings of
    the schema. *)
Theorem group_node_validity (nd : dict) :
  validate_group_node (VDict nd) true false = Ret (true, [])
  ↔ Py.get nd "type" = VStr "group"
    ∧ optional_str (Py.get nd "id")
    ∧ optional_str (Py.get nd "description")
    ∧ ∃ children,
        Py.lookup "children" nd = Some (VList children)
        ∧ children ≠ []
        ∧ Forall schema_child children.
Proof.
  unfold validate_group_node, optional_str, Py.get_or. cbv zeta. split.
  - intros Hret. through_binds Hret. apply finish_valid in Hret.
    match goal with
    | Hs : (py_len _ ≫= _) = Ret ?x |- _ => rename x into e_empty, Hs into Hlen
    end.
    match goal with
    | Hs : py_iter _ = Ret ?x |- _ => rename x into items, Hs into Hitems
    end.
    match goal with
    | Hs : group_children_loop _ _ _ = Ret ?x |- _ =>
        rename x into e_children, Hs into Hloop
    end.
    apply app_nil in Hret as [Htype%err_if_nil%negb_false_iff Hret].
    apply app_nil in Hret as [Hid%err_if_nil Hret].
    apply app_nil in Hret as [Hdesc%err_if_nil Hret].
    apply app_nil in Hret as [Harray%err_if_nil Hret].
    apply app_nil in Hret as [-> Hret].
    apply app_nil in Hret as [_ ->].
    split.
    { destruct (Py.get nd "type"); try discriminate Htype.
      by apply String.eqb_eq in Htype as ->. }
    split; [by destruct (Py.get nd "id")|].
    split; [by destruct (Py.get nd "description")|].
    destruct (Py.lookup "children" nd) as [[| | | | |children|]|];
      try discriminate Harray; try discriminate Hlen.
    exists children. cbn in Hlen, Hitems. injection Hitems as <-.
    injection Hlen as Hlen%err_if_nil%bool_decide_eq_false.
    split; [reflexivity|]. split.
    + by intros ->.
    + by eapply group_children_valid.
  - intros (-> & Hid & Hdesc & children & -> & Hnonempty & Hchildren).
    cbn. apply (group_children_valid (Py.get nd "id") 0) in Hchildren. rewrite Hchildren.
    cbn. apply finish_valid.
    rewrite (bool_decide_eq_false_2 (length children = 0%nat))
      by (by destruct children).
    destruct (Py.get nd "id"); try discriminate Hid;
      destruct (Py.get nd "description"); try discriminate Hdesc; reflexivity.
Qed.

End verdicts.

(** ** Filter nodes *)

Lemma universe_loop_spec (seen : gset string) (raw : list string) :
  NoDup (LogicValidator.universe_loop seen raw)
  ∧ ∀ sym, sym ∈ LogicValidator.universe_loop seen raw
           ↔ (sym ∉ seen) ∧ Py.nonempty sym = true
             ∧ ∃ s, s ∈ raw ∧ sym = Py.upper (Py.strip s).
Proof.
  revert seen. induction raw as [|s rest IH]; intros seen.
  { split; [apply NoDup_nil_2|]. intros sym. split; [by intros ?%elem_of_nil|].
    by intros (_ & _ & s & ?%elem_of_nil & _). }
  cbn [LogicValidator.universe_loop].
  destruct (Py.nonempty (Py.upper (Py.strip s))) eqn:Hnonempty; cbn [andb];
    [case_bool_decide as Hseen|].
  - destruct (IH ({[ Py.upper (Py.strip s) ]} ∪ seen)) as [Hnodup Hspec]. split.
    + apply NoDup_cons. split; [|exact Hnodup].
      intros [Hin _]%Hspec. apply Hin, elem_of_union_l. by apply elem_of_singleton.
    + intros sym. rewrite elem_of_cons, Hspec. split.
      * intros [->|(Hnew & Hsym & s' & Hs' & ->)].
        -- split; [exact Hseen|]. split; [exact Hnonempty|]. exists s.
           split; [apply list_elem_of_here|reflexivity].
        -- split; [by intros ?; apply Hnew, elem_of_union_r|]. split; [exact Hsym|].
           exists s'. split; [by apply list_elem_of_further|reflexivity].
      * intros (Hnew & Hsym & s' & Hs' & ->).
        destruct (decide (Py.upper (Py.strip s') = Py.upper (Py.strip s))) as [Heq|Hne];
          [by left|right].
        split; [by intros [?%elem_of_singleton|?]%elem_of_union|]. split; [exact Hsym|].
        apply elem_of_cons in Hs' as [->|Hs']; [done|]. by exists s'.
  - destruct (IH seen) as [Hnodup Hspec]. split; [exact Hnodup|].
    intros sym. rewrite Hspec. split.
    + intros (Hnew & Hsym & s' & Hs' & ->). repeat split; try done.
      exists s'. split; [by apply list_elem_of_further|reflexivity].
    + intros (Hnew & Hsym & s' & Hs' & ->). repeat split; try done.
      apply elem_of_cons in Hs' as [->|Hs']; [|by exists s'].
      exfalso. by apply Hnew, dec_stable.
  - destruct (IH seen) as [Hnodup Hspec]. split; [exact Hnodup|].
    intros sym. rewrite Hspec. split.
    + intros (Hnew & Hsym & s' & Hs' & ->). repeat split; try done.
      exists s'. split; [by apply list_elem_of_further|reflexivity].
    + intros (Hnew & Hsym & s' & Hs' & ->). repeat split; try done.
      apply elem_of_cons in Hs' as [->|Hs']; [|by exists s'].
      rewrite Hnonempty in Hsym. discriminate Hsym.
Qed.

Lemma universe_loop_length (seen : gset string) (raw : list string) :
  (length (LogicValidator.universe_loop seen raw) ≤ length raw)%nat.
Proof.
  revert seen. induction raw as [|s rest IH]; intros seen; [done|].
  cbn [LogicValidator.universe_loop length].
  destruct (_ && _); cbn [length];
    [specialize (IH ({[Py.upper (Py.strip s)]} ∪ seen)) | specialize (IH seen)]; lia.
Qed.

(** X22. The universe a filter works on holds each symbol once: it is the
    non-empty upper-cased, stripped names of the raw universe, without
    repetition. *)
Theorem filter_universe_is_normalised (raw : list string) :
  let universe := LogicValidator.universe_loop ∅ raw in
  NoDup universe
  ∧ (length universe ≤ length raw)%nat
  ∧ ∀ sym, sym ∈ universe
           ↔ Py.nonempty sym = true ∧ ∃ s, s ∈ raw ∧ sym = Py.upper (Py.strip s).
Proof.
  intros universe. subst universe.
  destruct (universe_loop_spec ∅ raw) as [Hnodup Hspec]. split; [exact Hnodup|]. split.
  - apply universe_loop_length.
  - intros sym. rewrite Hspec. split; [by intros (_ & ? & ?)|].
    intros [? ?]. split; [apply not_elem_of_empty|done].
Qed.

Section filter_properties.
Context `{FloatText}.
Import LogicValidator.

Lemma all_str_strings (raw : list string) : Py.all_str (VStr <$> raw) = true.
Proof. induction raw as [|s raw IH]; [reflexivity|]. exact IH. Qed.

Lemma str_items_strings (raw : list string) : str_items (VStr <$> raw) = raw.
Proof.
  unfold str_items. induction raw as [|s raw IH]; [reflexivity|].
  rewrite fmap_cons. cbn [omap list_omap]. by rewrite IH.
Qed.

Lemma in_str_set_returns (v : value) (names : list string) :
  Py.is_list v || Py.is_dict v = false → ∃ b, Py.in_str_set v names = Ret b.
Proof. destruct v; try discriminate; intros _; eexists; reflexivity. Qed.

(** X23. On a filter whose fields have the expected types: a selection
    [n] above the size of the normalised universe, a universe symbol
    outside the allowed symbols, and a metric that carries a symbol each
    make the filter invalid, with the error of that rule. *)
Theorem filter_rules (nd : dict) (raw : list string)
    (allowed_metrics tickers : option (list string)) (require_universe_nonempty : bool) :
  filter_fields_typed nd raw →
  let universe := universe_loop ∅ raw in
  let verdict :=
    validate_filter_node (VDict nd) allowed_metrics tickers require_universe_nonempty in
  (∀ (sd : dict) (z : Z),
     Py.lookup "selection" nd = Some (VDict sd) → Py.get sd "n" = VInt z →
     universe ≠ [] → Z.of_nat (length universe) < z →
     ∃ errors,
       verdict = Ret (false, errors)
       ∧ filter_prefix (filter_id nd) +:+ "filter.selection.n (" +:+ Py.int_str z +:+
         ") cannot exceed universe size (" +:+
         Py.int_str (Z.of_nat (length universe)) +:+ ")" ∈ errors)
  ∧ (∀ (allowed : list string) (sym : string),
       tickers = Some allowed → sym ∈ universe →
       sym ∉ (Py.upper ∘ Py.strip) <$> allowed →
       ∃ errors invalid,
         verdict = Ret (false, errors)
         ∧ filter_prefix (filter_id nd) +:+
           "filter.universe contains symbols not allowed: " +:+ Py.join ", " invalid
           ∈ errors
         ∧ sym ∈ invalid)
  ∧ (∀ (md : dict) (s : string),
       Py.get nd "metric" = VDict md → Py.lookup "symbol" md = Some (VStr s) →
       Py.nonempty (Py.strip s) = true →
       ∃ errors,
         verdict = Ret (false, errors)
         ∧ filter_prefix (filter_id nd) +:+
           "filter.metric.symbol should not be provided for a filter; metric applies to each universe symbol"
           ∈ errors).
Proof.
  intros [Huniverse Hselect Hname] universe verdict. subst universe verdict.
  unfold validate_filter_node, filter_id. cbv zeta.
  rewrite (get_or_lookup _ _ _ _ Huniverse), all_str_strings, str_items_strings.
  destruct (in_str_set_returns _ ["top"; "bottom"; "middle"] Hselect) as [select_ok ->].
  cbn [mbind result_bind].
  match goal with
  | |- context [mbind _ ?m] =>
      assert (Hmetric : ∃ e_metric,
        m = Ret e_metric
        ∧ ∀ (md : dict) (s : string),
            Py.get nd "metric" = VDict md → Py.lookup "symbol" md = Some (VStr s) →
            Py.nonempty (Py.strip s) = true →
            filter_prefix (if Py.is_str (Py.get nd "id") then Py.get nd "id" else VNone)
            +:+ "filter.metric.symbol should not be provided for a filter; metric applies to each universe symbol"
            ∈ e_metric)
  end.
  { destruct (Py.get nd "metric") as [| | | | | |md] eqn:Hmd;
      try (eexists; split; [reflexivity|]; intros ? ? [=]).
    specialize (Hname md eq_refl).
    match goal with
    | |- context [mbind _ ?m] =>
        assert (∃ b, m = Ret b) as [needs_period ->]
    end.
    { apply in_str_set_returns.
      destruct (Py.get md "name") as [| | | |n| |]; try discriminate Hname; try reflexivity.
      by destruct (Py.nonempty (Py.strip n)). }
    cbn [mbind result_bind]. eexists. split; [reflexivity|].
    intros md' s [= <-] Hsym Hs. rewrite Hsym, Hs. in_errors. }
  destruct Hmetric as (e_metric & -> & Hsymbol). cbn [mbind result_bind].
  split; [|split].
  - intros sd z Hselection Hn Hnonempty Hsize. apply invalid_with.
    rewrite (get_or_lookup _ _ _ _ Hselection), Hn. cbn [Py.int_val Py.str Py.repr].
    assert (Hbig : (Z.of_nat (length (universe_loop ∅ raw)) <? z) = true)
      by (by apply Z.ltb_lt).
    assert (Hpos : (0 <? Z.of_nat (length (universe_loop ∅ raw))) = true).
    { apply Z.ltb_lt. destruct (universe_loop ∅ raw); [done|]. cbn [length]. lia. }
    rewrite Hbig, Hpos. cbn [andb]. in_errors.
  - intros allowed sym -> Hin Hout.
    set (invalid := List.filter _ (universe_loop ∅ raw)).
    assert (Hinvalid : sym ∈ invalid).
    { apply list_elem_of_In, List.filter_In. split; [by apply list_elem_of_In|].
      apply bool_decide_eq_true. by rewrite elem_of_list_to_set. }
    assert (Hne : invalid ≠ []).
    { intros Hnil. rewrite Hnil in Hinvalid. by apply elem_of_nil in Hinvalid. }
    rewrite (bool_decide_eq_true_2 _ Hne). cbn [err_if].
    eexists _, invalid. split; [|split; [|exact Hinvalid]].
    + eapply (finish_invalid
                (filter_prefix _ +:+ "filter.universe contains symbols not allowed: "
                 +:+ Py.join ", " invalid)).
      in_errors.
    + in_errors.
  - intros md s Hmd Hsym Hs. apply invalid_with. specialize (Hsymbol md s Hmd Hsym Hs).
    in_errors.
Qed.

End filter_properties.

(** ** Condition nodes: pairing, metrics, the content of the Else branch *)

Section condition_rules.
Context `{FloatText}.
Import LogicValidator.

(** Unfolds the validator on a dict whose operands are in range. *)
Ltac open_condition_node o nd Hrange :=
  unfold validate_condition_node; cbv zeta;
  let lhs_norm := fresh "lhs_norm" in
  let rhs_norm := fresh "rhs_norm" in
  let e_lhs := fresh "e_lhs" in
  let e_rhs := fresh "e_rhs" in
  destruct (operand_step o nd "lhs" (side_in_range nd "lhs" Hrange lhs_side))
    as (lhs_norm & e_lhs & Hlhs & Hlhs_metric & Hlhs_literal & Hlhs_type);
  destruct (operand_step o nd "rhs" (side_in_range nd "rhs" Hrange rhs_side))
    as (rhs_norm & e_rhs & Hrhs & Hrhs_metric & Hrhs_literal & Hrhs_type);
  rewrite Hlhs, Hrhs; cbn [mbind result_bind].

Lemma absent_key (nd : dict) (k : string) :
  Py.lookup k nd = None → Py.has_key k nd = false ∧ Py.get nd k = VNone.
Proof. intros Hk. unfold Py.has_key, Py.get. by rewrite Hk. Qed.

(** X24. The operands of a condition go in a pair: [lhs] without
    [operator], or [operator] without [lhs], makes the condition invalid;
    so does an operator outside the eight comparison operators; and a
    condition with neither [lhs], [operator] nor [rhs] is valid when
    nothing else of it is given and no Else branch is required. *)
Theorem condition_operand_pairing (o : condition_options) (nd : dict) :
  operands_in_range nd →
  (Py.has_key "lhs" nd ≠ Py.has_key "operator" nd →
   ∃ errors,
     validate_condition_node o (VDict nd) = Ret (false, errors)
     ∧ cond_prefix (Py.get nd "id")
       +:+ "All two of condition.lhs, and condition.operator are required" ∈ errors)
  ∧ (∀ op, Py.lookup "operator" nd = Some (VStr op) → op ∉ _CONDITION_OPS →
       ∃ errors,
         validate_condition_node o (VDict nd) = Ret (false, errors)
         ∧ "condition.operator must be one of " +:+ sorted_repr _CONDITION_OPS ∈ errors)
  ∧ (Py.get nd "type" = VStr "condition" →
     (∀ k, k ∈ ["lhs"; "operator"; "rhs"; "id"; "description"; "children"] →
           Py.lookup k nd = None) →
     else_required o = false →
     validate_condition_node o (VDict nd) = Ret (true, [])).
Proof.
  intros Hrange. split; [|split].
  - intros Hpair. open_condition_node o nd Hrange. apply invalid_with.
    assert (Hunpaired :
      negb (negb (Py.has_key "lhs" nd) && negb (Py.has_key "operator" nd)
            || Py.has_key "lhs" nd && Py.has_key "operator" nd) = true).
    { destruct (Py.has_key "lhs" nd), (Py.has_key "operator" nd); done. }
    in_errors.
  - intros op Hop Hunknown. destruct (present_operator nd op Hop) as [Hhas Hget].
    open_condition_node o nd Hrange. apply invalid_with.
    rewrite Hhas, Hget. rewrite !andb_false_r. cbn [negb andb].
    unfold Py.mem at 1. rewrite (bool_decide_eq_false_2 _ Hunknown). cbn [negb].
    in_errors.
  - intros Htype Habsent Helse.
    assert (Hkey : ∀ k, k ∈ ["lhs"; "operator"; "rhs"; "id"; "description"; "children"] →
                        Py.has_key k nd = false ∧ Py.get nd k = VNone).
    { intros k Hk. by apply absent_key, Habsent. }
    destruct (Hkey "lhs") as [Hlhs_key _];
      [repeat first [apply list_elem_of_here | apply list_elem_of_further]|].
    destruct (Hkey "operator") as [Hop_key Hop];
      [repeat first [apply list_elem_of_here | apply list_elem_of_further]|].
    destruct (Hkey "rhs") as [Hrhs_key _];
      [repeat first [apply list_elem_of_here | apply list_elem_of_further]|].
    destruct (Hkey "id") as [_ Hid];
      [repeat first [apply list_elem_of_here | apply list_elem_of_further]|].
    destruct (Hkey "description") as [_ Hdesc];
      [repeat first [apply list_elem_of_here | apply list_elem_of_further]|].
    assert (Hchildren : Py.lookup "children" nd = None).
    { apply Habsent. repeat first [apply list_elem_of_here | apply list_elem_of_further]. }
    unfold validate_condition_node, else_errors, Py.get_or. cbv zeta.
    rewrite Htype, Hlhs_key, Hop_key, Hrhs_key, Hid, Hdesc, Hchildren, Helse.
    cbn. by destruct (validate_else o).
Qed.

(** The errors of a metric operand are errors of the condition. *)
Lemma metric_errors_reported (o : condition_options) (nd md : dict) (side e : string) :
  operands_in_range nd → side ∈ ["lhs"; "rhs"] →
  Py.lookup side nd = Some (VDict md) → Py.has_key "name" md = true →
  e ∈ (_validate_metric o (Py.get nd "id") (VDict md) side).2 →
  ∃ errors, validate_condition_node o (VDict nd) = Ret (false, errors) ∧ e ∈ errors.
Proof.
  intros Hrange Hside Hmd Hname He.
  assert (Hparse :
    (if Py.has_key side nd
     then _parse_operand o (Py.get nd "id") (Py.get nd side) side
     else Ret (Invalid, []))
    = Ret (default Invalid (_validate_metric o (Py.get nd "id") (VDict md) side).1,
           (_validate_metric o (Py.get nd "id") (VDict md) side).2)).
  { assert (Py.has_key side nd = true) as -> by (unfold Py.has_key; by rewrite Hmd).
    assert (Py.get nd side = VDict md) as -> by (unfold Py.get; by rewrite Hmd).
    unfold _parse_operand. rewrite Hname.
    by destruct (_validate_metric o (Py.get nd "id") (VDict md) side). }
  open_condition_node o nd Hrange. apply invalid_with.
  apply elem_of_cons in Hside as [->|Hside].
  - rewrite Hparse in Hlhs. injection Hlhs as _ <-. in_errors.
  - apply list_elem_of_singleton in Hside as ->.
    rewrite Hparse in Hrhs. injection Hrhs as _ <-. in_errors.
Qed.

(** X25. The checks on a metric operand of a condition: a name outside
    the allowed metrics, a missing or blank symbol when symbols are
    required, a symbol outside the allowed symbols, and, for [rsi] and
    [moving-average-price], a period that is not a positive integer each
    make the condition invalid, with the error of that check for that
    side. *)
Theorem metric_operand_checks (o : condition_options) (nd md : dict)
    (side name : string) :
  operands_in_range nd → side ∈ ["lhs"; "rhs"] →
  Py.lookup side nd = Some (VDict md) →
  Py.lookup "name" md = Some (VStr name) →
  Py.nonempty (Py.strip name) = true →
  let reports (msg : string) : Prop :=
    ∃ errors,
      validate_condition_node o (VDict nd) = Ret (false, errors)
      ∧ cond_prefix (Py.get nd "id") +:+ side +:+ msg ∈ errors in
  (∀ x names,
     opt_allowed_metrics o = Some (x :: names) →
     Py.lower (Py.strip name) ∉ Py.lower <$> x :: names →
     reports (": metric.name '" +:+ name +:+ "' is not in allowed_metrics"))
  ∧ (require_symbol_for_metrics o = true →
     (∀ s, Py.get md "symbol" = VStr s → Py.nonempty (Py.strip s) = false) →
     reports ": metric.symbol is required and must be a non-empty string")
  ∧ (∀ x tickers s,
       opt_allowed_symbols o = Some (x :: tickers) →
       Py.get md "symbol" = VStr s → Py.nonempty (Py.strip s) = true →
       Py.upper (Py.strip s) ∉ Py.upper <$> x :: tickers →
       reports (": symbol '" +:+ Py.upper (Py.strip s) +:+ "' is not in allowed_symbols"))
  ∧ (Py.lower (Py.strip name) ∈ ["moving-average-price"; "rsi"] →
     bad_period (Py.get (metric_args md) "period") = true →
     reports (": metric '" +:+ name +:+ "' requires args.period as positive int")).
Proof.
  intros Hrange Hside Hmd Hname Hnonempty reports. subst reports.
  assert (Hhas : Py.has_key "name" md = true) by (unfold Py.has_key; by rewrite Hname).
  assert (Hreported := metric_errors_reported o nd md side).
  assert (Hget : Py.get md "name" = VStr name) by (unfold Py.get; by rewrite Hname).
  assert (Hargs :
    match match Py.get_or md "args" (VDict []) with
          | VNone => VDict []
          | a => a
          end with
    | VDict a => a
    | _ => []
    end = metric_args md).
  { unfold metric_args. by destruct (Py.get_or md "args" (VDict [])). }
  split; [|split; [|split]].
  - intros x names Hallowed Hout. apply Hreported; try done.
    unfold _validate_metric. rewrite Hget, Hnonempty, Hallowed. cbn [negb normalized_set snd].
    unfold Py.mem at 1. rewrite (bool_decide_eq_false_2 _ Hout). cbn [negb err_if].
    in_errors.
  - intros Hrequired Hsymbol. apply Hreported; try done.
    unfold _validate_metric. rewrite Hget, Hnonempty, Hrequired. cbn [negb snd andb].
    assert (Hbad : negb match Py.get md "symbol" with
                        | VStr s => Py.nonempty (Py.strip s)
                        | _ => false
                        end = true).
    { destruct (Py.get md "symbol") as [| | | |s| |] eqn:Hs; try reflexivity.
      by rewrite (Hsymbol s eq_refl). }
    rewrite Hbad. cbn [err_if]. in_errors.
  - intros x tickers s Hallowed Hs Hsym Hout. apply Hreported; try done.
    unfold _validate_metric. rewrite Hget, Hnonempty, Hallowed, Hs, Hsym.
    cbn [negb normalized_set snd].
    unfold Py.mem at 2. rewrite (bool_decide_eq_false_2 _ Hout). cbn [negb err_if].
    in_errors.
  - intros Hperiod Hbad. apply Hreported; try done.
    unfold _validate_metric. rewrite Hget, Hnonempty, Hargs, Hbad. cbn [negb snd].
    unfold Py.mem at 3. rewrite (bool_decide_eq_true_2 _ Hperiod). cbn [andb err_if].
    in_errors.
Qed.

Lemma else_idxs_none (L : string) (i : nat) (a : list value) :
  Forall (λ x, _is_else_group L x = false) a → else_idxs_from L i a = [].
Proof.
  intros Ha. revert i. induction Ha as [|x a Hx _ IH]; intros i; [reflexivity|].
  cbn [else_idxs_from]. rewrite Hx. apply IH.
Qed.

Lemma else_idxs_at (L : string) (a r : list value) (c : value) :
  Forall (λ x, _is_else_group L x = false) a → _is_else_group L c = true →
  else_idxs L (a ++ c :: r)
  = length a :: else_idxs_from L (S (length a)) r.
Proof.
  intros Ha Hc. unfold else_idxs.
  rewrite else_idxs_from_app, (else_idxs_none _ _ _ Ha). cbn [else_idxs_from app].
  by rewrite Hc.
Qed.

Lemma not_else_group (o : condition_options) (a : list value) :
  Forall (λ x, ¬ else_group o x) a →
  Forall (λ x, _is_else_group (Py.lower (Py.strip (else_label o))) x = false) a.
Proof.
  intros Ha. eapply Forall_impl; [exact Ha|]. intros x Hx. unfold else_group in Hx.
  by destruct (_is_else_group _ x).
Qed.

(** The Else rules are rules of the condition. *)
Lemma else_errors_reported (o : condition_options) (nd : dict) (e : string) :
  operands_in_range nd → validate_else o = true →
  e ∈ else_errors o (printed_id nd) nd →
  ∃ errors, validate_condition_node o (VDict nd) = Ret (false, errors) ∧ e ∈ errors.
Proof.
  intros Hrange Helse He. open_condition_node o nd Hrange. apply invalid_with.
  rewrite Helse, printed_id_eq. in_errors.
Qed.

(** X26. What a condition with Else validation needs of its Else branch:
    when an Else branch is required, a condition without an Else group
    among its children is invalid; when the Else branch must have
    children, an Else group without any is invalid; and a condition whose
    only child is its Else group is invalid, the THEN branch missing. *)
Theorem else_branch_content (o : condition_options) (nd : dict) :
  operands_in_range nd → validate_else o = true →
  let reports (msg : string) : Prop :=
    ∃ errors, validate_condition_node o (VDict nd) = Ret (false, errors) ∧ msg ∈ errors in
  (∀ children,
     else_required o = true →
     Py.lookup "children" nd = Some (VList children) →
     Forall (λ x, ¬ else_group o x) children →
     reports (cond_prefix (printed_id nd)
              +:+ "condition requires an Else branch group but none was found"))
  ∧ (∀ a r c ed,
       else_require_children o = true →
       Py.lookup "children" nd = Some (VList (a ++ c :: r)) →
       Forall (λ x, ¬ else_group o x) a → else_group o c →
       c = VDict ed →
       Py.get ed "children" = VNone ∨ Py.get ed "children" = VList [] →
       reports ("For condition '" +:+ Py.str (printed_id nd)
                +:+ "',Else branch must contain at least one child"))
  ∧ (∀ c,
       Py.lookup "children" nd = Some (VList [c]) → else_group o c →
       reports "Condition must have at least one non-Else child as the THEN branch").
Proof.
  intros Hrange Helse reports. subst reports.
  assert (Hreported := λ e, else_errors_reported o nd e Hrange Helse).
  split; [|split].
  - intros children Hrequired Hchildren Hnone%not_else_group. apply Hreported.
    unfold else_errors. cbv zeta. rewrite (children_of _ _ Hchildren), Hrequired.
    unfold else_idxs. rewrite (else_idxs_none _ _ _ Hnone).
    rewrite (bool_decide_eq_true_2 ([] = [])) by reflexivity. cbn [andb err_if].
    in_errors.
  - intros a r c ed Hrequire Hchildren Hnone%not_else_group Hc -> Hempty.
    apply Hreported. unfold else_errors. cbv zeta.
    rewrite (children_of _ _ Hchildren), (else_idxs_at _ _ _ _ Hnone Hc).
    cbv iota beta.
    rewrite (list_lookup_middle a r (VDict ed) (length a) eq_refl).
    change (default VNone (Some (VDict ed))) with (VDict ed). cbv iota beta.
    rewrite Hrequire.
    assert (Hnochild :
      match match Py.get_or ed "children" (VList []) with
            | VNone => VList []
            | c => c
            end with
      | VList l => l
      | _ => []
      end = []).
    { unfold Py.get_or. unfold Py.get in Hempty.
      destruct (Py.lookup "children" ed) as [v|]; cbn [default] in *; [|reflexivity].
      by destruct Hempty as [->| ->]. }
    rewrite Hnochild.
    rewrite (bool_decide_eq_true_2 (length (@nil value) = 0%nat)) by reflexivity.
    cbn [andb err_if]. in_errors.
  - intros c Hchildren Hc. apply Hreported. unfold else_errors. cbv zeta.
    rewrite (children_of _ _ Hchildren).
    change [c] with ([] ++ [c]).
    rewrite (else_idxs_at _ [] [] c (Forall_nil_2 _) Hc). cbv iota beta.
    cbn [length]. rewrite (bool_decide_eq_true_2 (Z.of_nat 1 - 1 < 1)) by done.
    cbn [err_if]. in_errors.
Qed.

End condition_rules.

(** ** Order nodes: allowed symbols, side, weights *)

Section order_rules.
Context `{FloatText}.
Import LogicValidator.

(** A weight that converts to a negative float is reported by the loop. *)
Lemma weights_loop_negative (node_id : value) (symbols : gset string) (wd : dict)
    (w : option float) (k : string) (v : value) (f : float) (es : list string) :
  weights_loop node_id symbols wd w = Ret es →
  (k, v) ∈ wd → Py.is_list v || Py.is_dict v || Py.is_bool v = false →
  Py.to_float v = Ret f → Py.flt f Py.fzero = true →
  order_prefix node_id +:+ "Weight for " +:+ Py.upper k +:+ " must be >= 0" ∈ es.
Proof.
  intros Hloop Hin Hkind Hfloat Hnegative. revert w es Hloop.
  induction wd as [|[k' v'] wd IH]; intros w es Hloop; [by apply elem_of_nil in Hin|].
  cbn [weights_loop] in Hloop. apply elem_of_cons in Hin as [[= <- <-]|Hin].
  - rewrite Hkind, Hfloat in Hloop.
    destruct (weights_loop node_id symbols wd (Some f)) as [es'|]; [|discriminate Hloop].
    injection Hloop as <-. rewrite Hnegative. cbn [err_if]. in_errors.
  - destruct (Py.is_list v' || Py.is_dict v' || Py.is_bool v').
    + destruct (weights_loop node_id symbols wd w) as [es'|] eqn:Hrest;
        [|discriminate Hloop].
      injection Hloop as <-. specialize (IH Hin w es' Hrest).
      apply elem_of_app; right. apply list_elem_of_further, IH.
    + destruct (match Py.to_float v' with
                | Ret f0 => ([], Some f0)
                | Raise _ => (_, w)
                end) as [e_number [f'|]]; [|discriminate Hloop].
      destruct (weights_loop node_id symbols wd (Some f')) as [es'|] eqn:Hrest;
        [|discriminate Hloop].
      injection Hloop as <-. specialize (IH Hin (Some f') es' Hrest). in_errors.
Qed.

(** X27. On an order node whose fields have the types of the schema: a
    referenced symbol outside the allowed tickers (compared in upper
    case), a side that is neither [long] nor [short], and a weight that
    converts to a negative number each make the order invalid, with the
    error of that rule; and every key of [weights] counts as referenced,
    so the test behind "Unexpected weight" never holds. *)
Theorem order_rules (nd wd : dict) (universe allowed_tickers : list string) :
  Py.get nd "type" = VStr "order" →
  order_fields_typed nd wd universe →
  let verdict := validate_order_node (VDict nd) allowed_tickers in
  let symbols :=
    order_symbols wd (Py.get nd "symbol_filter") (Py.upper <$> universe) in
  (∀ sym,
     referenced nd wd universe sym → sym ∉ Py.upper <$> allowed_tickers →
     ∃ errors invalid,
       verdict = Ret (false, errors)
       ∧ order_prefix (Py.get nd "id") +:+ "Symbols not allowed: "
         +:+ Py.join ", " invalid ∈ errors
       ∧ sym ∈ invalid)
  ∧ ((∀ side, Py.get nd "side" = VStr side → side ∉ ["long"; "short"]) →
     ∃ errors,
       verdict = Ret (false, errors)
       ∧ order_prefix (Py.get nd "id") +:+ "order.side must be 'long' or 'short'"
         ∈ errors)
  ∧ (∀ k v f,
       (k, v) ∈ wd → Py.is_list v || Py.is_dict v || Py.is_bool v = false →
       Py.to_float v = Ret f → Py.flt f Py.fzero = true →
       ∃ errors,
         verdict = Ret (false, errors)
         ∧ order_prefix (Py.get nd "id") +:+ "Weight for " +:+ Py.upper k
           +:+ " must be >= 0" ∈ errors)
  ∧ (∀ k v, (k, v) ∈ wd → Py.upper k ∈ symbols).
Proof.
  intros Htype [Hsize_type Hsize Hweights Huniverse Hvalues] verdict symbols.
  subst verdict symbols.
  unfold validate_order_node; cbv zeta.
  rewrite Htype. cbn [Py.eq_str String.eqb Ascii.eqb Bool.eqb negb].
  destruct (in_str_set_hashable _
              ["percent_equity"; "fixed_qty"; "fixed_value"; "risk_based"] Hsize_type)
    as [size_type_ok ->].
  destruct (size_step_returns nd Hsize) as [e_size ->].
  change (if Py.truthy (Py.get nd "weights") then Py.get nd "weights" else VDict [])
    with (order_weights nd).
  change (if Py.truthy (Py.get nd "universe") then Py.get nd "universe" else VList [])
    with (order_universe nd).
  rewrite Hweights, Huniverse.
  assert (Hupper :
    (if Py.truthy (VList (VStr <$> universe))
     then upper_each (VList (VStr <$> universe)) else Ret [])
    = Ret (Py.upper <$> universe)).
  { destruct universe; [reflexivity|]. apply upper_each_strings. }
  rewrite Hupper. cbn [mbind result_bind].
  destruct (weights_loop_returns (Py.get nd "id")
              (order_symbols wd (Py.get nd "symbol_filter") (Py.upper <$> universe))
              wd None Hvalues) as [e_loop Hloop].
  rewrite Hloop. cbn [mbind result_bind].
  split; [|split; [|split]].
  - intros sym Href%referenced_symbols Hout.
    set (invalid := Py.sorted (elements (filter _ (order_symbols _ _ _)))).
    assert (Hinvalid : sym ∈ invalid).
    { unfold invalid, Py.sorted.
      rewrite merge_sort_Permutation, elem_of_elements, elem_of_filter.
      split; [|exact Href]. by rewrite elem_of_list_to_set. }
    assert (Hne : invalid ≠ []).
    { intros Hnil. rewrite Hnil in Hinvalid. by apply elem_of_nil in Hinvalid. }
    rewrite (bool_decide_eq_true_2 _ Hne). cbn [err_if].
    eexists _, invalid. split; [|split; [|exact Hinvalid]].
    + eapply (finish_invalid
                (order_prefix _ +:+ "Symbols not allowed: " +:+ Py.join ", " invalid)).
      in_errors.
    + in_errors.
  - intros Hside. apply invalid_with.
    assert (Hbad : negb (Py.mem match Py.get nd "side" with
                                | VStr s => s
                                | _ => ""
                                end ["long"; "short"]) = true).
    { apply negb_true_iff, bool_decide_eq_false.
      destruct (Py.get nd "side") as [| | | |side| |] eqn:Hget;
        try (intros Hin; repeat (apply elem_of_cons in Hin as [Hin|Hin];
                                 [discriminate Hin|]);
             by apply elem_of_nil in Hin).
      by apply Hside. }
    in_errors.
  - intros k v f Hin Hkind Hfloat Hnegative. apply invalid_with.
    pose proof (weights_loop_negative _ _ _ _ k v f e_loop Hloop Hin Hkind Hfloat
                  Hnegative) as Hreported.
    in_errors.
  - intros k v Hin. unfold order_symbols.
    apply elem_of_union_l, elem_of_union_l.
    destruct wd as [|kv wd']; [by apply elem_of_nil in Hin|].
    cbn [Py.truthy]. apply elem_of_list_to_set, list_elem_of_fmap.
    exists k. split; [reflexivity|]. unfold Py.keys. apply list_elem_of_fmap.
    by exists (k, v).
Qed.

End order_rules.

Lemma verdicts_are_consistent_witness :
  LogicValidator.printed
    (LogicValidator.handle
       (@LogicValidator.validate_weight_node example_float_text
          (VDict [("type", VStr "weight")]) ["SPY"]))
  = ["Error: For weight None, Weight node must have an allocation_method"].
Proof.
  destruct (@verdicts_are_consistent example_float_text
              (VDict [("type", VStr "weight")]) ["SPY"] LogicValidator.default_options
              true false None None true false
              ["For weight None, Weight node must have an allocation_method"])
    as (_ & Hprinted & _).
  - right; right; left. reflexivity.
  - exact Hprinted.
Defined.

Lemma filter_rules_witness :
  ∃ errors,
    @LogicValidator.validate_filter_node example_float_text
      (VDict [("type", VStr "filter");
              ("universe", VList [VStr "spy"; VStr " SPY "; VStr "tqqq"]);
              ("select", VStr "top");
              ("selection", VDict [("n", VInt 3)]);
              ("metric", VDict [("name", VStr "cumulative-return")])])
      None (Some ["SPY"; "TQQQ"]) true
    = Ret (false, errors)
    ∧ "For filter 'None', filter.selection.n (3) cannot exceed universe size (2)"
      ∈ errors.
Proof.
  destruct (@filter_rules example_float_text
              [("type", VStr "filter");
               ("universe", VList [VStr "spy"; VStr " SPY "; VStr "tqqq"]);
               ("select", VStr "top");
               ("selection", VDict [("n", VInt 3)]);
               ("metric", VDict [("name", VStr "cumulative-return")])]
              ["spy"; " SPY "; "tqqq"] None (Some ["SPY"; "TQQQ"]) true)
    as (Hsize & _ & _).
  - split; [reflexivity|reflexivity|]. intros md [= <-]. reflexivity.
  - apply (Hsize [("n", VInt 3)] 3); [reflexivity|reflexivity| |].
    + vm_compute. discriminate.
    + vm_compute. reflexivity.
Defined.

Lemma condition_operand_pairing_witness :
  ∃ errors,
    @LogicValidator.validate_condition_node example_float_text
      LogicValidator.default_options
      (VDict [("type", VStr "condition"); ("lhs", price_of_spy)])
    = Ret (false, errors)
    ∧ "For condition 'None', All two of condition.lhs, and condition.operator are required"
      ∈ errors.
Proof.
  destruct (@condition_operand_pairing example_float_text LogicValidator.default_options
              [("type", VStr "condition"); ("lhs", price_of_spy)])
    as (Hpair & _ & _).
  - check_operands_in_range.
  - apply Hpair. vm_compute. discriminate.
Defined.

Lemma metric_operand_checks_witness :
  ∃ errors,
    @LogicValidator.validate_condition_node example_float_text
      LogicValidator.default_options
      (VDict (comparison "gt" (VDict [("name", VStr "rsi"); ("symbol", VStr "SPY")])
                (VInt 30) []))
    = Ret (false, errors)
    ∧ "For condition 'None', lhs: metric 'rsi' requires args.period as positive int"
      ∈ errors.
Proof.
  destruct (@metric_operand_checks example_float_text LogicValidator.default_options
              (comparison "gt" (VDict [("name", VStr "rsi"); ("symbol", VStr "SPY")])
                 (VInt 30) [])
              [("name", VStr "rsi"); ("symbol", VStr "SPY")] "lhs" "rsi")
    as (_ & _ & _ & Hperiod).
  - check_operands_in_range.
  - apply list_elem_of_here.
  - reflexivity.
  - reflexivity.
  - reflexivity.
  - apply Hperiod; [|reflexivity].
    apply list_elem_of_further, list_elem_of_here.
Defined.

Lemma else_branch_content_witness :
  ∃ errors,
    @LogicValidator.validate_condition_node example_float_text else_options
      (VDict (comparison "gt" price_of_spy (VFloat (price 100)) [group_of "else"]))
    = Ret (false, errors)
    ∧ "Condition must have at least one non-Else child as the THEN branch" ∈ errors.
Proof.
  destruct (@else_branch_content example_float_text else_options
              (comparison "gt" price_of_spy (VFloat (price 100)) [group_of "else"]))
    as (_ & _ & Hthen).
  - check_operands_in_range.
  - reflexivity.
  - apply (Hthen (group_of "else")); reflexivity.
Defined.

Lemma order_rules_witness :
  ∃ errors,
    @LogicValidator.validate_order_node example_float_text
      (VDict [("type", VStr "order"); ("side", VStr "hold");
              ("weights", VDict [("SPY", VInt 1)])]) ["SPY"]
    = Ret (false, errors)
    ∧ "For order 'None', order.side must be 'long' or 'short'" ∈ errors.
Proof.
  destruct (@order_rules example_float_text
              [("type", VStr "order"); ("side", VStr "hold");
               ("weights", VDict [("SPY", VInt 1)])]
              [("SPY", VInt 1)] [] ["SPY"])
    as (_ & Hside & _).
  - reflexivity.
  - split; [reflexivity| |reflexivity|reflexivity|].
    + intros z [=].
    + apply Forall_singleton. right. eexists. vm_compute. reflexivity.
  - apply Hside. intros side [= <-] Hin.
    repeat (apply elem_of_cons in Hin as [Hin|Hin]; [discriminate Hin|]).
    by apply elem_of_nil in Hin.
Defined.
